(** * Incremental merge-and-dedupe update of the price time-series stores

    A shallow embedding of the three data managers under [scripts/]
    ([crypto_data_manager.py], [psx_data_manager.py],
    [spx500_data_manager.py]) and the properties of their update
    algorithm.

    Modelling conventions.
    - A pandas [DataFrame] is the list of its rows, in index order.
    - The [date] column holds valid timestamps at day granularity (all
      three sources produce [%Y-%m-%d] dates), modelled as integer day
      numbers.  [NaT] only appears as the result of [max()] over an
      empty frame, hence [max_date] returns an [option].
    - A frame carries the columns of its domain's schema.
    - Numeric cells are Python floats.  Finite values are kept as exact
      rationals (rounding to binary64 is outside the model); [NaN] is
      pandas' missing value.
    - The file system is a finite map from file names to file contents;
      [stderr] is the list of lines printed so far.
    - The vendor HTTP fetch is an input of the model. *)

From Stdlib Require Import ZArith QArith Bool List Ascii String Sorting Permutation Lia.
From stdpp Require Import base option gmap strings.
Import ListNotations.

(** ** Python strings (ASCII text) *)

Module Py.

Definition chars (s : string) : list ascii := list_ascii_of_string s.
Definition text (l : list ascii) : string := string_of_list_ascii l.

Definition is_lower (c : ascii) : bool :=
  (97 <=? nat_of_ascii c)%nat && (nat_of_ascii c <=? 122)%nat.
Definition is_upper (c : ascii) : bool :=
  (65 <=? nat_of_ascii c)%nat && (nat_of_ascii c <=? 90)%nat.
Definition is_digit (c : ascii) : bool :=
  (48 <=? nat_of_ascii c)%nat && (nat_of_ascii c <=? 57)%nat.

Definition upper_char (c : ascii) : ascii :=
  if is_lower c then ascii_of_nat (nat_of_ascii c - 32) else c.
Definition lower_char (c : ascii) : ascii :=
  if is_upper c then ascii_of_nat (nat_of_ascii c + 32) else c.

(** [s.upper()] *)
Definition upper (s : string) : string := text (map upper_char (chars s)).

Fixpoint prefixb (p l : list ascii) : bool :=
  match p, l with
  | [], _ => true
  | _ :: _, [] => false
  | a :: p', b :: l' => Ascii.eqb a b && prefixb p' l'
  end.

(** Left-to-right replacement of the non-overlapping occurrences of a
    non-empty [old]; [skip] counts the characters of a match still to be
    dropped. *)
Fixpoint replace_from (old new : list ascii) (skip : nat) (l : list ascii)
  : list ascii :=
  match l with
  | [] => []
  | c :: l' =>
      match skip with
      | S k => replace_from old new k l'
      | O =>
          if prefixb old l
          then new ++ replace_from old new (List.length old - 1) l'
          else c :: replace_from old new 0 l'
      end
  end.

(** [s.replace(old, new)], for a non-empty [old] *)
Definition replace (old new s : string) : string :=
  text (replace_from (chars old) (chars new) 0 (chars s)).

(** [s.endswith(suffix)] *)
Definition endswith (s suffix : string) : bool :=
  prefixb (rev (chars suffix)) (rev (chars s)).

(** The characters [str.strip()] removes: TAB, LF, VT, FF, CR,
    FS, GS, RS, US and the space. *)
Definition is_space (c : ascii) : bool :=
  let n := nat_of_ascii c in
  ((9 <=? n) && (n <=? 13) || (28 <=? n) && (n <=? 32))%nat.

Fixpoint lstrip_by (sp : ascii -> bool) (l : list ascii) : list ascii :=
  match l with
  | [] => []
  | c :: l' => if sp c then lstrip_by sp l' else l
  end.

Definition strip_by (sp : ascii -> bool) (l : list ascii) : list ascii :=
  rev (lstrip_by sp (rev (lstrip_by sp l))).

(** A text with no blank at either end. *)
Definition trimmed (sp : ascii -> bool) (k : list ascii) : Prop :=
  match k with
  | [] => True
  | c :: _ => sp c = false /\ exists c', last k = Some c' /\ sp c' = false
  end.

(** [s.strip()] *)
Definition strip (s : string) : string := text (strip_by is_space (chars s)).

(** Exceptions and computations that may raise. *)
Inductive exn := ValueError | TypeError | KeyError.

Inductive outcome (A : Type) :=
| Ret (a : A)
| Raise (e : exn).
Arguments Ret {A} a.
Arguments Raise {A} e.

Definition bind {A B} (m : outcome A) (k : A -> outcome B) : outcome B :=
  match m with
  | Ret a => k a
  | Raise e => Raise e
  end.

(** [try: body  except (ValueError, TypeError): return dflt] *)
Definition try_except_value_type {A} (body : outcome A) (dflt : A)
  : outcome A :=
  match body with
  | Ret a => Ret a
  | Raise ValueError | Raise TypeError => Ret dflt
  | Raise e => Raise e
  end.

(** *** Floats *)

Inductive pyfloat :=
| Fin (q : Q)
| Inf (negative : bool)
| NaN.

Definition qzero (q : Q) : bool := (Qnum q =? 0)%Z.
Definition qneg (q : Q) : bool := (Qnum q <? 0)%Z.

(** [x * y] on floats *)
Definition fmul (x y : pyfloat) : pyfloat :=
  match x, y with
  | NaN, _ | _, NaN => NaN
  | Fin a, Fin b => Fin (Qred (a * b))
  | Fin a, Inf s | Inf s, Fin a =>
      if qzero a then NaN else Inf (xorb s (qneg a))
  | Inf s, Inf t => Inf (xorb s t)
  end.

(** [pd.notna(x)] on a float cell *)
Definition notna (x : pyfloat) : bool :=
  match x with
  | NaN => false
  | _ => true
  end.

(** The whitespace [float()] itself skips at both ends of an ASCII
    string: TAB, LF, VT, FF, CR and the space. *)
Definition is_c_space (c : ascii) : bool :=
  let n := nat_of_ascii c in
  ((9 <=? n) && (n <=? 13) || (n =? 32))%nat.

Definition is_underscore (c : ascii) : bool := Ascii.eqb c "_".

(** Underscores are allowed only between two digits; the result is the
    text without them. [prev] is the previous character. *)
Fixpoint check_underscores (prev : option ascii) (l : list ascii)
  : option (list ascii) :=
  match l with
  | [] =>
      match prev with
      | Some p => if is_underscore p then None else Some []
      | None => Some []
      end
  | c :: l' =>
      if is_underscore c then
        match prev with
        | Some p => if is_digit p then check_underscores (Some c) l' else None
        | None => None
        end
      else
        let after_underscore :=
          match prev with
          | Some p => is_underscore p
          | None => false
          end in
        if after_underscore && negb (is_digit c) then None
        else option_map (cons c) (check_underscores (Some c) l')
  end.

Definition digit_val (c : ascii) : Z := Z.of_nat (nat_of_ascii c - 48).

(** Reads a maximal run of digits: the accumulated value, the number of
    digits read and the rest of the text. *)
Fixpoint span_digits (acc : Z) (n : nat) (l : list ascii)
  : Z * nat * list ascii :=
  match l with
  | c :: l' =>
      if is_digit c then span_digits (10 * acc + digit_val c)%Z (S n) l'
      else (acc, n, l)
  | [] => (acc, n, [])
  end.

Definition split_sign (l : list ascii) : bool * list ascii :=
  match l with
  | "-"%char :: l' => (true, l')
  | "+"%char :: l' => (false, l')
  | _ => (false, l)
  end.

Definition pow10 (e : Z) : Q :=
  if (0 <=? e)%Z then inject_Z (10 ^ e) else / inject_Z (10 ^ (- e)).

(** [digits [. digits] [e [sign] digits]] with at least one mantissa
    digit, in lower case and without underscores. *)
Definition parse_decimal (l : list ascii) : option Q :=
  let '(ip, n1, r1) := span_digits 0 0 l in
  let '(mant, n2, r2) :=
    match r1 with
    | "."%char :: r => span_digits ip 0 r
    | _ => (ip, 0%nat, r1)
    end in
  if (n1 + n2 =? 0)%nat then None
  else
    match r2 with
    | [] => Some (Qred (inject_Z mant * pow10 (- Z.of_nat n2)))
    | "e"%char :: r =>
        let '(eneg, r') := split_sign r in
        let '(ev, n3, r3) := span_digits 0 0 r' in
        match n3, r3 with
        | S _, [] =>
            let e := if eneg then (- ev)%Z else ev in
            Some (Qred (inject_Z mant * pow10 (e - Z.of_nat n2)))
        | _, _ => None
        end
    | _ => None
    end.

Definition list_eqb (a b : list ascii) : bool := String.eqb (text a) (text b).

(** The float literal itself, once the surrounding whitespace is gone:
    letters are case-insensitive, and anything that is not a literal
    raises [ValueError]. *)
Definition float_literal (k : list ascii) : outcome pyfloat :=
  let t := map lower_char k in
  match check_underscores None t with
  | None => Raise ValueError
  | Some u =>
      let '(neg, body) := split_sign u in
      if list_eqb body (chars "inf") || list_eqb body (chars "infinity")
      then Ret (Inf neg)
      else if list_eqb body (chars "nan") then Ret NaN
      else
        match parse_decimal body with
        | Some q => Ret (Fin (if neg then Qred (- q) else q))
        | None => Raise ValueError
        end
  end.

(** [float(s)] for a string *)
Definition py_float (s : string) : outcome pyfloat :=
  float_literal (strip_by is_c_space (chars s)).

(** The characters of float literals: digits, signs, the point, the
    underscore and the letters of [e], [inf], [infinity] and [nan]. *)
Definition numeric_char (c : ascii) : bool :=
  is_digit c || existsb (Ascii.eqb c) (chars "+-._einftya").

(** The characters a string accepted by [float()] can hold. *)
Definition float_char (c : ascii) : bool :=
  is_c_space c || numeric_char (lower_char c).

(** The characters a volume text can hold: those of a number in either
    case, blanks, the thousands separator and the suffixes B, M, K. *)
Definition volume_char (c : ascii) : bool :=
  is_space c || Ascii.eqb c "," || numeric_char (lower_char c)
  || existsb (Ascii.eqb (upper_char c)) (chars "BMK").

(** A value decoded from JSON, as far as [parse_volume] looks at it:
    [None], a string, or anything else, known by its truth value and its
    [str()]. *)
Inductive pyval :=
| VNone
| VStr (s : string)
| VOther (truth : bool) (repr : string).

(** [bool(v)] *)
Definition truthy (v : pyval) : bool :=
  match v with
  | VNone => false
  | VStr s => negb (String.eqb s "")
  | VOther b _ => b
  end.

(** [str(v)] *)
Definition str (v : pyval) : string :=
  match v with
  | VNone => "None"
  | VStr s => s
  | VOther _ r => r
  end.

End Py.

(** ** Data frames keyed by date, and the parquet store *)

Module Frame.

(** Contents of an existing [.parquet] file: a table, or bytes that
    [pd.read_parquet] rejects. *)
Inductive File (R : Type) :=
| Parquet (t : list R)
| Unreadable.
Arguments Parquet {R} t.
Arguments Unreadable {R}.

(** Lines printed to [sys.stderr] by the storage layer. *)
Inductive LogLine :=
| ErrorLoading (name : string)
| ErrorSaving (name : string).

Record World (R : Type) := mkWorld {
  files : gmap string (File R);
  stderr : list LogLine
}.
Arguments mkWorld {R} files stderr.
Arguments files {R} w.
Arguments stderr {R} w.

Definition print_stderr {R} (line : LogLine) (w : World R) : World R :=
  mkWorld (files w) (stderr w ++ [line]).

Section Ops.
Context {R : Type} (date : R -> Z).

(** [df.sort_values("date")]: pandas promises no particular order among
    rows of equal date; the model keeps their relative order. *)
Fixpoint insert_by_date (r : R) (l : list R) : list R :=
  match l with
  | [] => [r]
  | x :: l' =>
      if (date r <=? date x)%Z then r :: l else x :: insert_by_date r l'
  end.

Fixpoint sort_values (l : list R) : list R :=
  match l with
  | [] => []
  | r :: l' => insert_by_date r (sort_values l')
  end.

(** [df["date"].max()]; [None] is [NaT], the maximum of no dates. *)
Fixpoint max_date (l : list R) : option Z :=
  match l with
  | [] => None
  | r :: l' =>
      match max_date l' with
      | None => Some (date r)
      | Some m => Some (Z.max (date r) m)
      end
  end.

(** [df["date"] > latest], row by row; every comparison with [NaT] is
    false. *)
Definition newer_than (latest : option Z) (r : R) : bool :=
  match latest with
  | Some m => (m <? date r)%Z
  | None => false
  end.

(** [df[df["date"] > latest]] *)
Definition select_newer (latest : option Z) (df : list R) : list R :=
  List.filter (newer_than latest) df.

(** [df.drop_duplicates(subset=["date"], keep="last")] *)
Fixpoint drop_duplicates_last (l : list R) : list R :=
  match l with
  | [] => []
  | r :: l' =>
      if existsb (fun x => (date x =? date r)%Z) l'
      then drop_duplicates_last l'
      else r :: drop_duplicates_last l'
  end.

(** Sorted ascending by date, and strictly so (which excludes two rows
    of the same date). *)
Definition ascending (df : list R) : Prop :=
  StronglySorted Z.le (map date df).
Definition strictly_ascending (df : list R) : Prop :=
  StronglySorted Z.lt (map date df).

(** Every table of the store is sorted ascending by date. *)
Definition tables_ascending (w : World R) : Prop :=
  forall path t, files w !! path = Some (Parquet t) -> ascending t.

(** [load_stored_data], given the file name and the name printed in the
    error line. *)
Definition load_stored_data (path name : string) (w : World R)
  : option (list R) * World R :=
  match files w !! path with
  | None => (None, w)
  | Some (Parquet t) => (Some t, w)
  | Some Unreadable => (None, print_stderr (ErrorLoading name) w)
  end.

(** [save_data]; [write_ok] tells whether [to_parquet] succeeds. *)
Definition save_data (write_ok : bool) (path name : string) (df : list R)
  (w : World R) : bool * World R :=
  if write_ok
  then (true, mkWorld (<[path := Parquet df]> (files w)) (stderr w))
  else (false, print_stderr (ErrorSaving name) w).
End Ops.

(** The dictionary returned by [update_data]. *)
Inductive Status := success | error.

Inductive Message :=
| FailedToFetch (name : string)
| NoDataParsed
| InitialDataSaved (name : string)
| FailedToSave (name : string)
| NoNewData (name : string)
| AddedNewRecords (n : nat) (name : string).

(** A JSON date: [null], or the [isoformat()] of a timestamp ([Iso None]
    is the text of [NaT]). *)
Inductive JsonDate :=
| Null
| Iso (t : option Z).

(** [new_records_count] and [latest_date] are [None] when the key is not
    in the dictionary. *)
Record UpdateResult := mkResult {
  status : Status;
  message : Message;
  records_count : nat;
  new_records_count : option nat;
  latest_date : option JsonDate
}.

End Frame.

Import Py Frame.

(** ** [crypto_data_manager.py] *)

Module Crypto.

Record Row := mkRow {
  date : Z;
  open : pyfloat;
  high : pyfloat;
  low : pyfloat;
  close : pyfloat;
  volume : pyfloat
}.

(** What the outside world does during one run: the rows
    [fetch_from_api] returns ([None] on any fetch error) and whether a
    write to disk goes through. *)
Record Env := mkEnv {
  api_response : option (list Row);
  write_ok : bool
}.

(** The symbol normalization repeated at the top of each function. *)
Definition normalize (symbol : string) : string :=
  let normalized :=
    replace "/" "" (replace "_" "" (replace "-" "" (upper symbol))) in
  if endswith normalized "USDT" then normalized
  else normalized +:+ "USDT".

Definition get_file_path (symbol : string) : string :=
  normalize symbol +:+ ".parquet".

Definition load_stored_data (symbol : string) (w : World Row) :=
  Frame.load_stored_data (get_file_path symbol) symbol w.

Definition save_data (env : Env) (symbol : string) (df : list Row)
  (w : World Row) :=
  Frame.save_data (write_ok env) (get_file_path symbol) symbol df w.

Definition update_data (env : Env) (symbol : string) (force_refresh : bool)
  (w : World Row) : UpdateResult * World Row :=
  let normalized := normalize symbol in
  let '(stored_df, w) :=
    if negb force_refresh then load_stored_data normalized w
    else (None, w) in
  match api_response env with
  | None | Some [] =>
      (mkResult error (FailedToFetch normalized) 0 None None, w)
  | Some api_data =>
      let df_new := sort_values date api_data in
      match stored_df with
      | None =>
          let '(saved, w) := save_data env normalized df_new w in
          (mkResult
             (if saved then success else error)
             (if saved then InitialDataSaved normalized
              else FailedToSave normalized)
             (List.length df_new)
             None
             (Some (if (0 <? List.length df_new)%nat
                    then Iso (max_date date df_new) else Null)),
           w)
      | Some stored_df =>
          let stored_latest_date := max_date date stored_df in
          let new_records := select_newer date stored_latest_date df_new in
          if (List.length new_records =? 0)%nat then
            (mkResult success (NoNewData normalized)
               (List.length stored_df) (Some 0%nat)
               (Some (Iso stored_latest_date)),
             w)
          else
            let df_combined := stored_df ++ new_records in
            let df_combined := drop_duplicates_last date df_combined in
            let df_combined := sort_values date df_combined in
            let '(saved, w) := save_data env normalized df_combined w in
            (mkResult
               (if saved then success else error)
               (if saved
                then AddedNewRecords (List.length new_records) normalized
                else FailedToSave normalized)
               (List.length df_combined)
               (Some (List.length new_records))
               (Some (if (0 <? List.length df_combined)%nat
                      then Iso (max_date date df_combined) else Null)),
             w)
      end
  end.

(** The dictionary returned by [get_latest_price]. *)
Record Quote := mkQuote {
  q_symbol : string;
  q_date : option Z;
  q_close : option pyfloat;
  q_open : option pyfloat;
  q_high : option pyfloat;
  q_low : option pyfloat;
  q_volume : option pyfloat
}.

(** [float(x) if pd.notna(x) else None] *)
Definition float_or_null (x : pyfloat) : option pyfloat :=
  if notna x then Some x else None.

Definition get_latest_price (symbol : string) (w : World Row)
  : option Quote * World Row :=
  let normalized := normalize symbol in
  let '(df, w) := load_stored_data normalized w in
  match df with
  | None => (None, w)
  | Some df =>
      match last df with
      | None => (None, w)
      | Some latest =>
          (Some (mkQuote normalized
                   (Some (date latest))
                   (float_or_null (close latest))
                   (float_or_null (open latest))
                   (float_or_null (high latest))
                   (float_or_null (low latest))
                   (float_or_null (volume latest))),
           w)
      end
  end.

End Crypto.

(** ** [psx_data_manager.py] *)

Module Psx.

(** One element of the vendor's list, with the vendor's keys. *)
Record ApiRecord := mkApiRecord {
  t : Z;
  o : pyfloat;
  h : pyfloat;
  l : pyfloat;
  c : pyfloat;
  a : pyfloat;
  v : pyfloat;
  ch : pyfloat
}.

Record Row := mkRow {
  date : Z;
  open : pyfloat;
  high : pyfloat;
  low : pyfloat;
  close : pyfloat;
  adjusted_close : pyfloat;
  volume : pyfloat;
  change_pct : pyfloat
}.

(** [df_new.rename(columns=column_mapping)], row by row *)
Definition column_mapping (r : ApiRecord) : Row :=
  mkRow (t r) (o r) (h r) (l r) (c r) (a r) (v r) (ch r).

Record Env := mkEnv {
  api_response : option (list ApiRecord);
  write_ok : bool
}.

Definition get_file_path (ticker : string) : string :=
  upper ticker +:+ ".parquet".

Definition load_stored_data (ticker : string) (w : World Row) :=
  Frame.load_stored_data (get_file_path ticker) ticker w.

Definition save_data (env : Env) (ticker : string) (df : list Row)
  (w : World Row) :=
  Frame.save_data (write_ok env) (get_file_path ticker) ticker df w.

Definition update_data (env : Env) (ticker : string) (force_refresh : bool)
  (w : World Row) : UpdateResult * World Row :=
  let ticker := upper ticker in
  let '(stored_df, w) :=
    if negb force_refresh then load_stored_data ticker w
    else (None, w) in
  match api_response env with
  | None | Some [] =>
      (mkResult error (FailedToFetch ticker) 0 None None, w)
  | Some api_data =>
      let df_new := map column_mapping api_data in
      let df_new := sort_values date df_new in
      match stored_df with
      | None =>
          let '(saved, w) := save_data env ticker df_new w in
          (mkResult
             (if saved then success else error)
             (if saved then InitialDataSaved ticker else FailedToSave ticker)
             (List.length df_new)
             None
             (Some (if (0 <? List.length df_new)%nat
                    then Iso (max_date date df_new) else Null)),
           w)
      | Some stored_df =>
          let stored_latest_date := max_date date stored_df in
          let new_records := select_newer date stored_latest_date df_new in
          if (List.length new_records =? 0)%nat then
            (mkResult success (NoNewData ticker)
               (List.length stored_df) (Some 0%nat)
               (Some (Iso stored_latest_date)),
             w)
          else
            let df_combined := stored_df ++ new_records in
            let df_combined := drop_duplicates_last date df_combined in
            let df_combined := sort_values date df_combined in
            let '(saved, w) := save_data env ticker df_combined w in
            (mkResult
               (if saved then success else error)
               (if saved
                then AddedNewRecords (List.length new_records) ticker
                else FailedToSave ticker)
               (List.length df_combined)
               (Some (List.length new_records))
               (Some (if (0 <? List.length df_combined)%nat
                      then Iso (max_date date df_combined) else Null)),
             w)
      end
  end.

Record Quote := mkQuote {
  q_ticker : string;
  q_date : option Z;
  q_close : option pyfloat;
  q_open : option pyfloat;
  q_high : option pyfloat;
  q_low : option pyfloat;
  q_volume : option pyfloat;
  q_change_pct : option pyfloat
}.

Definition float_or_null (x : pyfloat) : option pyfloat :=
  if notna x then Some x else None.

Definition get_latest_price (ticker : string) (w : World Row)
  : option Quote * World Row :=
  let ticker := upper ticker in
  let '(df, w) := load_stored_data ticker w in
  match df with
  | None => (None, w)
  | Some df =>
      match last df with
      | None => (None, w)
      | Some latest =>
          (Some (mkQuote ticker
                   (Some (date latest))
                   (float_or_null (close latest))
                   (float_or_null (open latest))
                   (float_or_null (high latest))
                   (float_or_null (low latest))
                   (float_or_null (volume latest))
                   (float_or_null (change_pct latest))),
           w)
      end
  end.

End Psx.

(** ** [spx500_data_manager.py] *)

Module Spx.

Record Row := mkRow {
  date : Z;
  open : pyfloat;
  high : pyfloat;
  low : pyfloat;
  close : pyfloat;
  volume : pyfloat
}.

(** One element of the vendor's list after the date and price fields
    went through the date parsing and [parse_number]: [rowDate] is
    [None] when the entry has no date or its date does not parse, a
    price is [None] when [parse_number] returns [None]. The volume is
    still the raw JSON value. *)
Record Entry := mkEntry {
  rowDate : option Z;
  last_open : option pyfloat;
  last_max : option pyfloat;
  last_min : option pyfloat;
  last_close : option pyfloat;
  raw_volume : pyval
}.

(** The text [parse_volume] works on, and what it hands to [float()]:
    the cleaned text, without its suffix letter when it ends in B, M or
    K. *)
Definition cleaned_text (vol_str : pyval) : string :=
  strip (upper (replace "," "" (str vol_str))).

Definition numeric_text (vol_str : pyval) : string :=
  let cleaned := cleaned_text vol_str in
  if endswith cleaned "B" then replace "B" "" cleaned
  else if endswith cleaned "M" then replace "M" "" cleaned
  else if endswith cleaned "K" then replace "K" "" cleaned
  else cleaned.

Definition parse_volume (vol_str : pyval) : outcome (option pyfloat) :=
  if negb (truthy vol_str) then Ret None
  else
    try_except_value_type
      (let cleaned := strip (upper (replace "," "" (str vol_str))) in
       if endswith cleaned "B" then
         bind (py_float (replace "B" "" cleaned))
              (fun x => Ret (Some (fmul x (Fin 1000000000))))
       else if endswith cleaned "M" then
         bind (py_float (replace "M" "" cleaned))
              (fun x => Ret (Some (fmul x (Fin 1000000))))
       else if endswith cleaned "K" then
         bind (py_float (replace "K" "" cleaned))
              (fun x => Ret (Some (fmul x (Fin 1000))))
       else
         bind (py_float cleaned) (fun x => Ret (Some x)))
      None.

(** A [None] put in a float column is stored as [NaN]. *)
Definition cell (x : option pyfloat) : pyfloat :=
  match x with
  | Some f => f
  | None => NaN
  end.

(** The body of the loop over the entries: [None] is [continue]. *)
Definition parse_entry (entry : Entry) : outcome (option Row) :=
  match rowDate entry with
  | None => Ret None
  | Some date_iso =>
      bind (parse_volume (raw_volume entry)) (fun vol =>
      Ret (Some (mkRow date_iso
                   (cell (last_open entry))
                   (cell (last_max entry))
                   (cell (last_min entry))
                   (cell (last_close entry))
                   (cell vol))))
  end.

Fixpoint parse_entries (api_data : list Entry) : outcome (list Row) :=
  match api_data with
  | [] => Ret []
  | entry :: rest =>
      bind (parse_entry entry) (fun r =>
      bind (parse_entries rest) (fun records =>
      Ret (match r with
           | Some record => record :: records
           | None => records
           end)))
  end.

Definition parse_investing_data (api_data : list Entry)
  : outcome (list Row) :=
  bind (parse_entries api_data) (fun records =>
  match records with
  | [] => Ret []
  | _ => Ret (sort_values date records)
  end).

(** The fetch depends on the start date computed from the store. *)
Record Env := mkEnv {
  fetch_from_api : option Z -> option (list Entry);
  write_ok : bool
}.

Definition get_file_path : string := "SPX500.parquet".

Definition load_stored_data (w : World Row) :=
  Frame.load_stored_data get_file_path "" w.

Definition save_data (env : Env) (df : list Row) (w : World Row) :=
  Frame.save_data (write_ok env) get_file_path "" df w.

(** [(stored_latest_date + pd.Timedelta(days=1)).strftime(...)]: dates
    count days; [NaT] has no [strftime]. *)
Definition next_day (latest : option Z) : outcome Z :=
  match latest with
  | Some d => Ret (d + 1)%Z
  | None => Raise ValueError
  end.

Definition update_data (env : Env) (force_refresh : bool) (w : World Row)
  : outcome UpdateResult * World Row :=
  let '(stored_df, w) :=
    if negb force_refresh then load_stored_data w else (None, w) in
  let start_date :=
    match stored_df with
    | Some stored_df =>
        if negb force_refresh
        then bind (next_day (max_date date stored_df)) (fun d => Ret (Some d))
        else Ret None
    | None => Ret None
    end in
  match start_date with
  | Raise e => (Raise e, w)
  | Ret start_date =>
  match fetch_from_api env start_date with
  | None | Some [] =>
      (Ret (mkResult error (FailedToFetch "") 0 None None), w)
  | Some api_data =>
  match parse_investing_data api_data with
  | Raise e => (Raise e, w)
  | Ret [] => (Ret (mkResult error NoDataParsed 0 None None), w)
  | Ret df_new =>
      match stored_df with
      | None =>
          let '(saved, w) := save_data env df_new w in
          (Ret (mkResult
             (if saved then success else error)
             (if saved then InitialDataSaved "SPX500" else FailedToSave "")
             (List.length df_new)
             None
             (Some (if (0 <? List.length df_new)%nat
                    then Iso (max_date date df_new) else Null))),
           w)
      | Some stored_df =>
          let stored_latest_date := max_date date stored_df in
          let new_records := select_newer date stored_latest_date df_new in
          if (List.length new_records =? 0)%nat then
            (Ret (mkResult success (NoNewData "SPX500")
               (List.length stored_df) (Some 0%nat)
               (Some (Iso stored_latest_date))),
             w)
          else
            let df_combined := stored_df ++ new_records in
            let df_combined := drop_duplicates_last date df_combined in
            let df_combined := sort_values date df_combined in
            let '(saved, w) := save_data env df_combined w in
            (Ret (mkResult
               (if saved then success else error)
               (if saved
                then AddedNewRecords (List.length new_records) "SPX500"
                else FailedToSave "")
               (List.length df_combined)
               (Some (List.length new_records))
               (Some (if (0 <? List.length df_combined)%nat
                      then Iso (max_date date df_combined) else Null))),
           w)
      end
  end
  end
  end.

End Spx.

(** ** Sample rows and stores *)

Module Sample.

(** A crypto row whose five prices all equal [x]. *)
Definition bar (d : Z) (x : Q) : Crypto.Row :=
  Crypto.mkRow d (Fin x) (Fin x) (Fin x) (Fin x) (Fin x).

Definition tick (d : Z) (x : Q) : Psx.ApiRecord :=
  Psx.mkApiRecord d (Fin x) (Fin x) (Fin x) (Fin x) (Fin x) (Fin x) (Fin x).

Definition point (d : Z) (x : Q) : Spx.Row :=
  Spx.mkRow d (Fin x) (Fin x) (Fin x) (Fin x) (Fin x).

Definition entry (d : Z) (x : Q) : Spx.Entry :=
  Spx.mkEntry (Some d) (Some (Fin x)) (Some (Fin x)) (Some (Fin x))
    (Some (Fin x)) (VStr "3K").

Definition nothing {R} : World R := mkWorld ∅ [].

(** A store holding one readable table. *)
Definition holding {R} (path : string) (t : list R) : World R :=
  mkWorld {[ path := Parquet t ]} [].

(** A store holding one file that does not parse. *)
Definition corrupt {R} (path : string) : World R :=
  mkWorld {[ path := Unreadable ]} [].

Definition btc : string := "BTCUSDT.parquet".
Definition hbl : string := "HBL.parquet".

End Sample.

(** ** The command lines *)

(** What one run of [main] prints: the usage text, the JSON of a result,
    of a quote or of the "No data found" error on stdout; the two usage
    errors on stderr; or the traceback of an exception nothing
    caught. *)
Inductive Printed (Q : Type) :=
| PrintUsage
| PrintResult (result : UpdateResult)
| PrintPrice (price_data : Q)
| PrintNoData (name : string)
| ErrArgumentRequired
| ErrUnknownCommand (command : string)
| Traceback (e : exn).

Arguments PrintUsage {Q}.
Arguments PrintResult {Q} result.
Arguments PrintPrice {Q} price_data.
Arguments PrintNoData {Q} name.
Arguments ErrArgumentRequired {Q}.
Arguments ErrUnknownCommand {Q} command.
Arguments Traceback {Q} e.

(** The exit status of the process ([sys.exit(1)], or 0 when [main]
    returns), what it printed, and the store it leaves. *)
Record Exit (Q R : Type) := mkExit {
  exit_code : Z;
  printed : Printed Q;
  world : World R
}.

Arguments mkExit {Q R} exit_code printed world.
Arguments exit_code {Q R} e.
Arguments printed {Q R} e.
Arguments world {Q R} e.

(** ["--force" in sys.argv] *)
Definition force_flag (argv : list string) : bool :=
  existsb (String.eqb "--force") argv.

Module CryptoCli.

(** [main()]; [argv] is [sys.argv], script name included. *)
Definition main (env : Crypto.Env) (argv : list string)
  (w : World Crypto.Row) : Exit Crypto.Quote Crypto.Row :=
  match argv with
  | [] | [_] => mkExit 1 PrintUsage w
  | _ :: command :: args =>
      if String.eqb command "update" then
        match args with
        | [] => mkExit 1 ErrArgumentRequired w
        | symbol :: _ =>
            let force := force_flag argv in
            let '(result, w) := Crypto.update_data env symbol force w in
            mkExit 0 (PrintResult result) w
        end
      else if String.eqb command "price" then
        match args with
        | [] => mkExit 1 ErrArgumentRequired w
        | symbol :: _ =>
            let '(price_data, w) := Crypto.get_latest_price symbol w in
            match price_data with
            | Some price_data => mkExit 0 (PrintPrice price_data) w
            | None => mkExit 1 (PrintNoData symbol) w
            end
        end
      else mkExit 1 (ErrUnknownCommand command) w
  end.

End CryptoCli.

Module PsxCli.

Definition main (env : Psx.Env) (argv : list string)
  (w : World Psx.Row) : Exit Psx.Quote Psx.Row :=
  match argv with
  | [] | [_] => mkExit 1 PrintUsage w
  | _ :: command :: args =>
      if String.eqb command "update" then
        match args with
        | [] => mkExit 1 ErrArgumentRequired w
        | ticker :: _ =>
            let force := force_flag argv in
            let '(result, w) := Psx.update_data env ticker force w in
            mkExit 0 (PrintResult result) w
        end
      else if String.eqb command "price" then
        match args with
        | [] => mkExit 1 ErrArgumentRequired w
        | ticker :: _ =>
            let '(price_data, w) := Psx.get_latest_price ticker w in
            match price_data with
            | Some price_data => mkExit 0 (PrintPrice price_data) w
            | None => mkExit 1 (PrintNoData ticker) w
            end
        end
      else mkExit 1 (ErrUnknownCommand command) w
  end.

End PsxCli.

Module SpxCli.

(** The dictionary returned by [get_latest_price]. *)
Record Quote := mkQuote {
  q_symbol : string;
  q_date : option Z;
  q_close : option pyfloat;
  q_open : option pyfloat;
  q_high : option pyfloat;
  q_low : option pyfloat;
  q_volume : option pyfloat
}.

(** [float(x) if pd.notna(x) else None] *)
Definition float_or_null (x : pyfloat) : option pyfloat :=
  if notna x then Some x else None.

Definition get_latest_price (w : World Spx.Row)
  : option Quote * World Spx.Row :=
  let '(df, w) := Spx.load_stored_data w in
  match df with
  | None => (None, w)
  | Some df =>
      match last df with
      | None => (None, w)
      | Some latest =>
          (Some (mkQuote "SPX500"
                   (Some (Spx.date latest))
                   (float_or_null (Spx.close latest))
                   (float_or_null (Spx.open latest))
                   (float_or_null (Spx.high latest))
                   (float_or_null (Spx.low latest))
                   (float_or_null (Spx.volume latest))),
           w)
      end
  end.

(** [main()]; an exception of [update_data] is caught by nothing and
    ends the process with status 1. *)
Definition main (env : Spx.Env) (argv : list string)
  (w : World Spx.Row) : Exit Quote Spx.Row :=
  match argv with
  | [] | [_] => mkExit 1 PrintUsage w
  | _ :: command :: _ =>
      if String.eqb command "update" then
        let force := force_flag argv in
        let '(result, w) := Spx.update_data env force w in
        match result with
        | Ret result => mkExit 0 (PrintResult result) w
        | Raise e => mkExit 1 (Traceback e) w
        end
      else if String.eqb command "price" then
        let '(price_data, w) := get_latest_price w in
        match price_data with
        | Some price_data => mkExit 0 (PrintPrice price_data) w
        | None => mkExit 1 (PrintNoData "SPX500") w
        end
      else mkExit 1 (ErrUnknownCommand command) w
  end.

End SpxCli.

(** ** The vendors' responses *)

Module Vendor.

(** A value read by [response.json()]; [JNull] is Python's [None]. *)
#[warnings="-register-all"]
Inductive json :=
| JNull
| JBool (b : bool)
| JInt (n : Z)
| JFloat (x : pyfloat)
| JStr (s : string)
| JList (items : list json)
| JDict (d : gmap string json).

(** What the HTTP exchange hands to the code after it: [Failed] when
    [requests.get] or [raise_for_status] raises; otherwise the
    [content-type] header (the empty string when there is none) and the
    body read by [response.json()], [None] when that raises. *)
Inductive Response :=
| Failed
| Answered (content_type : string) (body : option json).

(** [key in data], on a dict *)
Definition has_key (key : string) (d : gmap string json) : bool :=
  match d !! key with
  | Some _ => true
  | None => false
  end.

(** [data[key]] for a key that is there ([None] otherwise, as
    [data.get(key)]) *)
Definition item (key : string) (d : gmap string json) : json :=
  match d !! key with
  | Some v => v
  | None => JNull
  end.

Fixpoint infix_of (needle l : list ascii) : bool :=
  prefixb needle l
  || match l with
     | [] => false
     | _ :: l' => infix_of needle l'
     end.

(** [needle in haystack], on strings *)
Definition contains (needle haystack : string) : bool :=
  infix_of (chars needle) (chars haystack).

End Vendor.

(** *** [psx_data_manager.fetch_from_api] *)

Module PsxFetch.
Import Vendor.

(** [data.get("status") == "success"] *)
Definition status_is_success (d : gmap string json) : bool :=
  match d !! "status" with
  | Some (JStr s) => String.eqb s "success"
  | _ => false
  end.

(** [fetch_from_api], from the response on.  The value returned is a
    Python value, [JNull] being [None]; what is printed on stderr is
    left out. *)
Definition fetch_from_api (response : Response) : json :=
  match response with
  | Failed => JNull
  | Answered _ None => JNull
  | Answered _ (Some data) =>
      match data with
      | JList _ => data
      | JDict d =>
          let otherwise :=
            if has_key "status" d && negb (status_is_success d)
            then JNull
            else JNull in
          if has_key "data" d then
            if status_is_success d || has_key "data" d
            then item "data" d
            else otherwise
          else otherwise
      | _ => JNull
      end
  end.

End PsxFetch.

(** *** [spx500_data_manager.fetch_from_api] *)

Module SpxFetch.
Import Vendor.

(** [fetch_from_api], from the response on, with the same
    conventions. *)
Definition fetch_from_api (response : Response) : json :=
  match response with
  | Failed => JNull
  | Answered content_type body =>
      if contains "text/html" content_type then JNull
      else
        match body with
        | None => JNull
        | Some data =>
            match data with
            | JDict d => if has_key "data" d then item "data" d else JNull
            | JList _ => data
            | _ => JNull
            end
        end
  end.

End SpxFetch.

(** *** [crypto_data_manager.fetch_from_api] *)

Module CryptoFetch.
Import Vendor.

(** [kline[i]]; [None] when the subscript raises. *)
Definition getitem (kline : json) (i : nat) : option json :=
  match kline with
  | JList items => nth_error items i
  | JStr s =>
      match nth_error (chars s) i with
      | Some c => Some (JStr (text [c]))
      | None => None
      end
  | _ => None
  end.

(** [float(v)]; [None] when it raises.  An integer too large for a
    float raises [OverflowError]. *)
Definition float (v : json) : option pyfloat :=
  match v with
  | JStr s =>
      match py_float s with
      | Ret x => Some x
      | Raise _ => None
      end
  | JInt n =>
      if (Z.abs n <? 2 ^ 1024 - 2 ^ 970)%Z
      then Some (Fin (inject_Z n))
      else None
  | JFloat x => Some x
  | JBool b => Some (Fin (inject_Z (if b then 1 else 0)))
  | _ => None
  end.

(** [datetime.fromtimestamp(open_time_ms / 1000).strftime('%Y-%m-%d')]
    as a day number.  [local_day] is the clock of the machine: the local
    calendar day of a POSIX time in seconds, [None] where the division
    or [fromtimestamp] raises. *)
Definition open_date (local_day : Q -> option Z) (open_time_ms : json)
  : option Z :=
  match open_time_ms with
  | JInt n => local_day (inject_Z n / 1000)%Q
  | JBool b => local_day (inject_Z (if b then 1 else 0) / 1000)%Q
  | JFloat (Fin q) => local_day (q / 1000)%Q
  | _ => None
  end.

(** The body of the loop: the record of one kline, [None] when any step
    raises. *)
Definition kline_record (local_day : Q -> option Z) (kline : json)
  : option Crypto.Row :=
  open_time_ms ← getitem kline 0;
  date ← open_date local_day open_time_ms;
  open ← getitem kline 1 ≫= float;
  high ← getitem kline 2 ≫= float;
  low ← getitem kline 3 ≫= float;
  close ← getitem kline 4 ≫= float;
  volume ← getitem kline 5 ≫= float;
  Some (Crypto.mkRow date open high low close volume).

(** The values [for kline in klines] runs through (a dict gives its
    keys, a string its characters), [None] when [klines] cannot be
    iterated. *)
Definition iterate (klines : json) : option (list json) :=
  match klines with
  | JList items => Some items
  | JDict d => Some (map (fun kv => JStr (fst kv)) (map_to_list d))
  | JStr s => Some (map (fun c => JStr (text [c])) (chars s))
  | _ => None
  end.

(** [fetch_from_api], from the response on: the list of records, or
    [None] as soon as anything raises. *)
Definition fetch_from_api (local_day : Q -> option Z) (response : Response)
  : option (list Crypto.Row) :=
  match response with
  | Failed => None
  | Answered _ None => None
  | Answered _ (Some klines) =>
      items ← iterate klines;
      mapM (kline_record local_day) items
  end.

End CryptoFetch.

(** *** [parse_number] *)

Module SpxNumber.

(** [parse_number(field, raw_field)] inside [parse_investing_data], for
    an entry whose values are all strings, as in the vendor's format. *)
Definition parse_number (entry : gmap string string) (field : string)
  (raw_field : option string) : outcome (option pyfloat) :=
  let from_field :=
    let value_str := default ""%string (entry !! field) in
    if String.eqb value_str "" then Ret None
    else
      try_except_value_type
        (let cleaned := strip (replace "," "" value_str) in
         bind (py_float cleaned) (fun x => Ret (Some x)))
        None in
  match raw_field with
  | Some raw_field =>
      if negb (String.eqb raw_field "")
         && negb (String.eqb (default ""%string (entry !! raw_field)) "")
      then
        match py_float (default ""%string (entry !! raw_field)) with
        | Ret x => Ret (Some x)
        | Raise ValueError | Raise TypeError => from_field
        | Raise e => Raise e
        end
      else from_field
  | None => from_field
  end.

End SpxNumber.

(** * Properties *)

(** ** Frames: sorting, maximum, selection, duplicates *)

Section FrameFacts.
Context {R : Type} (date : R -> Z).
Local Open Scope Z_scope.
Local Abbreviation ascending := (Frame.ascending date).
Local Abbreviation strictly_ascending := (Frame.strictly_ascending date).

Lemma strictly_ascending_NoDup df :
  strictly_ascending df -> List.NoDup (map date df).
Proof.
  unfold strictly_ascending. induction (map date df) as [|d ds IH].
  - constructor.
  - intros H. inversion H as [|? ? Hs Hall]; subst. constructor.
    + intros Hin. rewrite List.Forall_forall in Hall.
      specialize (Hall d Hin). lia.
    + auto.
Qed.

Lemma strictly_ascending_ascending df :
  strictly_ascending df -> ascending df.
Proof.
  unfold strictly_ascending, ascending.
  induction 1 as [|d ds Hs IH Hall]; constructor; auto.
  eapply List.Forall_impl; [|exact Hall]. simpl. intros; lia.
Qed.

Lemma ascending_NoDup_strict df :
  ascending df -> List.NoDup (map date df) -> strictly_ascending df.
Proof.
  unfold strictly_ascending, ascending.
  induction 1 as [|d ds Hs IH Hall]; intros Hnd; constructor.
  - apply IH. now inversion Hnd.
  - inversion Hnd as [|? ? Hnotin _]; subst.
    rewrite List.Forall_forall in *. intros x Hx.
    specialize (Hall x Hx).
    assert (x <> d) by (intros ->; contradiction). lia.
Qed.

(** *** [sort_values] *)

Lemma insert_by_date_perm r df :
  Permutation (r :: df) (insert_by_date date r df).
Proof.
  induction df as [|x df IH]; simpl.
  - reflexivity.
  - destruct (date r <=? date x); [reflexivity|].
    rewrite perm_swap. now apply perm_skip.
Qed.

Lemma sort_values_perm df : Permutation df (sort_values date df).
Proof.
  induction df as [|r df IH]; simpl.
  - constructor.
  - rewrite <- insert_by_date_perm. now apply perm_skip.
Qed.

Lemma sort_values_In r df : In r (sort_values date df) <-> In r df.
Proof.
  split; apply Permutation_in;
    [symmetry|]; apply sort_values_perm.
Qed.

Lemma sort_values_length df :
  List.length (sort_values date df) = List.length df.
Proof. symmetry. apply Permutation_length, sort_values_perm. Qed.

Lemma sort_values_dates_perm df :
  Permutation (map date df) (map date (sort_values date df)).
Proof. apply Permutation_map, sort_values_perm. Qed.

Lemma insert_by_date_ascending r df :
  ascending df -> ascending (insert_by_date date r df).
Proof.
  unfold ascending. induction df as [|x df IH]; simpl; intros H.
  - repeat constructor.
  - inversion H as [|? ? Hs Hall]; subst.
    destruct (date r <=? date x) eqn:E; simpl.
    + apply Z.leb_le in E. constructor; [exact H|].
      constructor; [exact E|].
      eapply List.Forall_impl; [|exact Hall]. simpl. intros; lia.
    + apply Z.leb_gt in E. constructor; [now apply IH|].
      rewrite List.Forall_forall in *. intros d Hd.
      apply (Permutation_in (l' := map date (r :: df))) in Hd.
      * simpl in Hd. destruct Hd as [<-|Hd]; [lia|auto].
      * symmetry. apply Permutation_map, insert_by_date_perm.
Qed.

Lemma sort_values_ascending df : ascending (sort_values date df).
Proof.
  induction df as [|r df IH]; simpl.
  - constructor.
  - now apply insert_by_date_ascending.
Qed.

(** Sorting a frame that is already in ascending order changes
    nothing. *)
Lemma sort_values_id df : ascending df -> sort_values date df = df.
Proof.
  unfold ascending. induction df as [|r df IH]; simpl; intros H.
  - reflexivity.
  - inversion H as [|? ? Hs Hall]; subst. rewrite IH by exact Hs.
    destruct df as [|x df]; simpl; [reflexivity|].
    inversion Hall as [|? ? Hle _]; subst.
    apply Z.leb_le in Hle. now rewrite Hle.
Qed.

(** *** [max] over the date column *)

Lemma max_date_None df : max_date date df = None <-> df = [].
Proof.
  destruct df as [|r df]; simpl; [tauto|].
  destruct (max_date date df); split; discriminate.
Qed.

Lemma max_date_upper df m r :
  max_date date df = Some m -> In r df -> date r <= m.
Proof.
  revert m. induction df as [|x df IH]; simpl; intros m Hm Hin;
    [contradiction|].
  destruct (max_date date df) as [m'|] eqn:E.
  - injection Hm as <-. destruct Hin as [->|Hin]; [lia|].
    specialize (IH m' eq_refl Hin). lia.
  - injection Hm as <-. destruct Hin as [->|Hin]; [lia|].
    apply max_date_None in E. subst. contradiction.
Qed.

Lemma max_date_attained df m :
  max_date date df = Some m -> exists r, In r df /\ date r = m.
Proof.
  revert m. induction df as [|x df IH]; simpl; intros m Hm;
    [discriminate|].
  destruct (max_date date df) as [m'|] eqn:E.
  - injection Hm as <-.
    destruct (Z.max_spec (date x) m') as [[_ ->]|[_ ->]].
    + destruct (IH m' eq_refl) as (r & Hr & <-). eauto.
    + eauto.
  - injection Hm as <-. eauto.
Qed.

(** The maximum is determined by: it bounds every date and is one of
    them. *)
Lemma max_date_unique df m :
  (forall r, In r df -> date r <= m) ->
  (exists r, In r df /\ date r = m) ->
  max_date date df = Some m.
Proof.
  intros Hub (r & Hr & Hm).
  destruct (max_date date df) as [m'|] eqn:E.
  - f_equal. pose proof (max_date_upper _ _ _ E Hr).
    destruct (max_date_attained _ _ E) as (r' & Hr' & <-).
    specialize (Hub _ Hr'). lia.
  - apply max_date_None in E. subst. contradiction.
Qed.

Lemma max_date_same_rows df df' :
  (forall r, In r df <-> In r df') ->
  max_date date df = max_date date df'.
Proof.
  intros Hiff. destruct (max_date date df) as [m|] eqn:E.
  - symmetry. apply max_date_unique.
    + intros r Hr. apply (max_date_upper _ _ _ E), Hiff, Hr.
    + destruct (max_date_attained _ _ E) as (r & Hr & <-).
      exists r. split; [now apply Hiff|reflexivity].
  - apply max_date_None in E. subst.
    destruct df' as [|r df']; [reflexivity|].
    exfalso. apply (Hiff r). now left.
Qed.

Lemma max_date_sort_values df :
  max_date date (sort_values date df) = max_date date df.
Proof. apply max_date_same_rows. intros r. apply sort_values_In. Qed.

(** In an ascending frame the last row carries the maximum. *)
Lemma max_date_last df r :
  ascending df -> last df = Some r -> max_date date df = Some (date r).
Proof.
  unfold ascending. induction df as [|x df IH]; intros Hs Hl;
    [discriminate|].
  inversion Hs as [|? ? Hs' Hall]; subst.
  destruct df as [|y df].
  - simpl in *. now injection Hl as ->.
  - change (last (x :: y :: df)) with (last (y :: df)) in Hl.
    specialize (IH Hs' Hl).
    change (max_date date (x :: y :: df)) with
      (match max_date date (y :: df) with
       | None => Some (date x)
       | Some m => Some (Z.max (date x) m)
       end).
    rewrite IH. f_equal.
    destruct (max_date_attained _ _ IH) as (r' & Hr' & Heq).
    rewrite List.Forall_forall in Hall.
    specialize (Hall (date r') (in_map date _ _ Hr')). lia.
Qed.

(** *** [select_newer] *)

Lemma select_newer_In latest df r :
  In r (select_newer date latest df) <->
  In r df /\ exists m, latest = Some m /\ m < date r.
Proof.
  unfold select_newer. rewrite filter_In. unfold newer_than.
  destruct latest as [m|].
  - rewrite Z.ltb_lt. split.
    + intros [? ?]. eauto.
    + intros [? (m' & [= <-] & ?)]. auto.
  - split; [intros [_ [=]]|intros [_ (m' & [=] & _)]].
Qed.

Lemma select_newer_ascending latest df :
  ascending df -> ascending (select_newer date latest df).
Proof.
  unfold ascending, select_newer.
  induction df as [|x df IH]; simpl; intros H; [constructor|].
  inversion H as [|? ? Hs Hall]; subst.
  destruct (newer_than date latest x); simpl; auto.
  constructor; auto.
  rewrite List.Forall_forall in *. intros d Hd.
  apply in_map_iff in Hd as (r & <- & Hr).
  apply filter_In in Hr as [Hr _]. apply Hall. now apply in_map.
Qed.

(** *** [drop_duplicates] *)

Lemma existsb_same_date r df :
  existsb (fun x => date x =? date r) df = true <->
  In (date r) (map date df).
Proof.
  rewrite existsb_exists, in_map_iff.
  split; intros (x & H1 & H2).
  - exists x. apply Z.eqb_eq in H2. auto.
  - exists x. split; [auto|]. now apply Z.eqb_eq.
Qed.

Lemma drop_duplicates_last_In r df :
  In r (drop_duplicates_last date df) -> In r df.
Proof.
  induction df as [|x df IH]; simpl; [auto|].
  destruct (existsb _ df); simpl; intuition.
Qed.

Lemma drop_duplicates_last_dates d df :
  In d (map date (drop_duplicates_last date df)) <-> In d (map date df).
Proof.
  induction df as [|x df IH]; simpl; [tauto|].
  destruct (existsb _ df) eqn:E; simpl.
  - apply existsb_same_date in E. rewrite IH.
    split; [auto|]. intros [<-|?]; auto.
  - now rewrite IH.
Qed.

Lemma drop_duplicates_last_NoDup df :
  List.NoDup (map date (drop_duplicates_last date df)).
Proof.
  induction df as [|x df IH]; simpl; [constructor|].
  destruct (existsb _ df) eqn:E; simpl; [exact IH|].
  constructor; [|exact IH].
  rewrite drop_duplicates_last_dates, <- existsb_same_date, E.
  discriminate.
Qed.

(** Nothing is dropped from a frame whose dates are pairwise
    distinct. *)
Lemma drop_duplicates_last_id df :
  List.NoDup (map date df) -> drop_duplicates_last date df = df.
Proof.
  induction df as [|x df IH]; simpl; intros H; [reflexivity|].
  inversion H as [|? ? Hnotin Hnd]; subst.
  destruct (existsb _ df) eqn:E.
  - apply existsb_same_date in E. contradiction.
  - now rewrite IH.
Qed.

(** Rows whose date occurs nowhere later are kept. *)
Lemma drop_duplicates_last_app_l df1 df2 :
  List.NoDup (map date df1) ->
  (forall r1 r2, In r1 df1 -> In r2 df2 -> date r1 <> date r2) ->
  drop_duplicates_last date (df1 ++ df2) =
  df1 ++ drop_duplicates_last date df2.
Proof.
  induction df1 as [|x df1 IH]; simpl; intros Hnd Hdis; [reflexivity|].
  inversion Hnd as [|? ? Hnotin Hnd']; subst.
  destruct (existsb _ (df1 ++ df2)) eqn:E.
  - apply existsb_same_date in E. rewrite map_app, in_app_iff in E.
    destruct E as [E|E]; [contradiction|].
    apply in_map_iff in E as (r2 & Heq & Hr2).
    exfalso. apply (Hdis x r2); auto.
  - rewrite IH; auto.
Qed.

(** *** The merged frame
    [sort_values (drop_duplicates (stored ++ new_records))] *)

Lemma merged_strictly_ascending df :
  strictly_ascending (sort_values date (drop_duplicates_last date df)).
Proof.
  apply ascending_NoDup_strict.
  - apply sort_values_ascending.
  - eapply Permutation.Permutation_NoDup; [apply sort_values_dates_perm|].
    apply drop_duplicates_last_NoDup.
Qed.

(** Two ascending lists of dates with the same elements are equal. *)
Lemma ascending_dates_unique (l1 l2 : list Z) :
  StronglySorted Z.le l1 -> StronglySorted Z.le l2 ->
  Permutation l1 l2 -> l1 = l2.
Proof.
  intros H1. revert l2.
  induction H1 as [|a l1 Hs1 IH Hall1]; intros l2 H2 Hp.
  - apply Permutation_nil in Hp. now subst.
  - destruct H2 as [|b l2 Hs2 Hall2].
    + symmetry in Hp. apply Permutation_nil in Hp. discriminate.
    + assert (a = b).
      { rewrite List.Forall_forall in Hall1, Hall2.
        assert (Ha : In a (b :: l2))
          by (eapply Permutation_in; [exact Hp|now left]).
        assert (Hb : In b (a :: l1))
          by (eapply Permutation_in; [symmetry; exact Hp|now left]).
        destruct Ha as [->|Ha]; [reflexivity|].
        destruct Hb as [->|Hb]; [reflexivity|].
        specialize (Hall1 _ Hb). specialize (Hall2 _ Ha). lia. }
      subst b. f_equal. apply IH; [exact Hs2|].
      eapply Permutation_cons_inv; exact Hp.
Qed.

End FrameFacts.

(** ** More on the merged frame *)

Section MergeFacts.
Context {R : Type} (date : R -> Z).
Local Open Scope Z_scope.

Lemma select_newer_nil latest (df : list R) :
  select_newer date latest df = [] <->
  (forall r m, In r df -> latest = Some m -> date r <= m).
Proof.
  split.
  - intros Hnil r m Hr Hm.
    destruct (Z.le_gt_cases (date r) m) as [Hle|Hgt]; [exact Hle|].
    assert (Hin : In r (select_newer date latest df)).
    { apply select_newer_In. eauto. }
    rewrite Hnil in Hin. contradiction.
  - intros Hall.
    destruct (select_newer date latest df) as [|r l] eqn:E; [reflexivity|].
    assert (Hin : In r (select_newer date latest df))
      by (rewrite E; now left).
    apply select_newer_In in Hin as (Hr & m & Hm & Hlt).
    specialize (Hall r m Hr Hm). lia.
Qed.

(** Every date of the concatenation is still a date of the merged
    frame. *)
Lemma merged_dates d (df : list R) :
  In d (map date (sort_values date (drop_duplicates_last date df))) <->
  In d (map date df).
Proof.
  rewrite <- (drop_duplicates_last_dates date d df).
  split; apply Permutation_in;
    [symmetry|]; apply sort_values_dates_perm.
Qed.

Lemma merged_bounds (df : list R) r :
  In r df ->
  exists top,
    max_date date (sort_values date (drop_duplicates_last date df))
    = Some top /\ date r <= top.
Proof.
  intros Hr.
  assert (Hd : In (date r)
                 (map date
                    (sort_values date (drop_duplicates_last date df)))).
  { apply merged_dates. now apply in_map. }
  apply in_map_iff in Hd as (r' & Heq & Hr').
  destruct (max_date date
              (sort_values date (drop_duplicates_last date df)))
    as [top|] eqn:E.
  - exists top. split; [reflexivity|]. rewrite <- Heq.
    eapply max_date_upper; eauto.
  - apply max_date_None in E. rewrite E in Hr'. contradiction.
Qed.

(** After a merge nothing of the batch is newer than the saved table. *)
Lemma merged_absorbs_batch (stored batch : list R) :
  let new_records := select_newer date (max_date date stored) batch in
  new_records <> [] ->
  select_newer date
    (max_date date
       (sort_values date
          (drop_duplicates_last date (stored ++ new_records))))
    batch = [].
Proof.
  intros new_records Hnew. apply select_newer_nil. intros r top Hr Htop.
  destruct (max_date date stored) as [m|] eqn:Hm.
  2:{ exfalso. apply Hnew. unfold new_records. now apply select_newer_nil. }
  destruct (Z.le_gt_cases (date r) m) as [Hle|Hgt].
  - destruct (max_date_attained _ _ _ Hm) as (r0 & Hr0 & Hd0).
    destruct (merged_bounds (stored ++ new_records) r0) as (top' & Ht & Hb).
    { apply in_or_app. now left. }
    rewrite Htop in Ht. injection Ht as <-. lia.
  - destruct (merged_bounds (stored ++ new_records) r) as (top' & Ht & Hb).
    { apply in_or_app. right. apply select_newer_In. eauto. }
    rewrite Htop in Ht. injection Ht as <-. exact Hb.
Qed.

(** The maximum of the merged frame is the maximum of the batch. *)
Lemma merged_max_is_batch_max (stored batch : list R) :
  let new_records := select_newer date (max_date date stored) batch in
  new_records <> [] ->
  max_date date
    (sort_values date (drop_duplicates_last date (stored ++ new_records)))
  = max_date date batch.
Proof.
  intros new_records Hnew.
  destruct new_records as [|r1 rest] eqn:E; [contradiction|].
  assert (Hr1 : In r1 (select_newer date (max_date date stored) batch)).
  { fold new_records. rewrite E. now left. }
  apply select_newer_In in Hr1 as (Hr1 & m & Hm & Hlt).
  destruct (max_date date batch) as [top|] eqn:Htop.
  2:{ apply max_date_None in Htop. subst. contradiction. }
  rewrite <- E. clear E Hnew.
  apply max_date_unique.
  - intros r Hr.
    assert (Hd : In (date r) (map date (stored ++ new_records))).
    { apply merged_dates. now apply in_map. }
    apply in_map_iff in Hd as (r' & <- & Hr').
    apply in_app_or in Hr' as [Hs|Hn].
    + pose proof (max_date_upper _ _ _ _ Hm Hs).
      pose proof (max_date_upper _ _ _ _ Htop Hr1). lia.
    + apply select_newer_In in Hn as [Hn _].
      eapply max_date_upper; eauto.
  - destruct (max_date_attained _ _ _ Htop) as (r & Hr & Hd).
    assert (Hin : In (date r)
                    (map date
                       (sort_values date
                          (drop_duplicates_last date
                             (stored ++ new_records))))).
    { apply merged_dates. apply in_map, in_or_app. right.
      apply select_newer_In. split; [exact Hr|]. exists m.
      split; [exact Hm|].
      pose proof (max_date_upper _ _ _ _ Htop Hr1). lia. }
    apply in_map_iff in Hin as (r' & Heq & Hr').
    exists r'. split; [exact Hr'|]. congruence.
Qed.

(** With pairwise distinct stored dates the merge keeps every stored row
    and adds new records only. *)
Lemma merged_keeps_stored (stored batch : list R) :
  List.NoDup (map date stored) ->
  let new_records := select_newer date (max_date date stored) batch in
  Permutation
    (sort_values date (drop_duplicates_last date (stored ++ new_records)))
    (stored ++ drop_duplicates_last date new_records).
Proof.
  intros Hnd new_records.
  rewrite <- sort_values_perm.
  rewrite drop_duplicates_last_app_l; [reflexivity|exact Hnd|].
  intros r1 r2 H1 H2 Heq.
  apply select_newer_In in H2 as (_ & m & Hm & Hlt).
  pose proof (max_date_upper _ _ _ _ Hm H1). lia.
Qed.

Lemma select_newer_NoDup latest (df : list R) :
  List.NoDup (map date df) ->
  List.NoDup (map date (select_newer date latest df)).
Proof.
  unfold select_newer.
  induction df as [|x df IH]; simpl; intros H; [constructor|].
  inversion H as [|? ? Hnotin Hnd]; subst.
  destruct (newer_than date latest x); simpl; auto.
  constructor; auto.
  intros Hin. apply Hnotin.
  apply in_map_iff in Hin as (r & Heq & Hr).
  apply filter_In in Hr as [Hr _]. rewrite <- Heq. now apply in_map.
Qed.

(** With pairwise distinct dates on both sides nothing is dropped. *)
Lemma merged_drops_nothing (stored batch : list R) :
  List.NoDup (map date stored) ->
  List.NoDup (map date batch) ->
  let new_records := select_newer date (max_date date stored) batch in
  drop_duplicates_last date (stored ++ new_records) = stored ++ new_records.
Proof.
  intros Hs Hb new_records.
  rewrite drop_duplicates_last_app_l.
  - f_equal. apply drop_duplicates_last_id.
    now apply select_newer_NoDup.
  - exact Hs.
  - intros r1 r2 H1 H2 Heq.
    apply select_newer_In in H2 as (_ & m & Hm & Hlt).
    pose proof (max_date_upper _ _ _ _ Hm H1). lia.
Qed.

End MergeFacts.

(** ** Exceptions of the volume parser *)

Lemma py_float_raises s e : py_float s = Raise e -> e = ValueError.
Proof.
  unfold py_float, float_literal.
  destruct (check_underscores None _) as [u|]; [|congruence].
  destruct (split_sign u) as [neg body].
  destruct (list_eqb body (chars "inf") || list_eqb body (chars "infinity"));
    [discriminate|].
  destruct (list_eqb body (chars "nan")); [discriminate|].
  destruct (parse_decimal body); congruence.
Qed.

Lemma try_float_returns s (k : pyfloat -> option pyfloat) :
  exists r,
    try_except_value_type (bind (py_float s) (fun x => Ret (k x))) None
    = Ret r.
Proof.
  destruct (py_float s) as [x|e] eqn:E; simpl; [eauto|].
  apply py_float_raises in E. subst. simpl. eauto.
Qed.

Lemma parse_volume_returns v : exists r, Spx.parse_volume v = Ret r.
Proof.
  unfold Spx.parse_volume.
  destruct (negb (truthy v)); [eauto|].
  destruct (endswith _ "B"); [apply try_float_returns|].
  destruct (endswith _ "M"); [apply try_float_returns|].
  destruct (endswith _ "K"); apply try_float_returns.
Qed.

Lemma parse_entries_returns api_data :
  exists records, Spx.parse_entries api_data = Ret records.
Proof.
  induction api_data as [|entry rest [records IH]]; simpl; [eauto|].
  unfold Spx.parse_entry.
  destruct (Spx.rowDate entry) as [d|]; simpl.
  - destruct (parse_volume_returns (Spx.raw_volume entry)) as [vol ->].
    simpl. rewrite IH. simpl. eauto.
  - rewrite IH. simpl. eauto.
Qed.

(** The frame handed to the merge is the list of parsed records in
    ascending order. *)
Lemma parse_investing_data_sorted api_data records :
  Spx.parse_entries api_data = Ret records ->
  Spx.parse_investing_data api_data = Ret (sort_values Spx.date records).
Proof.
  unfold Spx.parse_investing_data. intros ->. simpl.
  now destruct records.
Qed.

Lemma sort_values_nil_inv {R} (date : R -> Z) df :
  sort_values date df = [] -> df = [].
Proof.
  intros H. apply (f_equal (@List.length R)) in H.
  rewrite sort_values_length in H. now destruct df.
Qed.

(** ** The paths of [update_data] *)

(** No table was loaded (forced refresh, no file, or an unreadable file)
    and the fetch brought rows: the initial-save path. *)
Lemma crypto_update_initial env symbol force w w1 batch :
  (if negb force
   then Crypto.load_stored_data (Crypto.normalize symbol) w
   else (None, w)) = (None, w1) ->
  Crypto.api_response env = Some batch ->
  batch <> [] ->
  Crypto.update_data env symbol force w =
    (mkResult
       (if Crypto.write_ok env then success else error)
       (if Crypto.write_ok env
        then InitialDataSaved (Crypto.normalize symbol)
        else FailedToSave (Crypto.normalize symbol))
       (List.length batch) None
       (Some (Iso (max_date Crypto.date batch))),
     snd (Crypto.save_data env (Crypto.normalize symbol)
            (sort_values Crypto.date batch) w1)).
Proof.
  intros Hload Hapi Hne. unfold Crypto.update_data.
  rewrite Hload, Hapi. destruct batch as [|r batch]; [contradiction|].
  unfold Crypto.save_data, Frame.save_data.
  rewrite sort_values_length, max_date_sort_values.
  destruct (Crypto.write_ok env); reflexivity.
Qed.

(** A table was loaded and the fetch brought rows: either nothing is
    newer than the stored maximum and nothing is written, or the merge
    is saved. *)
Lemma crypto_update_existing env symbol w stored batch :
  files w !! Crypto.get_file_path (Crypto.normalize symbol)
    = Some (Parquet stored) ->
  Crypto.api_response env = Some batch ->
  batch <> [] ->
  let new_records :=
    select_newer Crypto.date (max_date Crypto.date stored)
      (sort_values Crypto.date batch) in
  let df_combined :=
    sort_values Crypto.date
      (drop_duplicates_last Crypto.date (stored ++ new_records)) in
  Crypto.update_data env symbol false w =
    if (List.length new_records =? 0)%nat then
      (mkResult success (NoNewData (Crypto.normalize symbol))
         (List.length stored) (Some 0%nat)
         (Some (Iso (max_date Crypto.date stored))),
       w)
    else
      (mkResult
         (if Crypto.write_ok env then success else error)
         (if Crypto.write_ok env
          then AddedNewRecords (List.length new_records)
                 (Crypto.normalize symbol)
          else FailedToSave (Crypto.normalize symbol))
         (List.length df_combined)
         (Some (List.length new_records))
         (Some (if (0 <? List.length df_combined)%nat
                then Iso (max_date Crypto.date df_combined) else Null)),
       snd (Crypto.save_data env (Crypto.normalize symbol) df_combined w)).
Proof.
  intros Hfile Hapi Hne new_records df_combined.
  unfold Crypto.update_data. cbn [negb].
  unfold Crypto.load_stored_data, Frame.load_stored_data.
  rewrite Hfile, Hapi. destruct batch as [|r batch]; [contradiction|].
  fold new_records. fold df_combined.
  destruct (List.length new_records =? 0)%nat; [reflexivity|].
  unfold Crypto.save_data, Frame.save_data.
  destruct (Crypto.write_ok env); reflexivity.
Qed.

Lemma crypto_update_fetch_failed env symbol force w :
  Crypto.api_response env = None \/ Crypto.api_response env = Some [] ->
  status (fst (Crypto.update_data env symbol force w)) = error.
Proof.
  intros H. unfold Crypto.update_data.
  destruct (if negb force then _ else _) as [stored_df w1].
  destruct H as [-> | ->]; reflexivity.
Qed.

(** What [load_stored_data] returns, by the state of the file. *)
Lemma load_stored_data_cases {R} path name (w : World R) :
  (files w !! path = None /\
   Frame.load_stored_data path name w = (None, w))
  \/ (files w !! path = Some Unreadable /\
      Frame.load_stored_data path name w
      = (None, print_stderr (ErrorLoading name) w))
  \/ (exists t, files w !! path = Some (Parquet t) /\
      Frame.load_stored_data path name w = (Some t, w)).
Proof.
  unfold Frame.load_stored_data.
  destruct (files w !! path) as [[t|]|]; eauto 6.
Qed.

Lemma psx_update_initial env ticker force w w1 api_data :
  (if negb force
   then Psx.load_stored_data (upper ticker) w
   else (None, w)) = (None, w1) ->
  Psx.api_response env = Some api_data ->
  api_data <> [] ->
  let batch := map Psx.column_mapping api_data in
  Psx.update_data env ticker force w =
    (mkResult
       (if Psx.write_ok env then success else error)
       (if Psx.write_ok env
        then InitialDataSaved (upper ticker)
        else FailedToSave (upper ticker))
       (List.length batch) None
       (Some (Iso (max_date Psx.date batch))),
     snd (Psx.save_data env (upper ticker)
            (sort_values Psx.date batch) w1)).
Proof.
  intros Hload Hapi Hne batch. unfold Psx.update_data.
  rewrite Hload, Hapi. destruct api_data as [|r api_data]; [contradiction|].
  fold batch. unfold Psx.save_data, Frame.save_data.
  rewrite sort_values_length, max_date_sort_values.
  destruct (Psx.write_ok env); reflexivity.
Qed.

Lemma psx_update_existing env ticker w stored api_data :
  files w !! Psx.get_file_path (upper ticker) = Some (Parquet stored) ->
  Psx.api_response env = Some api_data ->
  api_data <> [] ->
  let batch := map Psx.column_mapping api_data in
  let new_records :=
    select_newer Psx.date (max_date Psx.date stored)
      (sort_values Psx.date batch) in
  let df_combined :=
    sort_values Psx.date
      (drop_duplicates_last Psx.date (stored ++ new_records)) in
  Psx.update_data env ticker false w =
    if (List.length new_records =? 0)%nat then
      (mkResult success (NoNewData (upper ticker))
         (List.length stored) (Some 0%nat)
         (Some (Iso (max_date Psx.date stored))),
       w)
    else
      (mkResult
         (if Psx.write_ok env then success else error)
         (if Psx.write_ok env
          then AddedNewRecords (List.length new_records) (upper ticker)
          else FailedToSave (upper ticker))
         (List.length df_combined)
         (Some (List.length new_records))
         (Some (if (0 <? List.length df_combined)%nat
                then Iso (max_date Psx.date df_combined) else Null)),
       snd (Psx.save_data env (upper ticker) df_combined w)).
Proof.
  intros Hfile Hapi Hne batch new_records df_combined.
  unfold Psx.update_data. cbn [negb].
  unfold Psx.load_stored_data, Frame.load_stored_data.
  rewrite Hfile, Hapi. destruct api_data as [|r api_data]; [contradiction|].
  fold batch. fold new_records. fold df_combined.
  destruct (List.length new_records =? 0)%nat; [reflexivity|].
  unfold Psx.save_data, Frame.save_data.
  destruct (Psx.write_ok env); reflexivity.
Qed.

Lemma spx_update_initial env force w w1 api_data records :
  (if negb force then Spx.load_stored_data w else (None, w)) = (None, w1) ->
  Spx.fetch_from_api env None = Some api_data ->
  Spx.parse_entries api_data = Ret records ->
  records <> [] ->
  Spx.update_data env force w =
    (Ret (mkResult
            (if Spx.write_ok env then success else error)
            (if Spx.write_ok env
             then InitialDataSaved "SPX500" else FailedToSave "")
            (List.length records) None
            (Some (Iso (max_date Spx.date records)))),
     snd (Spx.save_data env (sort_values Spx.date records) w1)).
Proof.
  intros Hload Hapi Hparse Hne. unfold Spx.update_data.
  rewrite Hload, Hapi.
  destruct api_data as [|entry rest].
  { cbn [Spx.parse_entries] in Hparse. injection Hparse as <-.
    contradiction. }
  rewrite (parse_investing_data_sorted _ _ Hparse).
  destruct (sort_values Spx.date records) as [|r df] eqn:E.
  { apply sort_values_nil_inv in E. contradiction. }
  rewrite <- E. unfold Spx.save_data, Frame.save_data.
  rewrite sort_values_length, max_date_sort_values.
  destruct records; [contradiction|].
  destruct (Spx.write_ok env); reflexivity.
Qed.

Lemma spx_update_existing env w stored m api_data records :
  files w !! Spx.get_file_path = Some (Parquet stored) ->
  max_date Spx.date stored = Some m ->
  Spx.fetch_from_api env (Some (m + 1)%Z) = Some api_data ->
  Spx.parse_entries api_data = Ret records ->
  records <> [] ->
  let new_records :=
    select_newer Spx.date (Some m) (sort_values Spx.date records) in
  let df_combined :=
    sort_values Spx.date
      (drop_duplicates_last Spx.date (stored ++ new_records)) in
  Spx.update_data env false w =
    if (List.length new_records =? 0)%nat then
      (Ret (mkResult success (NoNewData "SPX500")
              (List.length stored) (Some 0%nat) (Some (Iso (Some m)))),
       w)
    else
      (Ret (mkResult
              (if Spx.write_ok env then success else error)
              (if Spx.write_ok env
               then AddedNewRecords (List.length new_records) "SPX500"
               else FailedToSave "")
              (List.length df_combined)
              (Some (List.length new_records))
              (Some (if (0 <? List.length df_combined)%nat
                     then Iso (max_date Spx.date df_combined) else Null))),
       snd (Spx.save_data env df_combined w)).
Proof.
  intros Hfile Hmax Hapi Hparse Hne. cbv zeta.
  unfold Spx.update_data. cbn [negb].
  unfold Spx.load_stored_data, Frame.load_stored_data.
  rewrite Hfile, Hmax. cbn [Spx.next_day bind]. rewrite Hapi.
  destruct api_data as [|entry rest].
  { cbn [Spx.parse_entries] in Hparse. injection Hparse as <-.
    contradiction. }
  rewrite (parse_investing_data_sorted _ _ Hparse).
  destruct (sort_values Spx.date records) as [|r df] eqn:E.
  { apply sort_values_nil_inv in E. contradiction. }
  destruct (List.length (select_newer Spx.date (Some m) (r :: df)) =? 0)%nat;
    [reflexivity|].
  unfold Spx.save_data, Frame.save_data.
  destruct (Spx.write_ok env); reflexivity.
Qed.

Lemma save_data_files {R} ok path name (df : list R) (w : World R) :
  files (snd (Frame.save_data ok path name df w)) =
  if ok then <[path := Parquet df]> (files w) else files w.
Proof. unfold Frame.save_data. now destruct ok. Qed.

Lemma length_zero_nil {A} (l : list A) :
  (List.length l =? 0)%nat = true <-> l = [].
Proof. destruct l; simpl; split; congruence. Qed.

(** ** Scenarios *)

(** An empty store and a fetch of days 1 and 2: two rows are saved and
    the latest quote is day 2. *)
Example crypto_first_fetch :
  let run :=
    Crypto.update_data
      (Crypto.mkEnv (Some [Sample.bar 1 100; Sample.bar 2 101]) true)
      "btc" false Sample.nothing in
  run = (mkResult success (InitialDataSaved "BTCUSDT") 2 None
           (Some (Iso (Some 2%Z))),
         Sample.holding Sample.btc [Sample.bar 1 100; Sample.bar 2 101])
  /\ fst (Crypto.get_latest_price "BTC-USDT" (snd run))
     = Some (Crypto.mkQuote "BTCUSDT" (Some 2%Z)
               (Some (Fin 101)) (Some (Fin 101)) (Some (Fin 101))
               (Some (Fin 101)) (Some (Fin 101))).
Proof. cbv zeta. split; vm_compute; reflexivity. Qed.

(** Day 1 stored at 100; days 1 and 2 fetched at 105 and 110: one new
    record, day 1 stays at 100. *)
Example crypto_overlapping_fetch :
  Crypto.update_data
    (Crypto.mkEnv (Some [Sample.bar 1 105; Sample.bar 2 110]) true)
    "BTC" false (Sample.holding Sample.btc [Sample.bar 1 100])
  = (mkResult success (AddedNewRecords 1 "BTCUSDT") 2 (Some 1%nat)
       (Some (Iso (Some 2%Z))),
     Sample.holding Sample.btc [Sample.bar 1 100; Sample.bar 2 110]).
Proof. vm_compute. reflexivity. Qed.

Example psx_overlapping_fetch :
  Psx.update_data
    (Psx.mkEnv (Some [Sample.tick 2 110; Sample.tick 1 105]) true)
    "hbl" false
    (Sample.holding Sample.hbl [Psx.column_mapping (Sample.tick 1 100)])
  = (mkResult success (AddedNewRecords 1 "HBL") 2 (Some 1%nat)
       (Some (Iso (Some 2%Z))),
     Sample.holding Sample.hbl
       [Psx.column_mapping (Sample.tick 1 100);
        Psx.column_mapping (Sample.tick 2 110)]).
Proof. vm_compute. reflexivity. Qed.

(** The index manager asks the vendor for the days after the stored
    maximum; an entry without a date is skipped, the volume text is
    expanded. *)
Example spx_incremental_fetch :
  let fetch (start : option Z) :=
    match start with
    | Some 2%Z =>
        Some [Sample.entry 3 120;
              Spx.mkEntry None None None None None VNone;
              Sample.entry 2 110]
    | _ => None
    end in
  Spx.update_data (Spx.mkEnv fetch true) false
    (Sample.holding Spx.get_file_path [Sample.point 1 100])
  = (Ret (mkResult success (AddedNewRecords 2 "SPX500") 3 (Some 2%nat)
            (Some (Iso (Some 3%Z)))),
     Sample.holding Spx.get_file_path
       [Sample.point 1 100;
        Spx.mkRow 2 (Fin 110) (Fin 110) (Fin 110) (Fin 110) (Fin 3000);
        Spx.mkRow 3 (Fin 120) (Fin 120) (Fin 120) (Fin 120) (Fin 3000)]).
Proof. vm_compute. reflexivity. Qed.

(** A stored index table without rows has no latest date to start
    from: the run stops with the [ValueError] of [NaT.strftime]. *)
Example spx_empty_table_raises :
  fst (Spx.update_data (Spx.mkEnv (fun _ => None) true) false
         (Sample.holding Spx.get_file_path []))
  = Raise ValueError.
Proof. vm_compute. reflexivity. Qed.

(** ** C1: order and uniqueness of the saved tables *)

Lemma sorted_batch_strict {R} (date : R -> Z) batch :
  List.NoDup (map date batch) ->
  strictly_ascending date (sort_values date batch).
Proof.
  intros Hnd. apply ascending_NoDup_strict.
  - apply sort_values_ascending.
  - eapply Permutation.Permutation_NoDup;
      [apply sort_values_dates_perm|exact Hnd].
Qed.

Lemma crypto_saved_table_order env symbol force w res w' t :
  Crypto.update_data env symbol force w = (res, w') ->
  status res = success ->
  (forall name, message res <> NoNewData name) ->
  files w' !! Crypto.get_file_path (Crypto.normalize symbol)
    = Some (Parquet t) ->
  ascending Crypto.date t
  /\ ((exists k name, message res = AddedNewRecords k name) ->
      strictly_ascending Crypto.date t)
  /\ (forall batch,
        Crypto.api_response env = Some batch ->
        List.NoDup (map Crypto.date batch) ->
        strictly_ascending Crypto.date t).
Proof.
  intros Hrun Hok Hmsg Hfile.
  destruct (Crypto.api_response env) as [batch|] eqn:Hapi.
  2:{ pose proof (crypto_update_fetch_failed env symbol force w
                    (or_introl Hapi)) as H.
      rewrite Hrun in H. simpl in H. congruence. }
  destruct batch as [|r0 batch'].
  { pose proof (crypto_update_fetch_failed env symbol force w
                  (or_intror Hapi)) as H.
    rewrite Hrun in H. simpl in H. congruence. }
  set (batch := r0 :: batch') in *.
  assert (Hne : batch <> []) by discriminate.
  assert (Hinitial :
    forall w1,
      (if negb force
       then Crypto.load_stored_data (Crypto.normalize symbol) w
       else (None, w)) = (None, w1) ->
      t = sort_values Crypto.date batch
      /\ forall k name, message res <> AddedNewRecords k name).
  { intros w1 Hload.
    rewrite (crypto_update_initial env symbol force w w1 batch Hload Hapi Hne)
      in Hrun.
    injection Hrun as <- <-. simpl in Hok.
    destruct (Crypto.write_ok env) eqn:Hw; [|discriminate].
    unfold Crypto.save_data in Hfile. rewrite save_data_files, Hw in Hfile.
    rewrite lookup_insert_eq in Hfile. injection Hfile as <-.
    split; [reflexivity|]. intros k name. simpl. discriminate. }
  assert (Hfresh :
    t = sort_values Crypto.date batch
    /\ (forall k name, message res <> AddedNewRecords k name) ->
    ascending Crypto.date t
    /\ ((exists k name, message res = AddedNewRecords k name) ->
        strictly_ascending Crypto.date t)
    /\ (forall batch0,
          Some batch = Some batch0 ->
          List.NoDup (map Crypto.date batch0) ->
          strictly_ascending Crypto.date t)).
  { intros [-> Hnot]. split; [apply sort_values_ascending|]. split.
    - intros (k & name & Hk). destruct (Hnot k name Hk).
    - intros batch0 [= <-]. apply sorted_batch_strict. }
  destruct force.
  { apply Hfresh, (Hinitial w). reflexivity. }
  cbn [negb] in Hinitial.
  destruct (load_stored_data_cases
              (Crypto.get_file_path (Crypto.normalize symbol))
              (Crypto.normalize symbol) w)
    as [[_ Hl]|[[_ Hl]|(stored & Hstored & _)]].
  - apply Hfresh, (Hinitial _ Hl).
  - apply Hfresh, (Hinitial _ Hl).
  - rewrite (crypto_update_existing env symbol w stored batch Hstored Hapi Hne)
      in Hrun.
    cbv zeta in Hrun.
    destruct (List.length _ =? 0)%nat.
    { injection Hrun as <- <-. simpl in Hmsg.
      destruct (Hmsg (Crypto.normalize symbol)). reflexivity. }
    injection Hrun as <- <-. simpl in Hok.
    destruct (Crypto.write_ok env) eqn:Hw; [|discriminate].
    unfold Crypto.save_data in Hfile. rewrite save_data_files, Hw in Hfile.
    rewrite lookup_insert_eq in Hfile. injection Hfile as <-.
    pose proof (merged_strictly_ascending Crypto.date
                  (stored ++ select_newer Crypto.date
                               (max_date Crypto.date stored)
                               (sort_values Crypto.date batch))) as Hs.
    split; [now apply strictly_ascending_ascending|].
    split; intros; exact Hs.
Qed.

(** A successful run fetched a non-empty batch and either loaded no table
    or loaded the stored one. *)
Lemma crypto_update_success env symbol force w res w' :
  Crypto.update_data env symbol force w = (res, w') ->
  status res = success ->
  exists batch,
    Crypto.api_response env = Some batch /\ batch <> [] /\
    ((exists w1,
        (if negb force
         then Crypto.load_stored_data (Crypto.normalize symbol) w
         else (None, w)) = (None, w1))
     \/ (exists stored,
           force = false /\
           files w !! Crypto.get_file_path (Crypto.normalize symbol)
             = Some (Parquet stored))).
Proof.
  intros Hrun Hok.
  destruct (Crypto.api_response env) as [[|r0 batch']|] eqn:Hapi.
  - pose proof (crypto_update_fetch_failed env symbol force w
                  (or_intror Hapi)) as H.
    rewrite Hrun in H. simpl in H. congruence.
  - exists (r0 :: batch'). split; [reflexivity|]. split; [discriminate|].
    destruct force; cbn [negb]; [left; eauto|].
    destruct (load_stored_data_cases
                (Crypto.get_file_path (Crypto.normalize symbol))
                (Crypto.normalize symbol) w)
      as [[_ Hl]|[[_ Hl]|(stored & Hstored & _)]]; eauto 6.
  - pose proof (crypto_update_fetch_failed env symbol force w
                  (or_introl Hapi)) as H.
    rewrite Hrun in H. simpl in H. congruence.
Qed.

(** Case analysis on the fetch and the parse inside a run that is known
    to have succeeded; leaves the disjunction on how the table was
    loaded. *)
Ltac spx_fetched Hrun Hok :=
  match type of Hrun with
  | context [Spx.fetch_from_api ?env ?start] =>
      let Hapi := fresh "Hapi" in
      let Hp := fresh "Hp" in
      let entry := fresh "entry" in
      let rest := fresh "rest" in
      let records := fresh "records" in
      destruct (Spx.fetch_from_api env start) as [[|entry rest]|] eqn:Hapi;
      [ injection Hrun as <- _; discriminate Hok
      | destruct (parse_entries_returns (entry :: rest)) as [records Hp];
        exists start, (entry :: rest), records;
        split; [exact Hapi|]; split; [exact Hp|];
        split;
        [ intros ->; rewrite (parse_investing_data_sorted _ _ Hp) in Hrun;
          cbn [sort_values] in Hrun; injection Hrun as <- _;
          discriminate Hok
        | ]
      | injection Hrun as <- _; discriminate Hok ]
  end.

Lemma spx_update_success env force w res w' :
  Spx.update_data env force w = (Ret res, w') ->
  status res = success ->
  exists start api_data records,
    Spx.fetch_from_api env start = Some api_data /\
    Spx.parse_entries api_data = Ret records /\
    records <> [] /\
    ((start = None /\
      exists w1,
        (if negb force then Spx.load_stored_data w else (None, w))
        = (None, w1))
     \/ (exists stored m,
           force = false /\
           files w !! Spx.get_file_path = Some (Parquet stored) /\
           max_date Spx.date stored = Some m /\
           start = Some (m + 1)%Z)).
Proof.
  intros Hrun Hok.
  unfold Spx.update_data in Hrun.
  destruct force; cbn [negb] in *.
  - spx_fetched Hrun Hok. left. split; [reflexivity|]. now exists w.
  - unfold Spx.load_stored_data in *.
    destruct (load_stored_data_cases Spx.get_file_path "" w)
      as [[_ Hl]|[[_ Hl]|(stored & Hstored & Hl)]]; rewrite Hl in Hrun.
    + spx_fetched Hrun Hok. rewrite Hl. left. split; [reflexivity|].
      now exists w.
    + spx_fetched Hrun Hok. rewrite Hl. left. split; [reflexivity|].
      now exists (print_stderr (ErrorLoading "") w).
    + destruct (max_date Spx.date stored) as [m|] eqn:Hmax;
        cbn [Spx.next_day bind] in Hrun; [|discriminate].
      spx_fetched Hrun Hok. right. exists stored, m. auto.
Qed.

Lemma spx_saved_table_order env force w res w' t :
  Spx.update_data env force w = (Ret res, w') ->
  status res = success ->
  (forall name, message res <> NoNewData name) ->
  files w' !! Spx.get_file_path = Some (Parquet t) ->
  ascending Spx.date t
  /\ ((exists k name, message res = AddedNewRecords k name) ->
      strictly_ascending Spx.date t)
  /\ ((forall start api_data records,
         Spx.fetch_from_api env start = Some api_data ->
         Spx.parse_entries api_data = Ret records ->
         List.NoDup (map Spx.date records)) ->
      strictly_ascending Spx.date t).
Proof.
  intros Hrun Hok Hmsg Hfile.
  destruct (spx_update_success _ _ _ _ _ Hrun Hok)
    as (start & api_data & records & Hapi & Hparse & Hne & Hpath).
  destruct Hpath as [[-> [w1 Hload]]|(stored & m & -> & Hstored & Hmax & ->)].
  - rewrite (spx_update_initial env force w w1 api_data records
               Hload Hapi Hparse Hne) in Hrun.
    injection Hrun as <- <-. simpl in Hok.
    destruct (Spx.write_ok env) eqn:Hw; [|discriminate].
    unfold Spx.save_data in Hfile. rewrite save_data_files, Hw in Hfile.
    rewrite lookup_insert_eq in Hfile. injection Hfile as <-.
    split; [apply sort_values_ascending|]. split.
    + intros (k & name & Hk). simpl in Hk. discriminate.
    + intros Hnd. apply sorted_batch_strict. eauto.
  - rewrite (spx_update_existing env w stored m api_data records
               Hstored Hmax Hapi Hparse Hne) in Hrun.
    cbv zeta in Hrun.
    destruct (List.length _ =? 0)%nat.
    { injection Hrun as <- <-. simpl in Hmsg.
      destruct (Hmsg "SPX500"). reflexivity. }
    injection Hrun as <- <-. simpl in Hok.
    destruct (Spx.write_ok env) eqn:Hw; [|discriminate].
    unfold Spx.save_data in Hfile. rewrite save_data_files, Hw in Hfile.
    rewrite lookup_insert_eq in Hfile. injection Hfile as <-.
    pose proof (merged_strictly_ascending Spx.date
                  (stored ++ select_newer Spx.date (Some m)
                               (sort_values Spx.date records))) as Hs.
    split; [now apply strictly_ascending_ascending|].
    split; intros; exact Hs.
Qed.

(** C1 — as amended: every table saved by a successful update is sorted
    ascending by date.  When the update merged into an existing table
    (the "Added n new records" result) the order is strict, so no two
    rows share a date.  When it was an initial save or a forced refresh
    the order is strict, and the dates pairwise distinct, provided no
    two rows of the incoming batch share a date.  Crypto and index
    managers. *)
Theorem C1_saved_table_sorted :
  (forall env symbol force w res w' t,
     Crypto.update_data env symbol force w = (res, w') ->
     status res = success ->
     (forall name, message res <> NoNewData name) ->
     files w' !! Crypto.get_file_path (Crypto.normalize symbol)
       = Some (Parquet t) ->
     ascending Crypto.date t
     /\ ((exists k name, message res = AddedNewRecords k name) ->
         strictly_ascending Crypto.date t)
     /\ (forall batch,
           Crypto.api_response env = Some batch ->
           List.NoDup (map Crypto.date batch) ->
           strictly_ascending Crypto.date t))
  /\
  (forall env force w res w' t,
     Spx.update_data env force w = (Ret res, w') ->
     status res = success ->
     (forall name, message res <> NoNewData name) ->
     files w' !! Spx.get_file_path = Some (Parquet t) ->
     ascending Spx.date t
     /\ ((exists k name, message res = AddedNewRecords k name) ->
         strictly_ascending Spx.date t)
     /\ ((forall start api_data records,
            Spx.fetch_from_api env start = Some api_data ->
            Spx.parse_entries api_data = Ret records ->
            List.NoDup (map Spx.date records)) ->
         strictly_ascending Spx.date t)).
Proof.
  split.
  - apply crypto_saved_table_order.
  - apply spx_saved_table_order.
Qed.

(** A merge of the stored day 1 with a fetched day 2 saves a strictly
    ascending table. *)
Lemma C1_saved_table_sorted_witness :
  strictly_ascending Crypto.date [Sample.bar 1 100; Sample.bar 2 200].
Proof.
  refine (proj1 (proj2 (proj1 C1_saved_table_sorted
    (Crypto.mkEnv (Some [Sample.bar 2 200]) true) "BTC"%string false
    (Sample.holding Sample.btc [Sample.bar 1 100])
    (mkResult success (AddedNewRecords 1 "BTCUSDT") 2 (Some 1%nat)
       (Some (Iso (Some 2%Z))))
    (mkWorld (<[Sample.btc := Parquet [Sample.bar 1 100; Sample.bar 2 200]]>
                {[ Sample.btc := Parquet [Sample.bar 1 100] ]}) [])
    [Sample.bar 1 100; Sample.bar 2 200] _ _ _ _)) _).
  - vm_compute. reflexivity.
  - reflexivity.
  - intros name. simpl. discriminate.
  - vm_compute. reflexivity.
  - exists 1%nat, "BTCUSDT"%string. reflexivity.
Defined.

(** C1 as stated fails on the initial-save path: a batch with two rows
    of the same date is saved as it is, both rows kept. *)
Lemma C1_initial_save_keeps_duplicate_dates :
  let batch := [Sample.bar 1 100; Sample.bar 1 105] in
  let run :=
    Crypto.update_data (Crypto.mkEnv (Some batch) true) "BTC" false
      Sample.nothing in
  status (fst run) = success
  /\ message (fst run) = InitialDataSaved "BTCUSDT"
  /\ files (snd run) !! Sample.btc = Some (Parquet batch)
  /\ ~ strictly_ascending Crypto.date batch
  /\ ~ List.NoDup (map Crypto.date batch).
Proof.
  cbv zeta. split; [vm_compute; reflexivity|].
  split; [vm_compute; reflexivity|].
  split; [vm_compute; reflexivity|].
  assert (Hdup : ~ List.NoDup
                     (map Crypto.date [Sample.bar 1 100; Sample.bar 1 105])).
  { intros H. inversion H as [|? ? Hnotin _]; subst.
    apply Hnotin. now left. }
  split; [|exact Hdup].
  intros H. apply Hdup. now apply strictly_ascending_NoDup.
Qed.

(** ** C2: stored days 1-5, fetched days 4-8 *)

Lemma dates_of_select_newer {R} (date : R -> Z) latest (df : list R) d :
  In d (map date (select_newer date latest df)) <->
  In d (map date df) /\ exists m, latest = Some m /\ (m < d)%Z.
Proof.
  rewrite !in_map_iff. split.
  - intros (r & <- & Hr). apply select_newer_In in Hr as [Hr Hm].
    split; [eauto|exact Hm].
  - intros [(r & <- & Hr) Hm]. exists r. split; [reflexivity|].
    apply select_newer_In. auto.
Qed.

(** C2 — as amended: with stored rows dated D1..D5 and an incoming
    batch dated D4..D8 (D1 < ... < D8), [update] saves a table with
    exactly the dates D1..D8, 8 rows, 3 new records; the rows dated up
    to D5, the D4 row among them, are the stored rows unchanged, and
    only the rows dated after D5 come from the incoming batch. *)
Theorem C2_overlapping_merge :
  forall env symbol w stored batch (d1 d2 d3 d4 d5 d6 d7 d8 : Z),
    (d1 < d2 /\ d2 < d3 /\ d3 < d4 /\ d4 < d5
     /\ d5 < d6 /\ d6 < d7 /\ d7 < d8)%Z ->
    map Crypto.date stored = [d1; d2; d3; d4; d5] ->
    Permutation (map Crypto.date batch) [d4; d5; d6; d7; d8] ->
    files w !! Crypto.get_file_path (Crypto.normalize symbol)
      = Some (Parquet stored) ->
    Crypto.api_response env = Some batch ->
    Crypto.write_ok env = true ->
    let run := Crypto.update_data env symbol false w in
    exists t,
      files (snd run) !! Crypto.get_file_path (Crypto.normalize symbol)
        = Some (Parquet t)
      /\ map Crypto.date t = [d1; d2; d3; d4; d5; d6; d7; d8]
      /\ List.length t = 8%nat
      /\ records_count (fst run) = 8%nat
      /\ new_records_count (fst run) = Some 3%nat
      /\ (forall r, In r t -> (Crypto.date r <= d5)%Z -> In r stored)
      /\ (forall r, In r t -> (d5 < Crypto.date r)%Z -> In r batch)
      /\ (forall r, In r stored -> In r t).
Proof.
  intros env symbol w stored batch d1 d2 d3 d4 d5 d6 d7 d8
    Hlt Hstored Hbatch Hfile Hapi Hw run.
  assert (Hne : batch <> []).
  { intros ->. apply Permutation_nil in Hbatch. discriminate. }
  assert (Hmax : max_date Crypto.date stored = Some d5).
  { apply max_date_unique.
    - intros r Hr. apply (in_map Crypto.date) in Hr.
      rewrite Hstored in Hr. simpl in Hr. lia.
    - assert (Hin : In d5 (map Crypto.date stored))
        by (rewrite Hstored; simpl; tauto).
      apply in_map_iff in Hin as (r & Hd & Hr). eauto. }
  assert (Hnd_stored : List.NoDup (map Crypto.date stored)).
  { rewrite Hstored. repeat constructor; simpl; lia. }
  assert (Hnd_batch :
    List.NoDup (map Crypto.date (sort_values Crypto.date batch))).
  { eapply Permutation.Permutation_NoDup.
    - etransitivity; [symmetry; exact Hbatch|].
      apply sort_values_dates_perm.
    - repeat constructor; simpl; lia. }
  set (new_records :=
         select_newer Crypto.date (max_date Crypto.date stored)
           (sort_values Crypto.date batch)).
  assert (Hnew_dates : map Crypto.date new_records = [d6; d7; d8]).
  { apply ascending_dates_unique.
    - apply select_newer_ascending, sort_values_ascending.
    - repeat constructor; lia.
    - apply Permutation.NoDup_Permutation.
      + now apply select_newer_NoDup.
      + repeat constructor; simpl; lia.
      + intros d. unfold new_records.
        rewrite dates_of_select_newer, Hmax.
        assert (Hiff :
          In d (map Crypto.date (sort_values Crypto.date batch)) <->
          In d [d4; d5; d6; d7; d8]).
        { split; apply Permutation_in.
          - etransitivity; [symmetry; apply sort_values_dates_perm|].
            exact Hbatch.
          - etransitivity; [symmetry; exact Hbatch|].
            apply sort_values_dates_perm. }
        rewrite Hiff. simpl. split.
        * intros [Hin (m & [= <-] & Hm)]. lia.
        * intros Hin. split; [lia|]. exists d5. split; [reflexivity|lia]. }
  assert (Hnew : new_records <> []).
  { intros Hnil. rewrite Hnil in Hnew_dates. discriminate. }
  assert (Hid :
    drop_duplicates_last Crypto.date (stored ++ new_records)
    = stored ++ new_records).
  { apply merged_drops_nothing; assumption. }
  pose proof (crypto_update_existing env symbol w stored batch
                Hfile Hapi Hne) as Hrun.
  cbv zeta in Hrun. fold new_records in Hrun. fold run in Hrun.
  destruct (List.length new_records =? 0)%nat eqn:E.
  { apply length_zero_nil in E. contradiction. }
  rewrite Hid, Hw in Hrun.
  set (t := sort_values Crypto.date (stored ++ new_records)) in *.
  assert (Hdates : map Crypto.date t = [d1; d2; d3; d4; d5; d6; d7; d8]).
  { apply ascending_dates_unique.
    - apply sort_values_ascending.
    - repeat constructor; lia.
    - unfold t. rewrite <- sort_values_dates_perm.
      rewrite map_app, Hstored, Hnew_dates. reflexivity. }
  assert (Hlen : List.length t = 8%nat).
  { rewrite <- (length_map Crypto.date), Hdates. reflexivity. }
  assert (Hlen_new : List.length new_records = 3%nat).
  { rewrite <- (length_map Crypto.date), Hnew_dates. reflexivity. }
  assert (Hrows : forall r, In r t <-> In r stored \/ In r new_records).
  { intros r. unfold t. rewrite sort_values_In. apply in_app_iff. }
  exists t. rewrite Hrun. cbn [fst snd records_count new_records_count].
  split.
  { unfold Crypto.save_data. rewrite save_data_files, Hw.
    apply lookup_insert_eq. }
  split; [exact Hdates|]. split; [exact Hlen|]. split; [exact Hlen|].
  split; [now rewrite Hlen_new|].
  split; [|split].
  - intros r Hr Hle. apply Hrows in Hr as [Hr|Hr]; [exact Hr|].
    apply select_newer_In in Hr as (_ & m & Hm & Hgt).
    rewrite Hmax in Hm. injection Hm as <-. lia.
  - intros r Hr Hgt. apply Hrows in Hr as [Hr|Hr].
    + pose proof (max_date_upper _ _ _ _ Hmax Hr). lia.
    + apply select_newer_In in Hr as [Hr _].
      now apply sort_values_In in Hr.
  - intros r Hr. apply Hrows. now left.
Qed.

(** Days 1-5 stored at price 100, days 4-8 fetched at price 200. *)
Lemma C2_overlapping_merge_witness :
  let stored := map (fun d => Sample.bar d 100) [1; 2; 3; 4; 5]%Z in
  let batch := map (fun d => Sample.bar d 200) [4; 5; 6; 7; 8]%Z in
  let run :=
    Crypto.update_data (Crypto.mkEnv (Some batch) true) "BTC" false
      (Sample.holding Sample.btc stored) in
  exists t,
    files (snd run) !! Crypto.get_file_path (Crypto.normalize "BTC")
      = Some (Parquet t)
    /\ map Crypto.date t = [1; 2; 3; 4; 5; 6; 7; 8]%Z
    /\ List.length t = 8%nat
    /\ records_count (fst run) = 8%nat
    /\ new_records_count (fst run) = Some 3%nat
    /\ (forall r, In r t -> (Crypto.date r <= 5)%Z -> In r stored)
    /\ (forall r, In r t -> (5 < Crypto.date r)%Z -> In r batch)
    /\ (forall r, In r stored -> In r t).
Proof.
  apply (C2_overlapping_merge
    (Crypto.mkEnv (Some (map (fun d => Sample.bar d 200) [4; 5; 6; 7; 8]%Z))
       true)
    "BTC"%string
    (Sample.holding Sample.btc
       (map (fun d => Sample.bar d 100) [1; 2; 3; 4; 5]%Z))
    (map (fun d => Sample.bar d 100) [1; 2; 3; 4; 5]%Z)
    (map (fun d => Sample.bar d 200) [4; 5; 6; 7; 8]%Z)
    1 2 3 4 5 6 7 8)%Z.
  - lia.
  - reflexivity.
  - reflexivity.
  - vm_compute. reflexivity.
  - reflexivity.
  - reflexivity.
Defined.

(** C2 as stated fails on the day-4 row: the saved table holds the
    stored row of day 4 (price 100), not the fetched one (price 200). *)
Lemma C2_day4_row_stays_as_stored :
  let stored := map (fun d => Sample.bar d 100) [1; 2; 3; 4; 5]%Z in
  let batch := map (fun d => Sample.bar d 200) [4; 5; 6; 7; 8]%Z in
  let run :=
    Crypto.update_data (Crypto.mkEnv (Some batch) true) "BTC" false
      (Sample.holding Sample.btc stored) in
  let t :=
    stored ++ map (fun d => Sample.bar d 200) [6; 7; 8]%Z in
  fst run = mkResult success (AddedNewRecords 3 "BTCUSDT") 8 (Some 3%nat)
              (Some (Iso (Some 8%Z)))
  /\ files (snd run) !! Sample.btc = Some (Parquet t)
  /\ In (Sample.bar 4 200) batch
  /\ In (Sample.bar 4 100) t
  /\ ~ In (Sample.bar 4 200) t.
Proof.
  cbv zeta. split; [vm_compute; reflexivity|].
  split; [vm_compute; reflexivity|].
  split; [simpl; tauto|]. split; [simpl; tauto|].
  simpl. intros H.
  repeat (destruct H as [H|H]; [discriminate H|]). exact H.
Qed.

(** ** C3: the strictly-newer partition *)

Lemma crypto_newer_partition env symbol w stored batch :
  files w !! Crypto.get_file_path (Crypto.normalize symbol)
    = Some (Parquet stored) ->
  Crypto.api_response env = Some batch ->
  batch <> [] ->
  let new_records :=
    select_newer Crypto.date (max_date Crypto.date stored)
      (sort_values Crypto.date batch) in
  let run := Crypto.update_data env symbol false w in
  (forall r,
     In r new_records <->
     In r batch /\
     exists m, max_date Crypto.date stored = Some m /\ (m < Crypto.date r)%Z)
  /\ (new_records = [] ->
      run = (mkResult success (NoNewData (Crypto.normalize symbol))
               (List.length stored) (Some 0%nat)
               (Some (Iso (max_date Crypto.date stored))),
             w))
  /\ (new_records <> [] ->
      new_records_count (fst run) = Some (List.length new_records)
      /\ files (snd run) =
         (if Crypto.write_ok env
          then <[Crypto.get_file_path (Crypto.normalize symbol) :=
                   Parquet (sort_values Crypto.date
                              (drop_duplicates_last Crypto.date
                                 (stored ++ new_records)))]> (files w)
          else files w))
  /\ (forall env' batch',
        Crypto.api_response env' = Some batch' ->
        batch' <> [] ->
        Crypto.write_ok env' = Crypto.write_ok env ->
        select_newer Crypto.date (max_date Crypto.date stored)
          (sort_values Crypto.date batch') = new_records ->
        Crypto.update_data env' symbol false w = run).
Proof.
  intros Hfile Hapi Hne new_records run.
  pose proof (crypto_update_existing env symbol w stored batch
                Hfile Hapi Hne) as Hrun.
  cbv zeta in Hrun. fold new_records in Hrun. fold run in Hrun.
  split; [|split; [|split]].
  - intros r. unfold new_records. rewrite select_newer_In, sort_values_In.
    reflexivity.
  - intros Hnil. rewrite Hrun, Hnil. reflexivity.
  - intros Hnew. rewrite Hrun.
    destruct (List.length new_records =? 0)%nat eqn:E.
    { apply length_zero_nil in E. contradiction. }
    cbn [fst snd new_records_count]. split; [reflexivity|].
    unfold Crypto.save_data. apply save_data_files.
  - intros env' batch' Hapi' Hne' Hw Hsame.
    rewrite (crypto_update_existing env' symbol w stored batch'
               Hfile Hapi' Hne').
    cbv zeta. rewrite Hsame, Hrun. unfold Crypto.save_data.
    rewrite Hw. reflexivity.
Qed.

Lemma psx_newer_partition env ticker w stored api_data :
  files w !! Psx.get_file_path (upper ticker) = Some (Parquet stored) ->
  Psx.api_response env = Some api_data ->
  api_data <> [] ->
  let batch := map Psx.column_mapping api_data in
  let new_records :=
    select_newer Psx.date (max_date Psx.date stored)
      (sort_values Psx.date batch) in
  let run := Psx.update_data env ticker false w in
  (forall r,
     In r new_records <->
     In r batch /\
     exists m, max_date Psx.date stored = Some m /\ (m < Psx.date r)%Z)
  /\ (new_records = [] ->
      run = (mkResult success (NoNewData (upper ticker))
               (List.length stored) (Some 0%nat)
               (Some (Iso (max_date Psx.date stored))),
             w))
  /\ (new_records <> [] ->
      new_records_count (fst run) = Some (List.length new_records)
      /\ files (snd run) =
         (if Psx.write_ok env
          then <[Psx.get_file_path (upper ticker) :=
                   Parquet (sort_values Psx.date
                              (drop_duplicates_last Psx.date
                                 (stored ++ new_records)))]> (files w)
          else files w))
  /\ (forall env' api_data',
        Psx.api_response env' = Some api_data' ->
        api_data' <> [] ->
        Psx.write_ok env' = Psx.write_ok env ->
        select_newer Psx.date (max_date Psx.date stored)
          (sort_values Psx.date (map Psx.column_mapping api_data'))
        = new_records ->
        Psx.update_data env' ticker false w = run).
Proof.
  intros Hfile Hapi Hne batch new_records run.
  pose proof (psx_update_existing env ticker w stored api_data
                Hfile Hapi Hne) as Hrun.
  cbv zeta in Hrun. fold batch in Hrun. fold new_records in Hrun.
  fold run in Hrun.
  split; [|split; [|split]].
  - intros r. unfold new_records. rewrite select_newer_In, sort_values_In.
    reflexivity.
  - intros Hnil. rewrite Hrun, Hnil. reflexivity.
  - intros Hnew. rewrite Hrun.
    destruct (List.length new_records =? 0)%nat eqn:E.
    { apply length_zero_nil in E. contradiction. }
    cbn [fst snd new_records_count]. split; [reflexivity|].
    unfold Psx.save_data. apply save_data_files.
  - intros env' api_data' Hapi' Hne' Hw Hsame.
    rewrite (psx_update_existing env' ticker w stored api_data'
               Hfile Hapi' Hne').
    cbv zeta. rewrite Hsame, Hrun. unfold Psx.save_data.
    rewrite Hw. reflexivity.
Qed.

(** C3 — as amended: with a stored table present, a non-forced [update]
    splits every non-empty incoming batch by the strict test
    [date > max(date)] of the stored table.  The new records are exactly the batch rows passing the test.
    If there is none, nothing is written and the result is "no new
    data" with the stored row count, zero new records and the stored
    latest date.  Otherwise the saved table is built from the stored
    rows and the new records only: two batches with the same new records
    give the same result and store, whatever their other rows hold.
    Crypto and ticker managers. *)
Theorem C3_update_admits_only_strictly_newer :
  (forall env symbol w stored batch,
     files w !! Crypto.get_file_path (Crypto.normalize symbol)
       = Some (Parquet stored) ->
     Crypto.api_response env = Some batch ->
     batch <> [] ->
     let new_records :=
       select_newer Crypto.date (max_date Crypto.date stored)
         (sort_values Crypto.date batch) in
     let run := Crypto.update_data env symbol false w in
     (forall r,
        In r new_records <->
        In r batch /\
        exists m,
          max_date Crypto.date stored = Some m /\ (m < Crypto.date r)%Z)
     /\ (new_records = [] ->
         run = (mkResult success (NoNewData (Crypto.normalize symbol))
                  (List.length stored) (Some 0%nat)
                  (Some (Iso (max_date Crypto.date stored))),
                w))
     /\ (new_records <> [] ->
         new_records_count (fst run) = Some (List.length new_records)
         /\ files (snd run) =
            (if Crypto.write_ok env
             then <[Crypto.get_file_path (Crypto.normalize symbol) :=
                      Parquet (sort_values Crypto.date
                                 (drop_duplicates_last Crypto.date
                                    (stored ++ new_records)))]> (files w)
             else files w))
     /\ (forall env' batch',
           Crypto.api_response env' = Some batch' ->
           batch' <> [] ->
           Crypto.write_ok env' = Crypto.write_ok env ->
           select_newer Crypto.date (max_date Crypto.date stored)
             (sort_values Crypto.date batch') = new_records ->
           Crypto.update_data env' symbol false w = run))
  /\
  (forall env ticker w stored api_data,
     files w !! Psx.get_file_path (upper ticker) = Some (Parquet stored) ->
     Psx.api_response env = Some api_data ->
     api_data <> [] ->
     let batch := map Psx.column_mapping api_data in
     let new_records :=
       select_newer Psx.date (max_date Psx.date stored)
         (sort_values Psx.date batch) in
     let run := Psx.update_data env ticker false w in
     (forall r,
        In r new_records <->
        In r batch /\
        exists m, max_date Psx.date stored = Some m /\ (m < Psx.date r)%Z)
     /\ (new_records = [] ->
         run = (mkResult success (NoNewData (upper ticker))
                  (List.length stored) (Some 0%nat)
                  (Some (Iso (max_date Psx.date stored))),
                w))
     /\ (new_records <> [] ->
         new_records_count (fst run) = Some (List.length new_records)
         /\ files (snd run) =
            (if Psx.write_ok env
             then <[Psx.get_file_path (upper ticker) :=
                      Parquet (sort_values Psx.date
                                 (drop_duplicates_last Psx.date
                                    (stored ++ new_records)))]> (files w)
             else files w))
     /\ (forall env' api_data',
           Psx.api_response env' = Some api_data' ->
           api_data' <> [] ->
           Psx.write_ok env' = Psx.write_ok env ->
           select_newer Psx.date (max_date Psx.date stored)
             (sort_values Psx.date (map Psx.column_mapping api_data'))
           = new_records ->
           Psx.update_data env' ticker false w = run)).
Proof.
  split.
  - apply crypto_newer_partition.
  - apply psx_newer_partition.
Qed.

(** Days 1 and 2 are stored and fetched again with other prices: nothing
    is newer than day 2, nothing is written. *)
Lemma C3_update_admits_only_strictly_newer_witness :
  Crypto.update_data
    (Crypto.mkEnv (Some [Sample.bar 1 105; Sample.bar 2 110]) true)
    "BTC" false
    (Sample.holding Sample.btc [Sample.bar 1 100; Sample.bar 2 101])
  = (mkResult success (NoNewData "BTCUSDT") 2 (Some 0%nat)
       (Some (Iso (Some 2%Z))),
     Sample.holding Sample.btc [Sample.bar 1 100; Sample.bar 2 101]).
Proof.
  pose proof (proj1 C3_update_admits_only_strictly_newer
    (Crypto.mkEnv (Some [Sample.bar 1 105; Sample.bar 2 110]) true)
    "BTC"%string
    (Sample.holding Sample.btc [Sample.bar 1 100; Sample.bar 2 101])
    [Sample.bar 1 100; Sample.bar 2 101]
    [Sample.bar 1 105; Sample.bar 2 110]
    ltac:(vm_compute; reflexivity) eq_refl ltac:(discriminate)) as H.
  cbv zeta in H. destruct H as (_ & Hnone & _).
  rewrite Hnone; [|vm_compute; reflexivity].
  vm_compute. reflexivity.
Defined.

(** C3 as stated fails on the empty batch: its partition of new records
    is empty, yet the run is reported as a failed fetch with a count of
    0, not as "no new data" with the stored count. *)
Lemma C3_empty_batch_is_a_failed_fetch :
  let stored := [Sample.bar 1 100] in
  let batch : list Crypto.Row := [] in
  let run :=
    Crypto.update_data (Crypto.mkEnv (Some batch) true) "BTC" false
      (Sample.holding Sample.btc stored) in
  select_newer Crypto.date (max_date Crypto.date stored)
    (sort_values Crypto.date batch) = []
  /\ run = (mkResult error (FailedToFetch "BTCUSDT") 0 None None,
            Sample.holding Sample.btc stored)
  /\ fst run <> mkResult success (NoNewData "BTCUSDT") 1 (Some 0%nat)
                  (Some (Iso (Some 1%Z))).
Proof.
  cbv zeta. split; [reflexivity|].
  split; [vm_compute; reflexivity|].
  vm_compute. discriminate.
Qed.

(** ** C4: running the same batch again *)

Lemma nothing_newer_than_own_max {R} (date : R -> Z) (df : list R) :
  select_newer date (max_date date (sort_values date df))
    (sort_values date df) = [].
Proof.
  apply select_newer_nil. intros r m Hr Hm.
  eapply max_date_upper; eauto.
Qed.

Lemma crypto_second_run env symbol force w res w' env2 :
  Crypto.update_data env symbol force w = (res, w') ->
  status res = success ->
  Crypto.api_response env2 = Crypto.api_response env ->
  exists t,
    files w' !! Crypto.get_file_path (Crypto.normalize symbol)
      = Some (Parquet t)
    /\ Crypto.update_data env2 symbol false w' =
       (mkResult success (NoNewData (Crypto.normalize symbol))
          (List.length t) (Some 0%nat)
          (Some (Iso (max_date Crypto.date t))),
        w').
Proof.
  intros Hrun Hok Hsame.
  destruct (crypto_update_success _ _ _ _ _ _ Hrun Hok)
    as (batch & Hapi & Hne & Hpath).
  assert (Hapi2 : Crypto.api_response env2 = Some batch) by congruence.
  destruct Hpath as [[w1 Hload]|(stored & -> & Hfile)].
  - rewrite (crypto_update_initial env symbol force w w1 batch
               Hload Hapi Hne) in Hrun.
    injection Hrun as <- <-. cbn [status] in Hok.
    destruct (Crypto.write_ok env) eqn:Hw; [|discriminate].
    exists (sort_values Crypto.date batch).
    assert (Hfile' :
      files (snd (Crypto.save_data env (Crypto.normalize symbol)
                    (sort_values Crypto.date batch) w1))
        !! Crypto.get_file_path (Crypto.normalize symbol)
      = Some (Parquet (sort_values Crypto.date batch))).
    { unfold Crypto.save_data. rewrite save_data_files, Hw.
      apply lookup_insert_eq. }
    split; [exact Hfile'|].
    rewrite (crypto_update_existing env2 symbol _ _ batch Hfile' Hapi2 Hne).
    cbv zeta. rewrite nothing_newer_than_own_max. reflexivity.
  - pose proof (crypto_update_existing env symbol w stored batch
                  Hfile Hapi Hne) as Hfirst.
    cbv zeta in Hfirst. rewrite Hrun in Hfirst.
    destruct (List.length
                (select_newer Crypto.date (max_date Crypto.date stored)
                   (sort_values Crypto.date batch)) =? 0)%nat eqn:E.
    + injection Hfirst as -> ->. exists stored. split; [exact Hfile|].
      rewrite (crypto_update_existing env2 symbol w stored batch
                 Hfile Hapi2 Hne).
      cbv zeta. rewrite E. reflexivity.
    + injection Hfirst as -> ->. cbn [status] in Hok.
      destruct (Crypto.write_ok env) eqn:Hw; [|discriminate].
      set (new_records :=
             select_newer Crypto.date (max_date Crypto.date stored)
               (sort_values Crypto.date batch)) in *.
      set (df_combined :=
             sort_values Crypto.date
               (drop_duplicates_last Crypto.date (stored ++ new_records))).
      exists df_combined.
      assert (Hfile' :
        files (snd (Crypto.save_data env (Crypto.normalize symbol)
                      df_combined w))
          !! Crypto.get_file_path (Crypto.normalize symbol)
        = Some (Parquet df_combined)).
      { unfold Crypto.save_data. rewrite save_data_files, Hw.
        apply lookup_insert_eq. }
      split; [exact Hfile'|].
      rewrite (crypto_update_existing env2 symbol _ _ batch
                 Hfile' Hapi2 Hne).
      cbv zeta. unfold df_combined, new_records.
      rewrite merged_absorbs_batch; [reflexivity|].
      fold new_records. intros Hnil. rewrite Hnil in E. discriminate.
Qed.

(** C4 — after a successful [update] with some batch, a second
    non-forced [update] with the same batch reports "no new data" with
    [new_records_count = 0], writes nothing (the store is left exactly as
    it was) and reports the row count of the stored table. *)
Theorem C4_update_same_batch_again :
  forall env symbol force w res w' env2,
    Crypto.update_data env symbol force w = (res, w') ->
    status res = success ->
    Crypto.api_response env2 = Crypto.api_response env ->
    let run2 := Crypto.update_data env2 symbol false w' in
    status (fst run2) = success
    /\ new_records_count (fst run2) = Some 0%nat
    /\ snd run2 = w'
    /\ exists t,
         files w' !! Crypto.get_file_path (Crypto.normalize symbol)
           = Some (Parquet t)
         /\ records_count (fst run2) = List.length t.
Proof.
  intros env symbol force w res w' env2 Hrun Hok Hsame run2.
  destruct (crypto_second_run _ _ _ _ _ _ _ Hrun Hok Hsame)
    as (t & Hfile & Hrun2).
  unfold run2. rewrite Hrun2. cbn [fst snd status new_records_count].
  repeat split. exists t. split; [exact Hfile|reflexivity].
Qed.

(** Days 1 and 2 stored, days 2 and 3 fetched: the first run adds day 3,
    the second run adds nothing and leaves the three rows. *)
Lemma C4_update_same_batch_again_witness :
  let env := Crypto.mkEnv (Some [Sample.bar 2 110; Sample.bar 3 120]) true in
  let w := Sample.holding Sample.btc [Sample.bar 1 100; Sample.bar 2 101] in
  let w' := snd (Crypto.update_data env "BTC" false w) in
  new_records_count (fst (Crypto.update_data env "BTC" false w))
  = Some 1%nat
  /\ new_records_count (fst (Crypto.update_data env "BTC" false w'))
     = Some 0%nat
  /\ snd (Crypto.update_data env "BTC" false w') = w'.
Proof.
  cbv zeta. split; [vm_compute; reflexivity|].
  pose proof (C4_update_same_batch_again
    (Crypto.mkEnv (Some [Sample.bar 2 110; Sample.bar 3 120]) true)
    "BTC"%string false
    (Sample.holding Sample.btc [Sample.bar 1 100; Sample.bar 2 101])
    _ _
    (Crypto.mkEnv (Some [Sample.bar 2 110; Sample.bar 3 120]) true)
    (surjective_pairing _) ltac:(vm_compute; reflexivity) eq_refl) as H.
  cbv zeta in H. destruct H as (_ & H0 & Hw & _).
  split; [exact H0|exact Hw].
Defined.

(** ** C5: forced refresh *)

Lemma crypto_force_refresh env symbol w batch :
  Crypto.api_response env = Some batch ->
  batch <> [] ->
  Crypto.write_ok env = true ->
  Crypto.update_data env symbol true w =
    (mkResult success (InitialDataSaved (Crypto.normalize symbol))
       (List.length batch) None
       (Some (Iso (max_date Crypto.date batch))),
     mkWorld
       (<[Crypto.get_file_path (Crypto.normalize symbol) :=
            Parquet (sort_values Crypto.date batch)]> (files w))
       (stderr w)).
Proof.
  intros Hapi Hne Hok. unfold Crypto.update_data. cbn [negb].
  rewrite Hapi. destruct batch as [|r batch]; [contradiction|].
  unfold Crypto.save_data, Frame.save_data. rewrite Hok.
  rewrite sort_values_length, max_date_sort_values. reflexivity.
Qed.

Lemma spx_force_refresh env w api_data records :
  Spx.fetch_from_api env None = Some api_data ->
  Spx.parse_entries api_data = Ret records ->
  records <> [] ->
  Spx.write_ok env = true ->
  Spx.update_data env true w =
    (Ret (mkResult success (InitialDataSaved "SPX500")
            (List.length records) None
            (Some (Iso (max_date Spx.date records)))),
     mkWorld
       (<[Spx.get_file_path := Parquet (sort_values Spx.date records)]>
          (files w))
       (stderr w)).
Proof.
  intros Hapi Hparse Hne Hok. unfold Spx.update_data. cbn [negb].
  rewrite Hapi.
  destruct api_data as [|entry rest].
  { cbn [Spx.parse_entries] in Hparse. injection Hparse as <-.
    contradiction. }
  rewrite (parse_investing_data_sorted _ _ Hparse).
  destruct (sort_values Spx.date records) as [|r df] eqn:E.
  { apply sort_values_nil_inv in E. contradiction. }
  rewrite <- E. unfold Spx.save_data, Frame.save_data. rewrite Hok.
  rewrite sort_values_length, max_date_sort_values.
  destruct records; [contradiction|reflexivity].
Qed.

(** C5 — [update] with [force_refresh = true] ignores the stored table:
    whatever the store held, a non-empty incoming batch is saved as the
    batch sorted ascending by date (a permutation of the batch in
    ascending order), in the crypto manager and in the index manager. *)
Theorem C5_force_refresh_saves_sorted_batch :
  (forall env symbol w batch,
     Crypto.api_response env = Some batch ->
     batch <> [] ->
     Crypto.write_ok env = true ->
     Crypto.update_data env symbol true w =
       (mkResult success (InitialDataSaved (Crypto.normalize symbol))
          (List.length batch) None
          (Some (Iso (max_date Crypto.date batch))),
        mkWorld
          (<[Crypto.get_file_path (Crypto.normalize symbol) :=
               Parquet (sort_values Crypto.date batch)]> (files w))
          (stderr w))
     /\ Permutation batch (sort_values Crypto.date batch)
     /\ ascending Crypto.date (sort_values Crypto.date batch))
  /\
  (forall env w api_data,
     Spx.fetch_from_api env None = Some api_data ->
     Spx.write_ok env = true ->
     exists records,
       Spx.parse_entries api_data = Ret records
       /\ (records <> [] ->
           Spx.update_data env true w =
             (Ret (mkResult success (InitialDataSaved "SPX500")
                     (List.length records) None
                     (Some (Iso (max_date Spx.date records)))),
              mkWorld
                (<[Spx.get_file_path :=
                     Parquet (sort_values Spx.date records)]> (files w))
                (stderr w))
           /\ Permutation records (sort_values Spx.date records)
           /\ ascending Spx.date (sort_values Spx.date records))).
Proof.
  split.
  - intros env symbol w batch Hapi Hne Hok. split; [|split].
    + now apply crypto_force_refresh.
    + apply sort_values_perm.
    + apply sort_values_ascending.
  - intros env w api_data Hapi Hok.
    destruct (parse_entries_returns api_data) as [records Hparse].
    exists records. split; [exact Hparse|]. intros Hne. split; [|split].
    + now apply (spx_force_refresh env w api_data).
    + apply sort_values_perm.
    + apply sort_values_ascending.
Qed.

(** A forced refresh over a store that already holds day 9 saves the two
    fetched days in ascending order and nothing else. *)
Lemma C5_force_refresh_saves_sorted_batch_witness :
  Crypto.update_data
    (Crypto.mkEnv (Some [Sample.bar 2 200; Sample.bar 1 100]) true)
    "BTC" true (Sample.holding Sample.btc [Sample.bar 9 900])
  = (mkResult success (InitialDataSaved "BTCUSDT") 2 None
       (Some (Iso (Some 2%Z))),
     Sample.holding Sample.btc [Sample.bar 1 100; Sample.bar 2 200]).
Proof.
  pose proof (proj1 (proj1 C5_force_refresh_saves_sorted_batch
    (Crypto.mkEnv (Some [Sample.bar 2 200; Sample.bar 1 100]) true)
    "BTC"%string (Sample.holding Sample.btc [Sample.bar 9 900])
    [Sample.bar 2 200; Sample.bar 1 100]
    eq_refl ltac:(discriminate) eq_refl)) as H.
  rewrite H. vm_compute. reflexivity.
Defined.

(** ** C6: the latest quote *)

Lemma last_nonempty {A} (l : list A) : l <> [] -> exists x, last l = Some x.
Proof.
  induction l as [|a l IH]; [contradiction|]. intros _.
  destruct l as [|b l]; [now exists a|].
  destruct IH as [x Hx]; [discriminate|]. now exists x.
Qed.

Lemma last_In {A} (l : list A) x : last l = Some x -> In x l.
Proof.
  induction l as [|a l IH]; [discriminate|].
  destruct l as [|b l].
  - intros [= ->]. now left.
  - intros H. right. now apply IH.
Qed.

(** The files after a run: untouched, or one table written in sorted
    order. *)
Lemma crypto_update_files env symbol force w :
  let w' := snd (Crypto.update_data env symbol force w) in
  files w' = files w
  \/ exists df,
       files w' =
       <[Crypto.get_file_path (Crypto.normalize symbol) :=
           Parquet (sort_values Crypto.date df)]> (files w).
Proof.
  cbv zeta.
  unfold Crypto.update_data, Crypto.load_stored_data,
    Frame.load_stored_data, Crypto.save_data, Frame.save_data.
  destruct force; cbn [negb];
    [|destruct (files w !! _) as [[t|]|]];
    (destruct (Crypto.api_response env) as [[|r b]|];
     [now left| |now left]);
    try (destruct (List.length _ =? 0)%nat; [now left|]);
    (destruct (Crypto.write_ok env); [right; eexists; reflexivity|now left]).
Qed.

Lemma psx_update_files env ticker force w :
  let w' := snd (Psx.update_data env ticker force w) in
  files w' = files w
  \/ exists df,
       files w' =
       <[Psx.get_file_path (upper ticker) :=
           Parquet (sort_values Psx.date df)]> (files w).
Proof.
  cbv zeta.
  unfold Psx.update_data, Psx.load_stored_data,
    Frame.load_stored_data, Psx.save_data, Frame.save_data.
  destruct force; cbn [negb];
    [|destruct (files w !! _) as [[t|]|]];
    (destruct (Psx.api_response env) as [[|r b]|];
     [now left| |now left]);
    try (destruct (List.length _ =? 0)%nat; [now left|]);
    (destruct (Psx.write_ok env); [right; eexists; reflexivity|now left]).
Qed.

Lemma tables_ascending_written {R} (date : R -> Z) (w w' : World R) path :
  tables_ascending date w ->
  files w' = files w
  \/ (exists df,
        files w' = <[path := Parquet (sort_values date df)]> (files w)) ->
  tables_ascending date w'.
Proof.
  intros Hw [Hsame|[df Hnew]] p t Hp.
  - rewrite Hsame in Hp. eapply Hw; eauto.
  - rewrite Hnew in Hp. destruct (decide (path = p)) as [<-|Hne].
    + rewrite lookup_insert_eq in Hp. injection Hp as <-.
      apply sort_values_ascending.
    + rewrite lookup_insert_ne in Hp by exact Hne. eapply Hw; eauto.
Qed.

Lemma tables_ascending_empty {R} (date : R -> Z) log :
  tables_ascending date (mkWorld ∅ log).
Proof. intros p t Hp. cbn [files] in Hp. now rewrite lookup_empty in Hp. Qed.

Lemma crypto_latest symbol w :
  let name := Crypto.normalize symbol in
  let path := Crypto.get_file_path name in
  (files w !! path = None -> Crypto.get_latest_price symbol w = (None, w))
  /\ (files w !! path = Some Unreadable ->
      fst (Crypto.get_latest_price symbol w) = None)
  /\ (files w !! path = Some (Parquet []) ->
      Crypto.get_latest_price symbol w = (None, w))
  /\ (forall t,
        files w !! path = Some (Parquet t) ->
        t <> [] ->
        ascending Crypto.date t ->
        exists latest,
          In latest t
          /\ max_date Crypto.date t = Some (Crypto.date latest)
          /\ Crypto.get_latest_price symbol w =
             (Some (Crypto.mkQuote name
                      (Some (Crypto.date latest))
                      (Crypto.float_or_null (Crypto.close latest))
                      (Crypto.float_or_null (Crypto.open latest))
                      (Crypto.float_or_null (Crypto.high latest))
                      (Crypto.float_or_null (Crypto.low latest))
                      (Crypto.float_or_null (Crypto.volume latest))),
              w))
  /\ Crypto.float_or_null NaN = None
  /\ (forall x, x <> NaN -> Crypto.float_or_null x = Some x)
  /\ (forall env other force,
        tables_ascending Crypto.date w ->
        tables_ascending Crypto.date
          (snd (Crypto.update_data env other force w))).
Proof.
  intros name path.
  unfold Crypto.get_latest_price, Crypto.load_stored_data,
    Frame.load_stored_data.
  fold name. fold path.
  split; [intros ->; reflexivity|].
  split; [intros ->; reflexivity|].
  split; [intros ->; reflexivity|].
  split; [|split; [reflexivity|split]].
  - intros t -> Hne Hasc.
    destruct (last_nonempty t Hne) as [latest Hlast].
    exists latest. split; [now apply last_In|].
    split; [now apply max_date_last|].
    rewrite Hlast. reflexivity.
  - intros x Hx. destruct x; [reflexivity|reflexivity|contradiction].
  - intros env other force Hw.
    eapply tables_ascending_written; [exact Hw|].
    apply crypto_update_files.
Qed.

Lemma psx_latest ticker w :
  let name := upper ticker in
  let path := Psx.get_file_path name in
  (files w !! path = None -> Psx.get_latest_price ticker w = (None, w))
  /\ (files w !! path = Some Unreadable ->
      fst (Psx.get_latest_price ticker w) = None)
  /\ (files w !! path = Some (Parquet []) ->
      Psx.get_latest_price ticker w = (None, w))
  /\ (forall t,
        files w !! path = Some (Parquet t) ->
        t <> [] ->
        ascending Psx.date t ->
        exists latest,
          In latest t
          /\ max_date Psx.date t = Some (Psx.date latest)
          /\ Psx.get_latest_price ticker w =
             (Some (Psx.mkQuote name
                      (Some (Psx.date latest))
                      (Psx.float_or_null (Psx.close latest))
                      (Psx.float_or_null (Psx.open latest))
                      (Psx.float_or_null (Psx.high latest))
                      (Psx.float_or_null (Psx.low latest))
                      (Psx.float_or_null (Psx.volume latest))
                      (Psx.float_or_null (Psx.change_pct latest))),
              w))
  /\ Psx.float_or_null NaN = None
  /\ (forall x, x <> NaN -> Psx.float_or_null x = Some x)
  /\ (forall env other force,
        tables_ascending Psx.date w ->
        tables_ascending Psx.date
          (snd (Psx.update_data env other force w))).
Proof.
  intros name path.
  unfold Psx.get_latest_price, Psx.load_stored_data,
    Frame.load_stored_data.
  fold name. fold path.
  split; [intros ->; reflexivity|].
  split; [intros ->; reflexivity|].
  split; [intros ->; reflexivity|].
  split; [|split; [reflexivity|split]].
  - intros t -> Hne Hasc.
    destruct (last_nonempty t Hne) as [latest Hlast].
    exists latest. split; [now apply last_In|].
    split; [now apply max_date_last|].
    rewrite Hlast. reflexivity.
  - intros x Hx. destruct x; [reflexivity|reflexivity|contradiction].
  - intros env other force Hw.
    eapply tables_ascending_written; [exact Hw|].
    apply psx_update_files.
Qed.

(** C6 — [get_latest_price] returns nothing when there is no table (no
    file, or a file that does not parse) or the table has no rows.  On a
    non-empty table, sorted ascending by date, it returns the quote of a
    row of the table whose date is the maximum date of the table; in the
    quote each numeric field is the cell's value, or null when the cell
    is missing ([NaN]).  Sortedness is an invariant of the store: every
    [update] keeps all tables sorted ascending by date.  Crypto and
    ticker managers. *)
Theorem C6_latest_is_row_of_maximum_date :
  (forall symbol w,
     let name := Crypto.normalize symbol in
     let path := Crypto.get_file_path name in
     (files w !! path = None -> Crypto.get_latest_price symbol w = (None, w))
     /\ (files w !! path = Some Unreadable ->
         fst (Crypto.get_latest_price symbol w) = None)
     /\ (files w !! path = Some (Parquet []) ->
         Crypto.get_latest_price symbol w = (None, w))
     /\ (forall t,
           files w !! path = Some (Parquet t) ->
           t <> [] ->
           ascending Crypto.date t ->
           exists latest,
             In latest t
             /\ max_date Crypto.date t = Some (Crypto.date latest)
             /\ Crypto.get_latest_price symbol w =
                (Some (Crypto.mkQuote name
                         (Some (Crypto.date latest))
                         (Crypto.float_or_null (Crypto.close latest))
                         (Crypto.float_or_null (Crypto.open latest))
                         (Crypto.float_or_null (Crypto.high latest))
                         (Crypto.float_or_null (Crypto.low latest))
                         (Crypto.float_or_null (Crypto.volume latest))),
                 w))
     /\ Crypto.float_or_null NaN = None
     /\ (forall x, x <> NaN -> Crypto.float_or_null x = Some x)
     /\ (forall env other force,
           tables_ascending Crypto.date w ->
           tables_ascending Crypto.date
             (snd (Crypto.update_data env other force w))))
  /\
  (forall ticker w,
     let name := upper ticker in
     let path := Psx.get_file_path name in
     (files w !! path = None -> Psx.get_latest_price ticker w = (None, w))
     /\ (files w !! path = Some Unreadable ->
         fst (Psx.get_latest_price ticker w) = None)
     /\ (files w !! path = Some (Parquet []) ->
         Psx.get_latest_price ticker w = (None, w))
     /\ (forall t,
           files w !! path = Some (Parquet t) ->
           t <> [] ->
           ascending Psx.date t ->
           exists latest,
             In latest t
             /\ max_date Psx.date t = Some (Psx.date latest)
             /\ Psx.get_latest_price ticker w =
                (Some (Psx.mkQuote name
                         (Some (Psx.date latest))
                         (Psx.float_or_null (Psx.close latest))
                         (Psx.float_or_null (Psx.open latest))
                         (Psx.float_or_null (Psx.high latest))
                         (Psx.float_or_null (Psx.low latest))
                         (Psx.float_or_null (Psx.volume latest))
                         (Psx.float_or_null (Psx.change_pct latest))),
                 w))
     /\ Psx.float_or_null NaN = None
     /\ (forall x, x <> NaN -> Psx.float_or_null x = Some x)
     /\ (forall env other force,
           tables_ascending Psx.date w ->
           tables_ascending Psx.date
             (snd (Psx.update_data env other force w)))).
Proof.
  split.
  - apply crypto_latest.
  - apply psx_latest.
Qed.

(** The spec's scenario: days 1 and 2 stored with closes 100 and 101;
    the latest quote is day 2 with close 101. *)
Lemma C6_latest_is_row_of_maximum_date_witness :
  exists latest,
    In latest [Sample.bar 1 100; Sample.bar 2 101]
    /\ max_date Crypto.date [Sample.bar 1 100; Sample.bar 2 101]
       = Some (Crypto.date latest)
    /\ Crypto.get_latest_price "btc"
         (Sample.holding Sample.btc [Sample.bar 1 100; Sample.bar 2 101])
       = (Some (Crypto.mkQuote "BTCUSDT"
                  (Some (Crypto.date latest))
                  (Crypto.float_or_null (Crypto.close latest))
                  (Crypto.float_or_null (Crypto.open latest))
                  (Crypto.float_or_null (Crypto.high latest))
                  (Crypto.float_or_null (Crypto.low latest))
                  (Crypto.float_or_null (Crypto.volume latest))),
          Sample.holding Sample.btc [Sample.bar 1 100; Sample.bar 2 101]).
Proof.
  pose proof (proj1 C6_latest_is_row_of_maximum_date "btc"%string
    (Sample.holding Sample.btc [Sample.bar 1 100; Sample.bar 2 101])) as H.
  cbv zeta in H. destruct H as (_ & _ & _ & H & _).
  apply H.
  - vm_compute. reflexivity.
  - discriminate.
  - unfold ascending. cbn [map Sample.bar Crypto.date].
    repeat constructor; lia.
Defined.

(** ** C7: an unreadable file *)

(** C7 — when the stored file exists but cannot be parsed,
    [load_stored_data] prints the error and returns "no data" instead of
    raising; a non-forced [update] then takes the initial-save path
    (same result as with no file at all) and a successful save replaces
    the unreadable file by the fetched batch, sorted. *)
Theorem C7_unreadable_file_is_replaced :
  forall env symbol w batch,
    files w !! Crypto.get_file_path (Crypto.normalize symbol)
      = Some Unreadable ->
    Crypto.api_response env = Some batch ->
    batch <> [] ->
    let name := Crypto.normalize symbol in
    let run := Crypto.update_data env symbol false w in
    Crypto.load_stored_data name w
      = (None, print_stderr (ErrorLoading name) w)
    /\ fst run =
       fst (Crypto.update_data env symbol false
              (mkWorld (delete (Crypto.get_file_path name) (files w))
                 (stderr w)))
    /\ fst run =
       mkResult
         (if Crypto.write_ok env then success else error)
         (if Crypto.write_ok env
          then InitialDataSaved name else FailedToSave name)
         (List.length batch) None
         (Some (Iso (max_date Crypto.date batch)))
    /\ (Crypto.write_ok env = true ->
        snd run =
        mkWorld
          (<[Crypto.get_file_path name :=
               Parquet (sort_values Crypto.date batch)]> (files w))
          (stderr w ++ [ErrorLoading name])).
Proof.
  intros env symbol w batch Hfile Hapi Hne name run.
  assert (Hload :
    Crypto.load_stored_data name w
    = (None, print_stderr (ErrorLoading name) w)).
  { unfold Crypto.load_stored_data, Frame.load_stored_data.
    fold name in Hfile. now rewrite Hfile. }
  pose proof (crypto_update_initial env symbol false w _ batch
                Hload Hapi Hne) as Hrun.
  fold name in Hrun. fold run in Hrun.
  split; [exact Hload|]. split; [|split].
  - rewrite Hrun.
    rewrite (crypto_update_initial env symbol false _
               (mkWorld (delete (Crypto.get_file_path name) (files w))
                  (stderr w)) batch); [reflexivity| |exact Hapi|exact Hne].
    cbn [negb]. unfold Crypto.load_stored_data, Frame.load_stored_data.
    cbn [files]. fold name. now rewrite lookup_delete_eq.
  - rewrite Hrun. reflexivity.
  - intros Hw. rewrite Hrun. cbn [snd].
    unfold Crypto.save_data, Frame.save_data. rewrite Hw. reflexivity.
Qed.

(** An unreadable BTC file and a fetch of days 2 and 1. *)
Lemma C7_unreadable_file_is_replaced_witness :
  snd (Crypto.update_data
         (Crypto.mkEnv (Some [Sample.bar 2 200; Sample.bar 1 100]) true)
         "BTC" false (Sample.corrupt Sample.btc))
  = mkWorld
      {[ Sample.btc := Parquet [Sample.bar 1 100; Sample.bar 2 200] ]}
      [ErrorLoading "BTCUSDT"].
Proof.
  pose proof (C7_unreadable_file_is_replaced
    (Crypto.mkEnv (Some [Sample.bar 2 200; Sample.bar 1 100]) true)
    "BTC"%string (Sample.corrupt Sample.btc)
    [Sample.bar 2 200; Sample.bar 1 100]
    ltac:(vm_compute; reflexivity) eq_refl ltac:(discriminate)) as H.
  cbv zeta in H. destruct H as (_ & _ & _ & Hsaved).
  rewrite (Hsaved eq_refl). vm_compute. reflexivity.
Defined.

(** ** C8: the volume parser *)

(** *** Characters *)

Ltac ascii_cases c :=
  destruct c as [[] [] [] [] [] [] [] []]; vm_compute;
  repeat split; try congruence; try tauto.

Lemma numeric_char_not_space c :
  numeric_char (lower_char c) = true ->
  is_space c = false /\ is_c_space c = false
  /\ Ascii.eqb c "," = false
  /\ existsb (Ascii.eqb (upper_char c)) (chars "BMK") = false.
Proof. ascii_cases c. Qed.

Lemma c_space_is_space c : is_c_space c = true -> is_space c = true.
Proof. ascii_cases c. Qed.

Lemma c_space_not_comma c :
  is_c_space c = true ->
  Ascii.eqb c "," = false
  /\ existsb (Ascii.eqb (upper_char c)) (chars "BMK") = false.
Proof. ascii_cases c. Qed.

Lemma is_space_upper c : is_space (upper_char c) = is_space c.
Proof. ascii_cases c. Qed.

Lemma is_c_space_upper c : is_c_space (upper_char c) = is_c_space c.
Proof. ascii_cases c. Qed.

Lemma lower_upper c : lower_char (upper_char c) = lower_char c.
Proof. ascii_cases c. Qed.

Lemma not_volume_char c :
  volume_char c = false ->
  float_char (upper_char c) = false
  /\ is_space (upper_char c) = false
  /\ Ascii.eqb c "," = false
  /\ existsb (Ascii.eqb (upper_char c)) (chars "BMK") = false.
Proof. ascii_cases c. Qed.

Lemma numeric_char_lower_digit c :
  is_digit c = true -> numeric_char c = true.
Proof. unfold numeric_char. now intros ->. Qed.

(** *** Lists of characters *)

Lemma chars_text l : chars (text l) = l.
Proof. apply list_ascii_of_string_of_list_ascii. Qed.

Lemma text_chars s : text (chars s) = s.
Proof. apply string_of_list_ascii_of_string. Qed.

(** Replacing a one-character pattern by nothing filters the character
    out. *)
Lemma replace_from_char c l :
  replace_from [c] [] 0 l = List.filter (fun x => negb (Ascii.eqb c x)) l.
Proof.
  induction l as [|x l IH]; [reflexivity|].
  cbn [replace_from prefixb List.length Nat.sub List.filter app].
  destruct (Ascii.eqb c x); cbn [andb negb].
  - destruct l; exact IH.
  - now rewrite IH.
Qed.

Lemma replace_from_char_id c l :
  Forall (fun x => Ascii.eqb c x = false) l ->
  replace_from [c] [] 0 l = l.
Proof.
  rewrite replace_from_char. induction 1 as [|x l Hx _ IH];
    [reflexivity|].
  cbn [List.filter]. rewrite Hx. cbn [negb]. now rewrite IH.
Qed.

Lemma lstrip_by_split sp l :
  exists a, l = a ++ lstrip_by sp l /\ Forall (fun c => sp c = true) a.
Proof.
  induction l as [|c l (a & Hl & Ha)]; [now exists []|].
  cbn [lstrip_by]. destruct (sp c) eqn:E.
  - exists (c :: a). split; [now rewrite Hl at 1|]. now constructor.
  - now exists [].
Qed.

Lemma strip_by_split sp l :
  exists a b,
    l = a ++ strip_by sp l ++ b
    /\ Forall (fun c => sp c = true) a
    /\ Forall (fun c => sp c = true) b.
Proof.
  unfold strip_by.
  destruct (lstrip_by_split sp l) as (a & Hl & Ha).
  destruct (lstrip_by_split sp (rev (lstrip_by sp l))) as (b & Hr & Hb).
  exists a, (rev b). split; [|split].
  - rewrite Hl at 1. f_equal.
    apply (f_equal (@rev ascii)) in Hr.
    rewrite rev_involutive, rev_app_distr in Hr. exact Hr.
  - exact Ha.
  - apply List.Forall_forall. intros c Hc. apply in_rev in Hc.
    rewrite List.Forall_forall in Hb. now apply Hb.
Qed.

Lemma lstrip_by_blank_prefix sp a k :
  Forall (fun c => sp c = true) a ->
  lstrip_by sp (a ++ k) = lstrip_by sp k.
Proof.
  induction 1 as [|c a Hc _ IH]; [reflexivity|].
  cbn [app lstrip_by]. now rewrite Hc.
Qed.

Lemma lstrip_by_blank sp a :
  Forall (fun c => sp c = true) a -> lstrip_by sp a = [].
Proof.
  intros H. rewrite <- (app_nil_r a). now rewrite lstrip_by_blank_prefix.
Qed.

Lemma last_rev_head {A} (k : list A) c :
  last k = Some c -> exists k', rev k = c :: k'.
Proof.
  intros H. destruct (rev k) as [|x k'] eqn:E.
  - apply (f_equal (@rev A)) in E. rewrite rev_involutive in E.
    subst. discriminate.
  - exists k'. f_equal.
    apply (f_equal (@rev A)) in E. rewrite rev_involutive in E.
    subst k. cbn [rev] in H. rewrite last_snoc in H. congruence.
Qed.

Lemma strip_by_trimmed sp a k b :
  Forall (fun c => sp c = true) a ->
  Forall (fun c => sp c = true) b ->
  trimmed sp k ->
  strip_by sp (a ++ k ++ b) = k.
Proof.
  intros Ha Hb Hk. unfold strip_by.
  rewrite lstrip_by_blank_prefix by exact Ha.
  destruct k as [|c k].
  - cbn [app]. rewrite (lstrip_by_blank sp b Hb). reflexivity.
  - destruct Hk as (Hc & c' & Hlast & Hc').
    cbn [app lstrip_by]. rewrite Hc.
    change (c :: k ++ b) with ((c :: k) ++ b).
    rewrite rev_app_distr.
    rewrite lstrip_by_blank_prefix.
    + destruct (last_rev_head _ _ Hlast) as (k' & Hrev).
      rewrite Hrev. cbn [lstrip_by]. rewrite Hc'.
      rewrite <- Hrev. apply rev_involutive.
    + apply List.Forall_forall. intros x Hx. apply in_rev in Hx.
      rewrite List.Forall_forall in Hb. now apply Hb.
Qed.

Lemma strip_by_In sp l c :
  In c l -> sp c = false -> In c (strip_by sp l).
Proof.
  intros Hin Hc.
  destruct (strip_by_split sp l) as (a & b & Hl & Ha & Hb).
  rewrite Hl in Hin. rewrite List.Forall_forall in Ha, Hb.
  apply in_app_or in Hin as [Hin|Hin].
  - specialize (Ha _ Hin). congruence.
  - apply in_app_or in Hin as [Hin|Hin]; [exact Hin|].
    specialize (Hb _ Hin). congruence.
Qed.

(** *** The float literal *)

Lemma span_digits_split acc n l v n' r :
  span_digits acc n l = (v, n', r) ->
  exists ds, l = ds ++ r /\ Forall (fun c => is_digit c = true) ds.
Proof.
  revert acc n. induction l as [|c l IH]; intros acc n H.
  - injection H as _ _ <-. now exists [].
  - cbn [span_digits] in H. destruct (is_digit c) eqn:E.
    + apply IH in H as (ds & -> & Hds). exists (c :: ds).
      split; [reflexivity|]. now constructor.
    + injection H as _ _ <-. now exists [].
Qed.

Lemma digits_numeric ds :
  Forall (fun c => is_digit c = true) ds ->
  Forall (fun c => numeric_char c = true) ds.
Proof.
  apply List.Forall_impl. intros c. apply numeric_char_lower_digit.
Qed.

Lemma split_sign_chars l neg body :
  split_sign l = (neg, body) ->
  Forall (fun c => numeric_char c = true) body ->
  Forall (fun c => numeric_char c = true) l.
Proof.
  unfold split_sign. intros H Hbody.
  destruct l as [|c l]; [now injection H as _ <-|].
  destruct (Ascii.eqb c "-") eqn:Em.
  { apply Ascii.eqb_eq in Em. subst c. injection H as _ <-.
    constructor; [reflexivity|exact Hbody]. }
  destruct (Ascii.eqb c "+") eqn:Ep.
  { apply Ascii.eqb_eq in Ep. subst c. injection H as _ <-.
    constructor; [reflexivity|exact Hbody]. }
  assert (Hsame : (neg, body) = (false, c :: l)).
  { rewrite <- H. clear H Hbody.
    destruct c as [[] [] [] [] [] [] [] []];
      try reflexivity; vm_compute in Em, Ep; discriminate. }
  injection Hsame as _ ->. exact Hbody.
Qed.

Lemma parse_decimal_chars l q :
  parse_decimal l = Some q -> Forall (fun c => numeric_char c = true) l.
Proof.
  unfold parse_decimal.
  destruct (span_digits 0 0 l) as [[ip n1] r1] eqn:E1.
  apply span_digits_split in E1 as (ds1 & -> & Hds1).
  apply digits_numeric in Hds1.
  intros H. apply Forall_app. split; [exact Hds1|]. clear Hds1 ds1.
  assert (Htail :
    forall mant n2 r2,
      (if (n1 + n2 =? 0)%nat then None
       else
         match r2 with
         | [] => Some (Qred (inject_Z mant * pow10 (- Z.of_nat n2)))
         | "e"%char :: r =>
             let '(eneg, r') := split_sign r in
             let '(ev, n3, r3) := span_digits 0 0 r' in
             match n3, r3 with
             | S _, [] =>
                 let e := if eneg then (- ev)%Z else ev in
                 Some (Qred (inject_Z mant * pow10 (e - Z.of_nat n2)))
             | _, _ => None
             end
         | _ => None
         end) = Some q ->
      Forall (fun c => numeric_char c = true) r2).
  { intros mant n2 r2 Ht. destruct (n1 + n2 =? 0)%nat; [discriminate|].
    destruct r2 as [|c r]; [constructor|].
    destruct (Ascii.eqb c "e") eqn:Ee.
    2:{ exfalso. clear -Ht Ee.
        destruct c as [[] [] [] [] [] [] [] []];
          try discriminate Ht; vm_compute in Ee; discriminate. }
    apply Ascii.eqb_eq in Ee. subst c.
    destruct (split_sign r) as [eneg r'] eqn:Es.
    destruct (span_digits 0 0 r') as [[ev n3] r3] eqn:E3.
    destruct n3; [discriminate|]. destruct r3; [|discriminate].
    apply span_digits_split in E3 as (ds3 & -> & Hds3).
    rewrite app_nil_r in Es.
    constructor; [reflexivity|].
    eapply split_sign_chars; [exact Es|]. now apply digits_numeric. }
  destruct r1 as [|c r].
  - constructor.
  - destruct (Ascii.eqb c ".") eqn:Ed.
    + apply Ascii.eqb_eq in Ed. subst c.
      destruct (span_digits ip 0 r) as [[mant n2] r2] eqn:E2.
      apply span_digits_split in E2 as (ds2 & -> & Hds2).
      constructor; [reflexivity|].
      apply Forall_app. split; [now apply digits_numeric|].
      eapply Htail. exact H.
    + destruct c as [[] [] [] [] [] [] [] []];
        try (vm_compute in Ed; discriminate Ed);
        match goal with
        | |- Forall _ (?c :: r) =>
            apply (Htail ip 0%nat (c :: r)); exact H
        end.
Qed.

Lemma check_underscores_chars prev t u :
  check_underscores prev t = Some u ->
  Forall (fun c => numeric_char c = true) u ->
  Forall (fun c => numeric_char c = true) t.
Proof.
  revert prev u. induction t as [|c t IH]; intros prev u H Hu;
    [constructor|].
  cbn [check_underscores] in H.
  destruct (is_underscore c) eqn:Eu.
  - apply Ascii.eqb_eq in Eu. subst c.
    constructor; [reflexivity|].
    destruct prev as [p|]; [|discriminate].
    destruct (is_digit p); [|discriminate]. eapply IH; eauto.
  - destruct (_ && negb (is_digit c)); [discriminate|].
    destruct (check_underscores (Some c) t) as [u'|] eqn:E;
      [|discriminate].
    injection H as <-. inversion Hu as [|? ? Hc Hu']; subst.
    constructor; [exact Hc|]. eapply IH; eauto.
Qed.

Lemma list_eqb_eq a b : list_eqb a b = true -> a = b.
Proof.
  unfold list_eqb. intros H. apply String.eqb_eq in H.
  apply (f_equal chars) in H. now rewrite !chars_text in H.
Qed.

(** A literal is not empty and consists of numeric characters. *)
Lemma float_literal_chars k x :
  float_literal k = Ret x ->
  k <> [] /\ Forall (fun c => numeric_char (lower_char c) = true) k.
Proof.
  intros H. split.
  { intros ->. vm_compute in H. discriminate. }
  unfold float_literal in H.
  destruct (check_underscores None (map lower_char k)) as [u|] eqn:Eu;
    [|discriminate].
  assert (Hu : Forall (fun c => numeric_char c = true) u).
  { destruct (split_sign u) as [neg body] eqn:Es.
    eapply split_sign_chars; [exact Es|].
    destruct (list_eqb body (chars "inf")) eqn:E1.
    { apply list_eqb_eq in E1. subst body. repeat constructor. }
    destruct (list_eqb body (chars "infinity")) eqn:E2.
    { apply list_eqb_eq in E2. subst body. repeat constructor. }
    cbn [orb] in H.
    destruct (list_eqb body (chars "nan")) eqn:E3.
    { apply list_eqb_eq in E3. subst body. repeat constructor. }
    destruct (parse_decimal body) as [q|] eqn:Ep; [|discriminate].
    eapply parse_decimal_chars; eauto. }
  pose proof (check_underscores_chars _ _ _ Eu Hu) as Ht.
  rewrite List.Forall_forall in *. intros c Hc.
  apply Ht. now apply in_map.
Qed.

(** The literal does not depend on the case of its letters. *)
Lemma float_literal_upper k :
  float_literal (map upper_char k) = float_literal k.
Proof.
  unfold float_literal. rewrite map_map.
  now rewrite (map_ext _ lower_char lower_upper).
Qed.

(** What [float()] accepts: blanks around a literal. *)
Lemma py_float_accepts s x :
  py_float s = Ret x ->
  exists a k b,
    chars s = a ++ k ++ b
    /\ Forall (fun c => is_c_space c = true) a
    /\ Forall (fun c => is_c_space c = true) b
    /\ k <> []
    /\ Forall (fun c => numeric_char (lower_char c) = true) k
    /\ float_literal k = Ret x.
Proof.
  unfold py_float. intros H.
  destruct (strip_by_split is_c_space (chars s)) as (a & b & Hl & Ha & Hb).
  destruct (float_literal_chars _ _ H) as [Hne Hk].
  exists a, (strip_by is_c_space (chars s)), b. auto 10.
Qed.

Lemma py_float_chars s x c :
  py_float s = Ret x -> In c (chars s) -> float_char c = true.
Proof.
  intros H Hc.
  destruct (py_float_accepts _ _ H) as (a & k & b & Hl & Ha & Hb & _ & Hk & _).
  rewrite Hl in Hc. rewrite List.Forall_forall in Ha, Hb, Hk.
  unfold float_char.
  apply in_app_or in Hc as [Hc|Hc]; [now rewrite (Ha _ Hc)|].
  apply in_app_or in Hc as [Hc|Hc].
  - rewrite (Hk _ Hc). apply orb_true_r.
  - now rewrite (Hb _ Hc).
Qed.

Lemma py_float_rejects s c :
  In c (chars s) -> float_char c = false -> py_float s = Raise ValueError.
Proof.
  intros Hc Hf. destruct (py_float s) as [x|e] eqn:E.
  - rewrite (py_float_chars _ _ _ E Hc) in Hf. discriminate.
  - now rewrite (py_float_raises _ _ E).
Qed.

Lemma last_map_upper k c :
  last k = Some c -> last (map upper_char k) = Some (upper_char c).
Proof.
  induction k as [|x k IH]; [discriminate|].
  destruct k as [|y k].
  - now intros [= ->].
  - intros H. specialize (IH H). exact IH.
Qed.

Lemma trimmed_upper sp k :
  (forall c, sp (upper_char c) = sp c) ->
  k <> [] ->
  Forall (fun c => sp c = false) k ->
  trimmed sp (map upper_char k).
Proof.
  intros Hsp Hne Hk. destruct k as [|c k]; [contradiction|].
  cbn [map trimmed]. rewrite List.Forall_forall in Hk.
  split; [rewrite Hsp; apply Hk; now left|].
  destruct (last_nonempty (c :: k) Hne) as [c' Hc'].
  exists (upper_char c'). split.
  - apply (last_map_upper (c :: k)). exact Hc'.
  - rewrite Hsp. apply Hk. now apply last_In.
Qed.

Lemma endswith_char s x :
  endswith s (text [x]) = true -> In x (chars s).
Proof.
  unfold endswith. rewrite chars_text. cbn [rev app].
  intros H. apply in_rev.
  destruct (rev (chars s)) as [|y l]; [discriminate|].
  cbn [prefixb] in H. apply andb_prop in H as [H _].
  apply Ascii.eqb_eq in H. subst. now left.
Qed.

(** *** [parse_volume] *)

Lemma strip_by_trimmed_id sp k : trimmed sp k -> strip_by sp k = k.
Proof.
  intros Hk.
  pose proof (strip_by_trimmed sp [] k [] (List.Forall_nil _) (List.Forall_nil _) Hk)
    as H.
  cbn [app] in H. now rewrite app_nil_r in H.
Qed.

Lemma chars_replace_char x s :
  chars (replace (text [x]) (text []) s)
  = List.filter (fun c => negb (Ascii.eqb x c)) (chars s).
Proof.
  unfold replace. rewrite !chars_text. apply replace_from_char.
Qed.

Lemma no_suffix_after_number k x :
  In x (chars "BMK") ->
  Forall (fun c => numeric_char (lower_char c) = true) k ->
  endswith (text (map upper_char k)) (text [x]) = false.
Proof.
  intros Hx Hk. destruct (endswith _ _) eqn:E; [|reflexivity].
  apply endswith_char in E. rewrite chars_text in E.
  apply in_map_iff in E as (c & Hc & Hin).
  rewrite List.Forall_forall in Hk.
  destruct (numeric_char_not_space c (Hk _ Hin)) as (_ & _ & _ & Hno).
  rewrite Hc in Hno.
  assert (Hyes : existsb (Ascii.eqb x) (chars "BMK") = true).
  { apply existsb_exists. exists x. split; [exact Hx|].
    apply Ascii.eqb_refl. }
  congruence.
Qed.

(** An unsuffixed numeric string is returned as the number it denotes. *)
Lemma parse_volume_numeric s x :
  py_float s = Ret x -> Spx.parse_volume (VStr s) = Ret (Some x).
Proof.
  intros H.
  destruct (py_float_accepts _ _ H)
    as (a & k & b & Hl & Ha & Hb & Hne & Hk & Hlit).
  assert (Hnonempty : String.eqb s "" = false).
  { destruct s; [|reflexivity]. cbn in Hl.
    destruct a; [|discriminate]. destruct k; [contradiction|discriminate]. }
  assert (Hnocomma : Forall (fun c => Ascii.eqb "," c = false) (chars s)).
  { rewrite Hl. rewrite !Forall_app. repeat split.
    - eapply List.Forall_impl; [|exact Ha]. intros c Hc.
      rewrite Ascii.eqb_sym. apply (c_space_not_comma c Hc).
    - eapply List.Forall_impl; [|exact Hk]. intros c Hc.
      rewrite Ascii.eqb_sym. apply (numeric_char_not_space c Hc).
    - eapply List.Forall_impl; [|exact Hb]. intros c Hc.
      rewrite Ascii.eqb_sym. apply (c_space_not_comma c Hc). }
  assert (Hrepl : replace "," "" s = s).
  { unfold replace. change (chars ",") with [","%char].
    change (chars "") with (@nil ascii).
    rewrite replace_from_char_id by exact Hnocomma. apply text_chars. }
  assert (Hclean : strip (upper s) = text (map upper_char k)).
  { unfold strip, upper. rewrite chars_text, Hl, !map_app. f_equal.
    apply strip_by_trimmed.
    - apply Forall_map. eapply List.Forall_impl; [|exact Ha].
      intros c Hc. cbn beta. rewrite is_space_upper.
      now apply c_space_is_space.
    - apply Forall_map. eapply List.Forall_impl; [|exact Hb].
      intros c Hc. cbn beta. rewrite is_space_upper.
      now apply c_space_is_space.
    - apply trimmed_upper; [apply is_space_upper|exact Hne|].
      eapply List.Forall_impl; [|exact Hk]. intros c Hc.
      apply (numeric_char_not_space c Hc). }
  assert (Hfloat : py_float (text (map upper_char k)) = Ret x).
  { unfold py_float. rewrite chars_text.
    rewrite strip_by_trimmed_id.
    - now rewrite float_literal_upper.
    - apply trimmed_upper; [apply is_c_space_upper|exact Hne|].
      eapply List.Forall_impl; [|exact Hk]. intros c Hc.
      apply (numeric_char_not_space c Hc). }
  unfold Spx.parse_volume. cbn [truthy str]. rewrite Hnonempty.
  cbn [negb]. rewrite Hrepl, Hclean.
  assert (HB : endswith (text (map upper_char k)) "B" = false).
  { apply (no_suffix_after_number k "B"%char); [cbn; tauto|exact Hk]. }
  assert (HM : endswith (text (map upper_char k)) "M" = false).
  { apply (no_suffix_after_number k "M"%char); [cbn; tauto|exact Hk]. }
  assert (HK : endswith (text (map upper_char k)) "K" = false).
  { apply (no_suffix_after_number k "K"%char); [cbn; tauto|exact Hk]. }
  rewrite HB, HM, HK, Hfloat. reflexivity.
Qed.

Lemma try_float_rejects s c (k : pyfloat -> option pyfloat) :
  In c (chars s) ->
  float_char c = false ->
  try_except_value_type (bind (py_float s) (fun x => Ret (k x))) None
  = Ret None.
Proof.
  intros Hc Hf. now rewrite (py_float_rejects s c Hc Hf).
Qed.

(** A text with a character that no volume text holds yields null. *)
Lemma parse_volume_rejects s c :
  In c (chars s) ->
  volume_char c = false ->
  Spx.parse_volume (VStr s) = Ret None.
Proof.
  intros Hc Hv.
  destruct (not_volume_char c Hv) as (Hf & Hsp & Hcomma & Hsuffix).
  assert (Hnonempty : String.eqb s "" = false).
  { destruct s; [contradiction|reflexivity]. }
  set (cleaned := strip (upper (replace "," "" s))).
  assert (Hin : In (upper_char c) (chars cleaned)).
  { unfold cleaned, strip, upper. rewrite !chars_text.
    apply strip_by_In; [|exact Hsp]. apply in_map.
    change (replace "," "" s) with (replace (text [","%char]) (text []) s).
    rewrite (chars_replace_char ","%char s).
    apply filter_In. split; [exact Hc|].
    rewrite Ascii.eqb_sym, Hcomma. reflexivity. }
  assert (Hin' :
    forall x, In x (chars "BMK") ->
              In (upper_char c) (chars (replace (text [x]) "" cleaned))).
  { intros x Hx.
    change (replace (text [x]) "" cleaned)
      with (replace (text [x]) (text []) cleaned).
    rewrite (chars_replace_char x cleaned).
    apply filter_In. split; [exact Hin|].
    destruct (Ascii.eqb x (upper_char c)) eqn:E; [|reflexivity].
    apply Ascii.eqb_eq in E. subst x.
    assert (existsb (Ascii.eqb (upper_char c)) (chars "BMK") = true).
    { apply existsb_exists. exists (upper_char c).
      split; [exact Hx|apply Ascii.eqb_refl]. }
    congruence. }
  unfold Spx.parse_volume. cbn [truthy str]. rewrite Hnonempty.
  cbn [negb]. fold cleaned.
  destruct (endswith cleaned "B").
  { apply (try_float_rejects _ (upper_char c)); [|exact Hf].
    apply (Hin' "B"%char). cbn; tauto. }
  destruct (endswith cleaned "M").
  { apply (try_float_rejects _ (upper_char c)); [|exact Hf].
    apply (Hin' "M"%char). cbn; tauto. }
  destruct (endswith cleaned "K").
  { apply (try_float_rejects _ (upper_char c)); [|exact Hf].
    apply (Hin' "K"%char). cbn; tauto. }
  now apply (try_float_rejects _ (upper_char c)).
Qed.

(** What is left once every occurrence of the matched suffix letter is
    deleted can be a number although the text is not a suffixed number. *)
Lemma parse_volume_deletes_every_suffix_letter :
  Spx.parse_volume (VStr "1B2B") = Ret (Some (Fin 12000000000)).
Proof. vm_compute. reflexivity. Qed.

(** Whenever [float()] refuses the numeric text, the result is null. *)
Lemma parse_volume_unparsable v e :
  py_float (Spx.numeric_text v) = Raise e -> Spx.parse_volume v = Ret None.
Proof.
  unfold Spx.numeric_text, Spx.cleaned_text, Spx.parse_volume.
  destruct (negb (truthy v)); [reflexivity|].
  intros H.
  destruct (endswith _ "B");
    [pose proof (py_float_raises _ _ H); subst e; now rewrite H|].
  destruct (endswith _ "M");
    [pose proof (py_float_raises _ _ H); subst e; now rewrite H|].
  destruct (endswith _ "K");
    pose proof (py_float_raises _ _ H); subst e; now rewrite H.
Qed.

(** C8 — [parse_volume] maps "2.5B" to 2500000000, "140M" to 140000000
    and "3K" to 3000; returns every string that [float()] accepts (an
    unsuffixed numeric string) as the number [float()] gives; never
    raises; returns null for [None], the empty string and any other
    false value; returns null whenever [float()] refuses the numeric
    text of the value; and so returns null for every string holding a
    character that cannot occur in a volume text. *)
Theorem C8_parse_volume :
  Spx.parse_volume (VStr "2.5B") = Ret (Some (Fin 2500000000))
  /\ Spx.parse_volume (VStr "140M") = Ret (Some (Fin 140000000))
  /\ Spx.parse_volume (VStr "3K") = Ret (Some (Fin 3000))
  /\ (forall s x,
        py_float s = Ret x -> Spx.parse_volume (VStr s) = Ret (Some x))
  /\ (forall v, exists r, Spx.parse_volume v = Ret r)
  /\ (forall v, truthy v = false -> Spx.parse_volume v = Ret None)
  /\ (forall v e,
        py_float (Spx.numeric_text v) = Raise e ->
        Spx.parse_volume v = Ret None)
  /\ (forall s c,
        In c (chars s) ->
        volume_char c = false ->
        Spx.parse_volume (VStr s) = Ret None).
Proof.
  split; [vm_compute; reflexivity|].
  split; [vm_compute; reflexivity|].
  split; [vm_compute; reflexivity|].
  split; [exact parse_volume_numeric|].
  split; [exact parse_volume_returns|].
  split; [|split; [exact parse_volume_unparsable|exact parse_volume_rejects]].
  intros v Hv. unfold Spx.parse_volume. now rewrite Hv.
Qed.

(** The text "1234.5" is numeric and comes back as 1234.5; the text
    "n/a" holds a slash and comes back as null. *)
Lemma C8_parse_volume_witness :
  Spx.parse_volume (VStr "1234.5") = Ret (Some (Fin (2469 # 2)))
  /\ Spx.parse_volume (VStr "") = Ret None
  /\ Spx.parse_volume (VStr "1.2.3M") = Ret None
  /\ Spx.parse_volume (VStr "n/a") = Ret None.
Proof.
  destruct C8_parse_volume
    as (_ & _ & _ & Hnum & _ & Hfalse & Hunp & Hrej).
  split; [|split; [|split]].
  - apply Hnum. vm_compute. reflexivity.
  - apply Hfalse. reflexivity.
  - apply (Hunp (VStr "1.2.3M") ValueError). vm_compute. reflexivity.
  - apply (Hrej "n/a"%string "/"%char).
    + cbn. tauto.
    + vm_compute. reflexivity.
Defined.

(** ** C9: stored rows are kept *)

Lemma crypto_update_keeps_stored env symbol w stored :
  files w !! Crypto.get_file_path (Crypto.normalize symbol)
    = Some (Parquet stored) ->
  List.NoDup (map Crypto.date stored) ->
  let run := Crypto.update_data env symbol false w in
  exists t appended,
    files (snd run) !! Crypto.get_file_path (Crypto.normalize symbol)
      = Some (Parquet t)
    /\ Permutation t (stored ++ appended)
    /\ (forall r,
          In r appended ->
          (exists batch, Crypto.api_response env = Some batch /\ In r batch)
          /\ exists m,
               max_date Crypto.date stored = Some m
               /\ (m < Crypto.date r)%Z).
Proof.
  intros Hfile Hnd run.
  assert (Hsame :
    files (snd run) = files w ->
    exists t appended,
      files (snd run) !! Crypto.get_file_path (Crypto.normalize symbol)
        = Some (Parquet t)
      /\ Permutation t (stored ++ appended)
      /\ (forall r,
            In r appended ->
            (exists batch,
               Crypto.api_response env = Some batch /\ In r batch)
            /\ exists m,
                 max_date Crypto.date stored = Some m
                 /\ (m < Crypto.date r)%Z)).
  { intros ->. exists stored, []. split; [exact Hfile|].
    rewrite app_nil_r. split; [reflexivity|]. intros r []. }
  destruct (Crypto.api_response env) as [[|r0 batch']|] eqn:Hapi.
  - apply Hsame. unfold run, Crypto.update_data. cbn [negb].
    unfold Crypto.load_stored_data, Frame.load_stored_data.
    rewrite Hfile, Hapi. reflexivity.
  - set (batch := r0 :: batch') in *.
    assert (Hne : batch <> []) by discriminate.
    pose proof (crypto_update_existing env symbol w stored batch
                  Hfile Hapi Hne) as Hrun.
    cbv zeta in Hrun. fold run in Hrun.
    destruct (List.length _ =? 0)%nat.
    { apply Hsame. rewrite Hrun. reflexivity. }
    destruct (Crypto.write_ok env) eqn:Hw.
    + exists (sort_values Crypto.date
                (drop_duplicates_last Crypto.date
                   (stored ++
                    select_newer Crypto.date (max_date Crypto.date stored)
                      (sort_values Crypto.date batch)))),
             (drop_duplicates_last Crypto.date
                (select_newer Crypto.date (max_date Crypto.date stored)
                   (sort_values Crypto.date batch))).
      split; [|split].
      * rewrite Hrun. cbn [snd]. unfold Crypto.save_data.
        rewrite save_data_files, Hw. apply lookup_insert_eq.
      * now apply merged_keeps_stored.
      * intros r Hr. apply drop_duplicates_last_In in Hr.
        apply select_newer_In in Hr as [Hr Hnewer].
        apply sort_values_In in Hr. split; [eauto|exact Hnewer].
    + apply Hsame. rewrite Hrun. cbn [snd]. unfold Crypto.save_data.
      now rewrite save_data_files, Hw.
  - apply Hsame. unfold run, Crypto.update_data. cbn [negb].
    unfold Crypto.load_stored_data, Frame.load_stored_data.
    rewrite Hfile, Hapi. reflexivity.
Qed.

Lemma psx_update_keeps_stored env ticker w stored :
  files w !! Psx.get_file_path (upper ticker) = Some (Parquet stored) ->
  List.NoDup (map Psx.date stored) ->
  let run := Psx.update_data env ticker false w in
  exists t appended,
    files (snd run) !! Psx.get_file_path (upper ticker) = Some (Parquet t)
    /\ Permutation t (stored ++ appended)
    /\ (forall r,
          In r appended ->
          (exists api_data,
             Psx.api_response env = Some api_data
             /\ In r (map Psx.column_mapping api_data))
          /\ exists m,
               max_date Psx.date stored = Some m /\ (m < Psx.date r)%Z).
Proof.
  intros Hfile Hnd run.
  assert (Hsame :
    files (snd run) = files w ->
    exists t appended,
      files (snd run) !! Psx.get_file_path (upper ticker)
        = Some (Parquet t)
      /\ Permutation t (stored ++ appended)
      /\ (forall r,
            In r appended ->
            (exists api_data,
               Psx.api_response env = Some api_data
               /\ In r (map Psx.column_mapping api_data))
            /\ exists m,
                 max_date Psx.date stored = Some m
                 /\ (m < Psx.date r)%Z)).
  { intros ->. exists stored, []. split; [exact Hfile|].
    rewrite app_nil_r. split; [reflexivity|]. intros r []. }
  destruct (Psx.api_response env) as [[|r0 api']|] eqn:Hapi.
  - apply Hsame. unfold run, Psx.update_data. cbn [negb].
    unfold Psx.load_stored_data, Frame.load_stored_data.
    rewrite Hfile, Hapi. reflexivity.
  - set (api_data := r0 :: api') in *.
    assert (Hne : api_data <> []) by discriminate.
    pose proof (psx_update_existing env ticker w stored api_data
                  Hfile Hapi Hne) as Hrun.
    cbv zeta in Hrun. fold run in Hrun.
    destruct (List.length _ =? 0)%nat.
    { apply Hsame. rewrite Hrun. reflexivity. }
    destruct (Psx.write_ok env) eqn:Hw.
    + exists (sort_values Psx.date
                (drop_duplicates_last Psx.date
                   (stored ++
                    select_newer Psx.date (max_date Psx.date stored)
                      (sort_values Psx.date
                         (map Psx.column_mapping api_data))))),
             (drop_duplicates_last Psx.date
                (select_newer Psx.date (max_date Psx.date stored)
                   (sort_values Psx.date
                      (map Psx.column_mapping api_data)))).
      split; [|split].
      * rewrite Hrun. cbn [snd]. unfold Psx.save_data.
        rewrite save_data_files, Hw. apply lookup_insert_eq.
      * now apply merged_keeps_stored.
      * intros r Hr. apply drop_duplicates_last_In in Hr.
        apply select_newer_In in Hr as [Hr Hnewer].
        apply sort_values_In in Hr. split; [eauto|exact Hnewer].
    + apply Hsame. rewrite Hrun. cbn [snd]. unfold Psx.save_data.
      now rewrite save_data_files, Hw.
  - apply Hsame. unfold run, Psx.update_data. cbn [negb].
    unfold Psx.load_stored_data, Frame.load_stored_data.
    rewrite Hfile, Hapi. reflexivity.
Qed.

(** C9 — when the stored table has pairwise distinct dates, the table in
    the store after a non-forced [update] is, up to order, the stored
    rows (each unchanged) followed by appended rows, and every appended
    row is a row of the incoming batch dated strictly after the stored
    maximum.  Crypto and ticker managers. *)
Theorem C9_update_keeps_stored_rows :
  (forall env symbol w stored,
     files w !! Crypto.get_file_path (Crypto.normalize symbol)
       = Some (Parquet stored) ->
     List.NoDup (map Crypto.date stored) ->
     let run := Crypto.update_data env symbol false w in
     exists t appended,
       files (snd run) !! Crypto.get_file_path (Crypto.normalize symbol)
         = Some (Parquet t)
       /\ Permutation t (stored ++ appended)
       /\ (forall r,
             In r appended ->
             (exists batch,
                Crypto.api_response env = Some batch /\ In r batch)
             /\ exists m,
                  max_date Crypto.date stored = Some m
                  /\ (m < Crypto.date r)%Z))
  /\
  (forall env ticker w stored,
     files w !! Psx.get_file_path (upper ticker) = Some (Parquet stored) ->
     List.NoDup (map Psx.date stored) ->
     let run := Psx.update_data env ticker false w in
     exists t appended,
       files (snd run) !! Psx.get_file_path (upper ticker)
         = Some (Parquet t)
       /\ Permutation t (stored ++ appended)
       /\ (forall r,
             In r appended ->
             (exists api_data,
                Psx.api_response env = Some api_data
                /\ In r (map Psx.column_mapping api_data))
             /\ exists m,
                  max_date Psx.date stored = Some m
                  /\ (m < Psx.date r)%Z)).
Proof.
  split.
  - apply crypto_update_keeps_stored.
  - apply psx_update_keeps_stored.
Qed.

(** Days 1 and 2 stored, days 2 and 3 fetched. *)
Lemma C9_update_keeps_stored_rows_witness :
  let stored := [Sample.bar 1 100; Sample.bar 2 101] in
  let env := Crypto.mkEnv (Some [Sample.bar 2 110; Sample.bar 3 120]) true in
  let run :=
    Crypto.update_data env "BTC" false (Sample.holding Sample.btc stored) in
  exists t appended,
    files (snd run) !! Crypto.get_file_path (Crypto.normalize "BTC")
      = Some (Parquet t)
    /\ Permutation t (stored ++ appended)
    /\ (forall r,
          In r appended ->
          (exists batch, Crypto.api_response env = Some batch /\ In r batch)
          /\ exists m,
               max_date Crypto.date stored = Some m
               /\ (m < Crypto.date r)%Z).
Proof.
  apply (proj1 C9_update_keeps_stored_rows
    (Crypto.mkEnv (Some [Sample.bar 2 110; Sample.bar 3 120]) true)
    "BTC"%string
    (Sample.holding Sample.btc [Sample.bar 1 100; Sample.bar 2 101])
    [Sample.bar 1 100; Sample.bar 2 101]).
  - vm_compute. reflexivity.
  - cbn [map Sample.bar Crypto.date]. repeat constructor; simpl; lia.
Defined.

(** ** C10: what the merge reports *)

Lemma select_newer_nonempty_batch {R} (date : R -> Z) latest batch :
  select_newer date latest (sort_values date batch) <> [] -> batch <> [].
Proof. intros H ->. now apply H. Qed.

Lemma merged_latest_date {R} (date : R -> Z) (stored batch : list R) :
  let new_records := select_newer date (max_date date stored) batch in
  let df_combined :=
    sort_values date (drop_duplicates_last date (stored ++ new_records)) in
  new_records <> [] ->
  (if (0 <? List.length df_combined)%nat
   then Iso (max_date date df_combined) else Null)
  = Iso (max_date date batch).
Proof.
  intros new_records df_combined Hnew.
  pose proof (merged_max_is_batch_max date stored batch Hnew) as Hmax.
  fold new_records in Hmax. fold df_combined in Hmax.
  destruct df_combined as [|x l].
  - cbn [max_date] in Hmax. symmetry in Hmax.
    apply max_date_None in Hmax. subst batch. now contradiction Hnew.
  - rewrite Hmax. reflexivity.
Qed.

Lemma merged_count {R} (date : R -> Z) (stored batch : list R) :
  List.NoDup (map date stored) ->
  let new_records := select_newer date (max_date date stored) batch in
  List.NoDup (map date new_records) ->
  drop_duplicates_last date (stored ++ new_records) = stored ++ new_records
  /\ List.length
       (sort_values date (drop_duplicates_last date (stored ++ new_records)))
     = (List.length stored + List.length new_records)%nat.
Proof.
  intros Hnd new_records Hnew_nd.
  assert (Hid :
    drop_duplicates_last date (stored ++ new_records)
    = stored ++ new_records).
  { rewrite drop_duplicates_last_app_l.
    - f_equal. now apply drop_duplicates_last_id.
    - exact Hnd.
    - intros r1 r2 H1 H2 Heq.
      apply select_newer_In in H2 as (_ & m & Hm & Hlt).
      pose proof (max_date_upper _ _ _ _ Hm H1). lia. }
  split; [exact Hid|].
  rewrite sort_values_length, Hid. apply length_app.
Qed.

Lemma crypto_merge_report env symbol w stored batch :
  files w !! Crypto.get_file_path (Crypto.normalize symbol)
    = Some (Parquet stored) ->
  List.NoDup (map Crypto.date stored) ->
  Crypto.api_response env = Some batch ->
  let new_records :=
    select_newer Crypto.date (max_date Crypto.date stored)
      (sort_values Crypto.date batch) in
  new_records <> [] ->
  let res := fst (Crypto.update_data env symbol false w) in
  new_records_count res = Some (List.length new_records)
  /\ latest_date res = Some (Iso (max_date Crypto.date batch))
  /\ (List.NoDup (map Crypto.date new_records) ->
      drop_duplicates_last Crypto.date (stored ++ new_records)
      = stored ++ new_records
      /\ records_count res
         = (List.length stored + List.length new_records)%nat).
Proof.
  intros Hfile Hnd Hapi new_records Hnew res.
  pose proof (select_newer_nonempty_batch _ _ _ Hnew) as Hne.
  pose proof (crypto_update_existing env symbol w stored batch
                Hfile Hapi Hne) as Hrun.
  cbv zeta in Hrun. fold new_records in Hrun.
  destruct (List.length new_records =? 0)%nat eqn:E.
  { apply length_zero_nil in E. contradiction. }
  unfold res. rewrite Hrun.
  cbn [fst new_records_count latest_date records_count].
  split; [reflexivity|]. split.
  - unfold new_records.
    rewrite (merged_latest_date Crypto.date stored
               (sort_values Crypto.date batch) Hnew).
    now rewrite max_date_sort_values.
  - intros Hnew_nd. now apply merged_count.
Qed.

Lemma spx_merge_report env w stored m api_data records :
  files w !! Spx.get_file_path = Some (Parquet stored) ->
  List.NoDup (map Spx.date stored) ->
  max_date Spx.date stored = Some m ->
  Spx.fetch_from_api env (Some (m + 1)%Z) = Some api_data ->
  Spx.parse_entries api_data = Ret records ->
  let new_records :=
    select_newer Spx.date (Some m) (sort_values Spx.date records) in
  new_records <> [] ->
  exists res w',
    Spx.update_data env false w = (Ret res, w')
    /\ new_records_count res = Some (List.length new_records)
    /\ latest_date res = Some (Iso (max_date Spx.date records))
    /\ (List.NoDup (map Spx.date new_records) ->
        drop_duplicates_last Spx.date (stored ++ new_records)
        = stored ++ new_records
        /\ records_count res
           = (List.length stored + List.length new_records)%nat).
Proof.
  intros Hfile Hnd Hmax Hapi Hparse new_records Hnew.
  pose proof (select_newer_nonempty_batch _ _ _ Hnew) as Hne.
  pose proof (spx_update_existing env w stored m api_data records
                Hfile Hmax Hapi Hparse Hne) as Hrun.
  cbv zeta in Hrun. fold new_records in Hrun.
  destruct (List.length new_records =? 0)%nat eqn:E.
  { apply length_zero_nil in E. contradiction. }
  eexists _, _. split; [exact Hrun|].
  cbn [new_records_count latest_date records_count].
  split; [reflexivity|]. unfold new_records in *. rewrite <- Hmax in *.
  split.
  - rewrite (merged_latest_date Spx.date stored
               (sort_values Spx.date records) Hnew).
    now rewrite max_date_sort_values.
  - intros Hnew_nd. now apply merged_count.
Qed.

(** C10 — as amended: when the stored table has pairwise distinct dates
    and a non-forced [update] takes the merge path, the reported
    [latest_date] is the maximum date of the incoming batch and
    [new_records_count] is the number of new records; if moreover no two
    of the new records share a date, the deduplication removes nothing
    and [records_count] is the stored row count plus
    [new_records_count].  Crypto and index managers. *)
Theorem C10_merge_report :
  (forall env symbol w stored batch,
     files w !! Crypto.get_file_path (Crypto.normalize symbol)
       = Some (Parquet stored) ->
     List.NoDup (map Crypto.date stored) ->
     Crypto.api_response env = Some batch ->
     let new_records :=
       select_newer Crypto.date (max_date Crypto.date stored)
         (sort_values Crypto.date batch) in
     new_records <> [] ->
     let res := fst (Crypto.update_data env symbol false w) in
     new_records_count res = Some (List.length new_records)
     /\ latest_date res = Some (Iso (max_date Crypto.date batch))
     /\ (List.NoDup (map Crypto.date new_records) ->
         drop_duplicates_last Crypto.date (stored ++ new_records)
         = stored ++ new_records
         /\ records_count res
            = (List.length stored + List.length new_records)%nat))
  /\
  (forall env w stored m api_data records,
     files w !! Spx.get_file_path = Some (Parquet stored) ->
     List.NoDup (map Spx.date stored) ->
     max_date Spx.date stored = Some m ->
     Spx.fetch_from_api env (Some (m + 1)%Z) = Some api_data ->
     Spx.parse_entries api_data = Ret records ->
     let new_records :=
       select_newer Spx.date (Some m) (sort_values Spx.date records) in
     new_records <> [] ->
     exists res w',
       Spx.update_data env false w = (Ret res, w')
       /\ new_records_count res = Some (List.length new_records)
       /\ latest_date res = Some (Iso (max_date Spx.date records))
       /\ (List.NoDup (map Spx.date new_records) ->
           drop_duplicates_last Spx.date (stored ++ new_records)
           = stored ++ new_records
           /\ records_count res
              = (List.length stored + List.length new_records)%nat)).
Proof.
  split.
  - apply crypto_merge_report.
  - apply spx_merge_report.
Qed.

(** Day 1 stored, days 2 and 3 fetched. *)
Lemma C10_merge_report_witness :
  let res :=
    fst (Crypto.update_data
           (Crypto.mkEnv (Some [Sample.bar 3 120; Sample.bar 2 110]) true)
           "BTC" false (Sample.holding Sample.btc [Sample.bar 1 100])) in
  new_records_count res = Some 2%nat
  /\ latest_date res = Some (Iso (Some 3%Z))
  /\ records_count res = 3%nat.
Proof.
  pose proof (proj1 C10_merge_report
    (Crypto.mkEnv (Some [Sample.bar 3 120; Sample.bar 2 110]) true)
    "BTC"%string (Sample.holding Sample.btc [Sample.bar 1 100])
    [Sample.bar 1 100] [Sample.bar 3 120; Sample.bar 2 110]
    ltac:(vm_compute; reflexivity)
    ltac:(repeat constructor; simpl; tauto)
    eq_refl
    ltac:(vm_compute; discriminate)) as H.
  cbv zeta in H. destruct H as (Hn & Hl & Hc).
  split; [exact Hn|]. split; [exact Hl|].
  apply Hc. cbn. repeat constructor; simpl; intuition lia.
Defined.

(** C10 as stated fails when two new records share a date: one of them
    is dropped, and [records_count] is less than the stored count plus
    [new_records_count]. *)
Lemma C10_duplicate_new_dates_are_dropped :
  let stored := [Sample.bar 1 100] in
  let batch := [Sample.bar 2 200; Sample.bar 2 205] in
  let res :=
    fst (Crypto.update_data (Crypto.mkEnv (Some batch) true) "BTC" false
           (Sample.holding Sample.btc stored)) in
  List.NoDup (map Crypto.date stored)
  /\ message res = AddedNewRecords 2 "BTCUSDT"
  /\ new_records_count res = Some 2%nat
  /\ records_count res = 2%nat
  /\ records_count res <> (List.length stored + 2)%nat.
Proof.
  cbv zeta. split; [repeat constructor; simpl; tauto|].
  split; [vm_compute; reflexivity|].
  split; [vm_compute; reflexivity|].
  split; [vm_compute; reflexivity|].
  vm_compute. discriminate.
Qed.

(** * Further properties *)

(** ** File names *)

Lemma chars_append a b : chars (a +:+ b) = chars a ++ chars b.
Proof.
  unfold chars. induction a as [|c a IH]; [reflexivity|].
  simpl. now rewrite IH.
Qed.

Lemma upper_char_upper c : upper_char (upper_char c) = upper_char c.
Proof. ascii_cases c. Qed.

Lemma prefixb_app p l : prefixb p (p ++ l) = true.
Proof.
  induction p as [|c p IH]; [now destruct l|].
  cbn [app prefixb]. now rewrite Ascii.eqb_refl, IH.
Qed.

Lemma endswith_append a b : endswith (a +:+ b) b = true.
Proof.
  unfold endswith. rewrite chars_append, rev_app_distr. apply prefixb_app.
Qed.

Lemma replace_char_id x s :
  Forall (fun c => c <> x) (chars s) -> replace (text [x]) (text []) s = s.
Proof.
  intros H. unfold replace. rewrite !chars_text.
  rewrite replace_from_char_id; [apply text_chars|].
  eapply List.Forall_impl; [|exact H]. intros c Hc.
  apply Ascii.eqb_neq. congruence.
Qed.

Lemma upper_id s :
  Forall (fun c => upper_char c = c) (chars s) -> upper s = s.
Proof.
  intros H. unfold upper. rewrite <- (text_chars s) at 2. f_equal.
  induction H as [|c l Hc _ IH]; [reflexivity|].
  cbn [map]. now rewrite Hc, IH.
Qed.

(** The characters left by the three [replace] calls on the upper-cased
    symbol. *)
Lemma chars_symbol_base s :
  chars (replace "/" "" (replace "_" "" (replace "-" "" (upper s))))
  = List.filter (fun c => negb (Ascii.eqb "/" c))
      (List.filter (fun c => negb (Ascii.eqb "_" c))
         (List.filter (fun c => negb (Ascii.eqb "-" c))
            (map upper_char (chars s)))).
Proof.
  change (replace "/" "") with (replace (text ["/"%char]) (text [])).
  change (replace "_" "") with (replace (text ["_"%char]) (text [])).
  change (replace "-" "") with (replace (text ["-"%char]) (text [])).
  rewrite !chars_replace_char. unfold upper. now rewrite chars_text.
Qed.

(** The shape of a normalized symbol. *)
Lemma normalized_form s :
  endswith (Crypto.normalize s) "USDT" = true
  /\ Forall (fun c => upper_char c = c
                      /\ c <> "-"%char /\ c <> "_"%char /\ c <> "/"%char)
       (chars (Crypto.normalize s)).
Proof.
  unfold Crypto.normalize.
  set (base := replace "/" "" (replace "_" "" (replace "-" "" (upper s)))).
  assert (Hbase :
    Forall (fun c => upper_char c = c
                     /\ c <> "-"%char /\ c <> "_"%char /\ c <> "/"%char)
      (chars base)).
  { unfold base. rewrite chars_symbol_base. apply List.Forall_forall.
    intros c Hc.
    apply filter_In in Hc as [Hc H1]. apply filter_In in Hc as [Hc H2].
    apply filter_In in Hc as [Hc H3].
    apply in_map_iff in Hc as (c0 & <- & _).
    apply negb_true_iff, Ascii.eqb_neq in H1, H2, H3.
    split; [apply upper_char_upper|]. repeat split; congruence. }
  destruct (endswith base "USDT") eqn:E.
  - split; [exact E|exact Hbase].
  - split; [apply endswith_append|].
    rewrite chars_append. apply Forall_app. split; [exact Hbase|].
    repeat constructor; discriminate.
Qed.

(** X1 — every symbol the crypto manager works with is in canonical
    form: it ends in [USDT] and holds no lower-case letter and none of
    the separators [-], [_], [/]. *)
Theorem normalize_canonical s :
  endswith (Crypto.normalize s) "USDT" = true
  /\ Forall (fun c => upper_char c = c
                      /\ c <> "-"%char /\ c <> "_"%char /\ c <> "/"%char)
       (chars (Crypto.normalize s)).
Proof. exact (normalized_form s). Qed.

Lemma normalize_fixed m :
  endswith m "USDT" = true ->
  Forall (fun c => upper_char c = c
                   /\ c <> "-"%char /\ c <> "_"%char /\ c <> "/"%char)
    (chars m) ->
  Crypto.normalize m = m.
Proof.
  intros Hend Hm. unfold Crypto.normalize.
  rewrite upper_id
    by (eapply List.Forall_impl; [|exact Hm]; cbn beta; tauto).
  change (replace "/" "") with (replace (text ["/"%char]) (text [])).
  change (replace "_" "") with (replace (text ["_"%char]) (text [])).
  change (replace "-" "") with (replace (text ["-"%char]) (text [])).
  rewrite (replace_char_id "-"%char)
    by (eapply List.Forall_impl; [|exact Hm]; cbn beta; tauto).
  rewrite (replace_char_id "_"%char)
    by (eapply List.Forall_impl; [|exact Hm]; cbn beta; tauto).
  rewrite (replace_char_id "/"%char)
    by (eapply List.Forall_impl; [|exact Hm]; cbn beta; tauto).
  now rewrite Hend.
Qed.

(** X2 — normalizing twice is normalizing once, so the file that
    [update_data] and [get_latest_price] reach through the normalized
    symbol is the file of the symbol itself, and both functions give the
    same result on a symbol and on its normalized form. *)
Theorem normalize_idempotent s :
  Crypto.normalize (Crypto.normalize s) = Crypto.normalize s
  /\ Crypto.get_file_path (Crypto.normalize s) = Crypto.get_file_path s
  /\ (forall env force w,
        Crypto.update_data env (Crypto.normalize s) force w
        = Crypto.update_data env s force w)
  /\ (forall w,
        Crypto.get_latest_price (Crypto.normalize s) w
        = Crypto.get_latest_price s w).
Proof.
  assert (H : Crypto.normalize (Crypto.normalize s) = Crypto.normalize s).
  { destruct (normalized_form s) as [Hend Hchars].
    now apply normalize_fixed. }
  split; [exact H|]. split; [|split].
  - unfold Crypto.get_file_path. now rewrite H.
  - intros env force w. unfold Crypto.update_data. now rewrite H.
  - intros w. unfold Crypto.get_latest_price. now rewrite H.
Qed.

(** X3 — the ticker manager upper-cases the ticker, and doing so twice
    changes nothing: tickers that differ only in letter case share one
    file and get the same runs. *)
Theorem psx_ticker_case_insensitive t t' :
  upper t = upper t' ->
  Psx.get_file_path t = Psx.get_file_path t'
  /\ Psx.get_file_path (upper t) = Psx.get_file_path t
  /\ (forall env force w,
        Psx.update_data env t force w = Psx.update_data env t' force w)
  /\ (forall w, Psx.get_latest_price t w = Psx.get_latest_price t' w).
Proof.
  intros H.
  assert (Hup : upper (upper t) = upper t).
  { apply upper_id. unfold upper. rewrite chars_text.
    apply List.Forall_forall. intros c Hc.
    apply in_map_iff in Hc as (c0 & <- & _). apply upper_char_upper. }
  split; [unfold Psx.get_file_path; now rewrite H|].
  split; [unfold Psx.get_file_path; now rewrite Hup|].
  split.
  - intros env force w. unfold Psx.update_data. now rewrite H.
  - intros w. unfold Psx.get_latest_price. now rewrite H.
Qed.

Lemma psx_ticker_case_insensitive_witness :
  Psx.get_file_path "hbl" = Psx.get_file_path "HbL".
Proof.
  apply (psx_ticker_case_insensitive "hbl" "HbL").
  vm_compute. reflexivity.
Defined.

(** ** The store: saving, loading, and what a run may touch *)




Lemma spx_update_files env force w :
  let w' := snd (Spx.update_data env force w) in
  files w' = files w
  \/ exists df,
       files w' =
       <[Spx.get_file_path := Parquet (sort_values Spx.date df)]> (files w).
Proof.
  cbv zeta.
  unfold Spx.update_data, Spx.load_stored_data,
    Frame.load_stored_data, Spx.save_data, Frame.save_data.
  destruct force; cbn [negb];
    [|destruct (files w !! Spx.get_file_path) as [[t|]|];
      [destruct (max_date Spx.date t) as [m|]; cbn [Spx.next_day bind];
       [|now left]| |]];
    (destruct (Spx.fetch_from_api env _) as [[|entry rest]|];
     [now left| |now left]);
    (destruct (parse_entries_returns (entry :: rest)) as [records Hp];
     rewrite (parse_investing_data_sorted _ _ Hp);
     destruct (sort_values Spx.date records) as [|r df] eqn:E;
     [now left|]);
    try (destruct (List.length _ =? 0)%nat; [now left|]);
    (destruct (Spx.write_ok env); cbn [snd files print_stderr];
     [right; first [eexists; reflexivity
                   |exists records; rewrite E; reflexivity]
     |now left]).
Qed.



Lemma written_files_frame {R} (date : R -> Z) (w w' : World R) own :
  files w' = files w
  \/ (exists df,
        files w' = <[own := Parquet (sort_values date df)]> (files w)) ->
  (forall path, path <> own -> files w' !! path = files w !! path)
  /\ (forall path, is_Some (files w !! path) -> is_Some (files w' !! path)).
Proof.
  intros [->|[df ->]]; [split; auto|]. split.
  - intros path Hne. now rewrite lookup_insert_ne.
  - intros path Hsome. destruct (decide (own = path)) as [<-|Hne].
    + rewrite lookup_insert_eq. eauto.
    + now rewrite lookup_insert_ne.
Qed.

(** X6 — a run reads and writes the file of its own instrument only:
    every other file is exactly as before, and no file ever
    disappears.  All three managers. *)
Theorem update_touches_own_file_only :
  (forall env symbol force w,
     let w' := snd (Crypto.update_data env symbol force w) in
     (forall path,
        path <> Crypto.get_file_path (Crypto.normalize symbol) ->
        files w' !! path = files w !! path)
     /\ (forall path,
           is_Some (files w !! path) -> is_Some (files w' !! path)))
  /\ (forall env ticker force w,
        let w' := snd (Psx.update_data env ticker force w) in
        (forall path,
           path <> Psx.get_file_path (upper ticker) ->
           files w' !! path = files w !! path)
        /\ (forall path,
              is_Some (files w !! path) -> is_Some (files w' !! path)))
  /\ (forall env force w,
        let w' := snd (Spx.update_data env force w) in
        (forall path,
           path <> Spx.get_file_path ->
           files w' !! path = files w !! path)
        /\ (forall path,
              is_Some (files w !! path) -> is_Some (files w' !! path))).
Proof.
  split; [|split].
  - intros env symbol force w.
    apply (written_files_frame Crypto.date), crypto_update_files.
  - intros env ticker force w.
    apply (written_files_frame Psx.date), psx_update_files.
  - intros env force w.
    apply (written_files_frame Spx.date), spx_update_files.
Qed.

Lemma update_touches_own_file_only_witness :
  files (snd (Crypto.update_data
                (Crypto.mkEnv (Some [Sample.bar 2 110]) true) "ETH" true
                (Sample.holding Sample.btc [Sample.bar 1 100])))
    !! Sample.btc
  = Some (Parquet [Sample.bar 1 100]).
Proof.
  rewrite (proj1 (proj1 update_touches_own_file_only
             (Crypto.mkEnv (Some [Sample.bar 2 110]) true) "ETH"%string
             true (Sample.holding Sample.btc [Sample.bar 1 100]))).
  - vm_compute. reflexivity.
  - vm_compute. discriminate.
Defined.

(** ** What a successful run reports, and what the price lookup then
    finds *)

Lemma psx_update_fetch_failed env ticker force w :
  Psx.api_response env = None \/ Psx.api_response env = Some [] ->
  status (fst (Psx.update_data env ticker force w)) = error.
Proof.
  intros H. unfold Psx.update_data.
  destruct (if negb force then _ else _) as [stored_df w1].
  destruct H as [-> | ->]; reflexivity.
Qed.

Lemma psx_update_success env ticker force w res w' :
  Psx.update_data env ticker force w = (res, w') ->
  status res = success ->
  exists api_data,
    Psx.api_response env = Some api_data /\ api_data <> [] /\
    ((exists w1,
        (if negb force
         then Psx.load_stored_data (upper ticker) w
         else (None, w)) = (None, w1))
     \/ (exists stored,
           force = false /\
           files w !! Psx.get_file_path (upper ticker)
             = Some (Parquet stored))).
Proof.
  intros Hrun Hok.
  destruct (Psx.api_response env) as [[|r0 batch']|] eqn:Hapi.
  - pose proof (psx_update_fetch_failed env ticker force w
                  (or_intror Hapi)) as H.
    rewrite Hrun in H. simpl in H. congruence.
  - exists (r0 :: batch'). split; [reflexivity|]. split; [discriminate|].
    destruct force; cbn [negb]; [left; eauto|].
    destruct (load_stored_data_cases
                (Psx.get_file_path (upper ticker)) (upper ticker) w)
      as [[_ Hl]|[[_ Hl]|(stored & Hstored & _)]]; eauto 6.
  - pose proof (psx_update_fetch_failed env ticker force w
                  (or_introl Hapi)) as H.
    rewrite Hrun in H. simpl in H. congruence.
Qed.

(** After a success the file holds a table, and the report gives its
    row count and its latest date. *)
Lemma crypto_success_report env symbol force w res w' :
  Crypto.update_data env symbol force w = (res, w') ->
  status res = success ->
  exists t,
    files w' !! Crypto.get_file_path (Crypto.normalize symbol)
      = Some (Parquet t)
    /\ records_count res = List.length t
    /\ latest_date res = Some (Iso (max_date Crypto.date t)).
Proof.
  intros Hrun Hok.
  destruct (crypto_update_success _ _ _ _ _ _ Hrun Hok)
    as (batch & Hapi & Hne & Hpath).
  destruct Hpath as [[w1 Hload]|(stored & -> & Hfile)].
  - rewrite (crypto_update_initial env symbol force w w1 batch
               Hload Hapi Hne) in Hrun.
    injection Hrun as <- <-. cbn [status] in Hok.
    destruct (Crypto.write_ok env) eqn:Hw; [|discriminate].
    exists (sort_values Crypto.date batch).
    cbn [records_count latest_date].
    rewrite sort_values_length, max_date_sort_values.
    split; [|split; reflexivity].
    unfold Crypto.save_data. rewrite save_data_files, Hw.
    apply lookup_insert_eq.
  - pose proof (crypto_update_existing env symbol w stored batch
                  Hfile Hapi Hne) as Hfirst.
    cbv zeta in Hfirst. rewrite Hrun in Hfirst.
    set (new_records :=
           select_newer Crypto.date (max_date Crypto.date stored)
             (sort_values Crypto.date batch)) in *.
    destruct (List.length new_records =? 0)%nat eqn:E.
    + injection Hfirst as -> ->. exists stored. auto.
    + injection Hfirst as -> ->. cbn [status] in Hok.
      destruct (Crypto.write_ok env) eqn:Hw; [|discriminate].
      assert (Hnew : new_records <> []).
      { intros Hnil. rewrite Hnil in E. discriminate. }
      eexists. cbn [records_count latest_date].
      split; [|split; [reflexivity|]].
      * unfold Crypto.save_data. rewrite save_data_files, Hw.
        apply lookup_insert_eq.
      * unfold new_records in *.
        rewrite (merged_latest_date Crypto.date stored _ Hnew).
        now rewrite (merged_max_is_batch_max Crypto.date stored _ Hnew).
Qed.

Lemma psx_success_report env ticker force w res w' :
  Psx.update_data env ticker force w = (res, w') ->
  status res = success ->
  exists t,
    files w' !! Psx.get_file_path (upper ticker) = Some (Parquet t)
    /\ records_count res = List.length t
    /\ latest_date res = Some (Iso (max_date Psx.date t)).
Proof.
  intros Hrun Hok.
  destruct (psx_update_success _ _ _ _ _ _ Hrun Hok)
    as (api_data & Hapi & Hne & Hpath).
  destruct Hpath as [[w1 Hload]|(stored & -> & Hfile)].
  - pose proof (psx_update_initial env ticker force w w1 api_data
                  Hload Hapi Hne) as Hfirst.
    cbv zeta in Hfirst. rewrite Hrun in Hfirst.
    injection Hfirst as -> ->. cbn [status] in Hok.
    destruct (Psx.write_ok env) eqn:Hw; [|discriminate].
    eexists. cbn [records_count latest_date].
    rewrite <- (sort_values_length Psx.date
                  (map Psx.column_mapping api_data)).
    rewrite <- (max_date_sort_values Psx.date
                  (map Psx.column_mapping api_data)).
    split; [|split; reflexivity].
    unfold Psx.save_data. rewrite save_data_files, Hw.
    apply lookup_insert_eq.
  - pose proof (psx_update_existing env ticker w stored api_data
                  Hfile Hapi Hne) as Hfirst.
    cbv zeta in Hfirst. rewrite Hrun in Hfirst.
    set (new_records :=
           select_newer Psx.date (max_date Psx.date stored)
             (sort_values Psx.date (map Psx.column_mapping api_data)))
      in *.
    destruct (List.length new_records =? 0)%nat eqn:E.
    + injection Hfirst as -> ->. exists stored. auto.
    + injection Hfirst as -> ->. cbn [status] in Hok.
      destruct (Psx.write_ok env) eqn:Hw; [|discriminate].
      assert (Hnew : new_records <> []).
      { intros Hnil. rewrite Hnil in E. discriminate. }
      eexists. cbn [records_count latest_date].
      split; [|split; [reflexivity|]].
      * unfold Psx.save_data. rewrite save_data_files, Hw.
        apply lookup_insert_eq.
      * unfold new_records in *.
        rewrite (merged_latest_date Psx.date stored _ Hnew).
        now rewrite (merged_max_is_batch_max Psx.date stored _ Hnew).
Qed.

(** X7 — in a store whose tables are sorted ascending by date, a
    successful [update_data] reports the row count and the latest date
    of the table that is in the file after the run, and
    [get_latest_price] on the same symbol then returns the quote of
    exactly that latest date (or nothing when that table has no rows).
    Crypto and ticker managers. *)
Theorem update_then_price_agree :
  (forall env symbol force w res w',
     tables_ascending Crypto.date w ->
     Crypto.update_data env symbol force w = (res, w') ->
     status res = success ->
     exists t,
       files w' !! Crypto.get_file_path (Crypto.normalize symbol)
         = Some (Parquet t)
       /\ records_count res = List.length t
       /\ latest_date res = Some (Iso (max_date Crypto.date t))
       /\ match fst (Crypto.get_latest_price symbol w') with
          | Some q =>
              Crypto.q_date q = max_date Crypto.date t
              /\ Crypto.q_symbol q = Crypto.normalize symbol
          | None => t = []
          end)
  /\ (forall env ticker force w res w',
        tables_ascending Psx.date w ->
        Psx.update_data env ticker force w = (res, w') ->
        status res = success ->
        exists t,
          files w' !! Psx.get_file_path (upper ticker) = Some (Parquet t)
          /\ records_count res = List.length t
          /\ latest_date res = Some (Iso (max_date Psx.date t))
          /\ match fst (Psx.get_latest_price ticker w') with
             | Some q =>
                 Psx.q_date q = max_date Psx.date t
                 /\ Psx.q_ticker q = upper ticker
             | None => t = []
             end).
Proof.
  split.
  - intros env symbol force w res w' Hasc Hrun Hok.
    destruct (crypto_success_report _ _ _ _ _ _ Hrun Hok)
      as (t & Hfile & Hcount & Hlatest).
    exists t. split; [exact Hfile|]. split; [exact Hcount|].
    split; [exact Hlatest|].
    assert (Hasc' : tables_ascending Crypto.date w').
    { replace w' with (snd (Crypto.update_data env symbol force w))
        by now rewrite Hrun.
      eapply tables_ascending_written; [exact Hasc|].
      apply crypto_update_files. }
    pose proof (crypto_latest symbol w') as Hprice. cbv zeta in Hprice.
    destruct Hprice as (_ & _ & Hempty & Hrows & _).
    destruct t as [|r t].
    + now rewrite (Hempty Hfile).
    + destruct (Hrows (r :: t) Hfile ltac:(discriminate)
                  (Hasc' _ _ Hfile)) as (latest & _ & Hmax & ->).
      cbn [fst Crypto.q_date Crypto.q_symbol].
      split; [symmetry; exact Hmax|reflexivity].
  - intros env ticker force w res w' Hasc Hrun Hok.
    destruct (psx_success_report _ _ _ _ _ _ Hrun Hok)
      as (t & Hfile & Hcount & Hlatest).
    exists t. split; [exact Hfile|]. split; [exact Hcount|].
    split; [exact Hlatest|].
    assert (Hasc' : tables_ascending Psx.date w').
    { replace w' with (snd (Psx.update_data env ticker force w))
        by now rewrite Hrun.
      eapply tables_ascending_written; [exact Hasc|].
      apply psx_update_files. }
    pose proof (psx_latest ticker w') as Hprice. cbv zeta in Hprice.
    destruct Hprice as (_ & _ & Hempty & Hrows & _).
    destruct t as [|r t].
    + now rewrite (Hempty Hfile).
    + destruct (Hrows (r :: t) Hfile ltac:(discriminate)
                  (Hasc' _ _ Hfile)) as (latest & _ & Hmax & ->).
      cbn [fst Psx.q_date Psx.q_ticker].
      split; [symmetry; exact Hmax|reflexivity].
Qed.

Lemma update_then_price_agree_witness :
  let run :=
    Crypto.update_data
      (Crypto.mkEnv (Some [Sample.bar 2 110; Sample.bar 3 120]) true)
      "BTC" false (Sample.holding Sample.btc [Sample.bar 1 100]) in
  exists t,
    files (snd run) !! Crypto.get_file_path (Crypto.normalize "BTC")
      = Some (Parquet t)
    /\ records_count (fst run) = List.length t
    /\ latest_date (fst run) = Some (Iso (max_date Crypto.date t))
    /\ match fst (Crypto.get_latest_price "BTC" (snd run)) with
       | Some q =>
           Crypto.q_date q = max_date Crypto.date t
           /\ Crypto.q_symbol q = Crypto.normalize "BTC"
       | None => t = []
       end.
Proof.
  cbv zeta.
  apply (proj1 update_then_price_agree
    (Crypto.mkEnv (Some [Sample.bar 2 110; Sample.bar 3 120]) true)
    "BTC"%string false (Sample.holding Sample.btc [Sample.bar 1 100])).
  - intros path t Ht. unfold Sample.holding in Ht. cbn [files] in Ht.
    apply lookup_singleton_Some in Ht as [_ [= <-]].
    unfold ascending. cbn [map Sample.bar Crypto.date].
    repeat constructor.
  - apply surjective_pairing.
  - vm_compute. reflexivity.
Defined.

(** ** A stored table without rows *)

Lemma newer_than_nothing {R : Type} (date : R -> Z) (df : list R) :
  select_newer date (max_date date []) df = [].
Proof.
  unfold select_newer. cbn [max_date].
  induction df as [|r l IH]; [reflexivity|exact IH].
Qed.

(** X8 — a stored table without rows has no latest date ([NaT]), and no
    fetched date compares greater than [NaT]: whatever non-empty batch is
    fetched, a non-forced [update_data] reports "no new data" with a
    count of 0 and leaves the store as it is.  Crypto and ticker
    managers. *)
Theorem empty_table_is_never_filled :
  (forall env symbol w batch,
     files w !! Crypto.get_file_path (Crypto.normalize symbol)
       = Some (Parquet []) ->
     Crypto.api_response env = Some batch ->
     batch <> [] ->
     Crypto.update_data env symbol false w =
       (mkResult success (NoNewData (Crypto.normalize symbol)) 0
          (Some 0%nat) (Some (Iso None)),
        w))
  /\ (forall env ticker w api_data,
        files w !! Psx.get_file_path (upper ticker) = Some (Parquet []) ->
        Psx.api_response env = Some api_data ->
        api_data <> [] ->
        Psx.update_data env ticker false w =
          (mkResult success (NoNewData (upper ticker)) 0
             (Some 0%nat) (Some (Iso None)),
           w)).
Proof.
  split.
  - intros env symbol w batch Hfile Hapi Hne.
    rewrite (crypto_update_existing env symbol w [] batch Hfile Hapi Hne).
    rewrite (newer_than_nothing Crypto.date). reflexivity.
  - intros env ticker w api_data Hfile Hapi Hne.
    rewrite (psx_update_existing env ticker w [] api_data Hfile Hapi Hne).
    rewrite (newer_than_nothing Psx.date). reflexivity.
Qed.

Lemma empty_table_is_never_filled_witness :
  Crypto.update_data (Crypto.mkEnv (Some [Sample.bar 5 100]) true)
    "BTC" false (Sample.holding Sample.btc [])
  = (mkResult success (NoNewData "BTCUSDT") 0 (Some 0%nat) (Some (Iso None)),
     Sample.holding Sample.btc []).
Proof.
  rewrite (proj1 empty_table_is_never_filled
             (Crypto.mkEnv (Some [Sample.bar 5 100]) true) "BTC"%string
             (Sample.holding Sample.btc []) [Sample.bar 5 100]).
  - vm_compute. reflexivity.
  - vm_compute. reflexivity.
  - reflexivity.
  - discriminate.
Defined.

(** X9 — in the index manager the same situation does not return at all:
    the start date of the request is computed from the latest stored
    date, there is none, and the run raises before anything is fetched
    or written. *)
Theorem spx_empty_table_stops_the_run :
  forall env w,
    files w !! Spx.get_file_path = Some (Parquet []) ->
    Spx.update_data env false w = (Raise ValueError, w).
Proof.
  intros env w Hfile. unfold Spx.update_data. cbn [negb].
  unfold Spx.load_stored_data, Frame.load_stored_data.
  rewrite Hfile. reflexivity.
Qed.

Lemma spx_empty_table_stops_the_run_witness :
  Spx.update_data (Spx.mkEnv (fun _ => Some [Sample.entry 1 100]) true)
    false (Sample.holding Spx.get_file_path [])
  = (Raise ValueError, Sample.holding Spx.get_file_path []).
Proof.
  apply spx_empty_table_stops_the_run. vm_compute. reflexivity.
Defined.

(** ** The request of the index manager *)

(** X10 — the index manager asks the vendor for one range only: the
    whole history when the refresh is forced or no table can be loaded,
    and the days after the latest stored date otherwise.  Two vendors
    that answer that one request alike give the same run. *)
Theorem spx_run_depends_on_one_request :
  forall env env' (force : bool) w,
    let start : option Z :=
      if force then None
      else
        match files w !! Spx.get_file_path with
        | Some (Parquet t) =>
            match max_date Spx.date t with
            | Some m => Some (m + 1)%Z
            | None => None
            end
        | _ => None
        end in
    Spx.write_ok env = Spx.write_ok env' ->
    Spx.fetch_from_api env start = Spx.fetch_from_api env' start ->
    Spx.update_data env force w = Spx.update_data env' force w.
Proof.
  intros env env' force w start Hw Hfetch. subst start.
  unfold Spx.update_data, Spx.load_stored_data, Frame.load_stored_data,
    Spx.save_data.
  destruct force; cbn [negb] in *.
  - now rewrite Hfetch, Hw.
  - destruct (files w !! Spx.get_file_path) as [[t|]|].
    + destruct (max_date Spx.date t) as [m|]; cbn [Spx.next_day bind];
        [|reflexivity].
      now rewrite Hfetch, Hw.
    + now rewrite Hfetch, Hw.
    + now rewrite Hfetch, Hw.
Qed.

Lemma spx_run_depends_on_one_request_witness :
  Spx.update_data
    (Spx.mkEnv (fun start =>
                  match start with
                  | Some 2%Z => Some [Sample.entry 2 110]
                  | _ => None
                  end) true)
    false (Sample.holding Spx.get_file_path [Sample.point 1 100])
  = Spx.update_data
      (Spx.mkEnv (fun _ => Some [Sample.entry 2 110]) true)
      false (Sample.holding Spx.get_file_path [Sample.point 1 100]).
Proof.
  apply spx_run_depends_on_one_request.
  - reflexivity.
  - vm_compute. reflexivity.
Defined.

(** ** Parsing the index vendor's entries *)

Lemma parse_entries_dates api_data records :
  Spx.parse_entries api_data = Ret records ->
  map Spx.date records
  = flat_map (fun entry =>
                match Spx.rowDate entry with
                | Some d => [d]
                | None => []
                end) api_data.
Proof.
  revert records. induction api_data as [|entry rest IH]; intros records H.
  - cbn [Spx.parse_entries] in H. now injection H as <-.
  - cbn [Spx.parse_entries] in H.
    destruct (parse_entries_returns rest) as [records' Hrest].
    rewrite Hrest in H. specialize (IH _ Hrest).
    unfold Spx.parse_entry in H. cbn [flat_map].
    destruct (Spx.rowDate entry) as [d|]; cbn [bind] in H.
    + destruct (parse_volume_returns (Spx.raw_volume entry)) as [vol Hvol].
      rewrite Hvol in H. cbn [bind] in H. injection H as <-.
      cbn [map app Spx.date]. now rewrite IH.
    + injection H as <-. exact IH.
Qed.


(** ** The latest stored date over a run *)

Lemma merged_latest_not_before {R : Type} (date : R -> Z)
  (stored extra : list R) m :
  max_date date stored = Some m ->
  exists m',
    max_date date
      (sort_values date (drop_duplicates_last date (stored ++ extra)))
    = Some m'
    /\ (m <= m')%Z.
Proof.
  intros Hm. destruct (max_date_attained _ _ _ Hm) as (r0 & Hr0 & Hd0).
  destruct (merged_bounds date (stored ++ extra) r0) as (top & Ht & Hb).
  { apply in_or_app. now left. }
  exists top. split; [exact Ht|lia].
Qed.



(** ** The ticker manager: order of the saved table *)

Lemma psx_batch_dates api_data :
  map Psx.date (map Psx.column_mapping api_data) = map Psx.t api_data.
Proof. rewrite List.map_map. reflexivity. Qed.

(** X13 — every table saved by a successful update of the ticker manager
    is sorted ascending by date.  After a merge into a stored table (the
    "Added n new records" result) the order is strict, so no two rows
    share a date; after an initial save or a forced refresh it is strict
    provided no two fetched records carry the same [t]. *)
Theorem psx_saved_table_sorted :
  forall env ticker force w res w' table,
    Psx.update_data env ticker force w = (res, w') ->
    status res = success ->
    (forall name, message res <> NoNewData name) ->
    files w' !! Psx.get_file_path (upper ticker) = Some (Parquet table) ->
    ascending Psx.date table
    /\ ((exists k name, message res = AddedNewRecords k name) ->
        strictly_ascending Psx.date table)
    /\ (forall api_data,
          Psx.api_response env = Some api_data ->
          List.NoDup (map Psx.t api_data) ->
          strictly_ascending Psx.date table).
Proof.
  intros env ticker force w res w' table Hrun Hok Hmsg Hfile.
  destruct (psx_update_success _ _ _ _ _ _ Hrun Hok)
    as (api_data & Hapi & Hne & Hpath).
  destruct Hpath as [[w1 Hload]|(stored & -> & Hstored)].
  - rewrite (psx_update_initial env ticker force w w1 api_data
               Hload Hapi Hne) in Hrun.
    cbv zeta in Hrun. injection Hrun as <- <-. cbn [status] in Hok.
    destruct (Psx.write_ok env) eqn:Hw; [|discriminate].
    unfold Psx.save_data in Hfile. rewrite save_data_files, Hw in Hfile.
    rewrite lookup_insert_eq in Hfile. injection Hfile as <-.
    split; [apply sort_values_ascending|]. split.
    + intros (k & name & Hk). discriminate Hk.
    + intros api_data0 Hapi0 Hnd.
      assert (api_data0 = api_data) as -> by congruence.
      apply sorted_batch_strict. now rewrite psx_batch_dates.
  - rewrite (psx_update_existing env ticker w stored api_data
               Hstored Hapi Hne) in Hrun.
    cbv zeta in Hrun.
    destruct (List.length _ =? 0)%nat.
    { injection Hrun as <- <-. cbn [message] in Hmsg.
      destruct (Hmsg (upper ticker)). reflexivity. }
    injection Hrun as <- <-. cbn [status] in Hok.
    destruct (Psx.write_ok env) eqn:Hw; [|discriminate].
    unfold Psx.save_data in Hfile. rewrite save_data_files, Hw in Hfile.
    rewrite lookup_insert_eq in Hfile. injection Hfile as <-.
    pose proof (merged_strictly_ascending Psx.date
                  (stored ++ select_newer Psx.date
                               (max_date Psx.date stored)
                               (sort_values Psx.date
                                  (map Psx.column_mapping api_data))))
      as Hs.
    split; [now apply strictly_ascending_ascending|].
    split; intros; exact Hs.
Qed.

(** Days 2 and 1 fetched into an empty store: the saved table is days 1
    and 2, in that order. *)
Lemma psx_saved_table_sorted_witness :
  ascending Psx.date
    [Psx.column_mapping (Sample.tick 1 105);
     Psx.column_mapping (Sample.tick 2 110)].
Proof.
  apply (psx_saved_table_sorted
           (Psx.mkEnv (Some [Sample.tick 2 110; Sample.tick 1 105]) true)
           "hbl"%string false Sample.nothing
           (mkResult success (InitialDataSaved "HBL") 2 None
              (Some (Iso (Some 2%Z))))
           (Sample.holding Sample.hbl
              [Psx.column_mapping (Sample.tick 1 105);
               Psx.column_mapping (Sample.tick 2 110)])).
  - vm_compute. reflexivity.
  - reflexivity.
  - intros name. discriminate.
  - vm_compute. reflexivity.
Defined.

(** ** The ticker manager: running the same batch again *)

Lemma psx_second_run env ticker force w res w' env2 :
  Psx.update_data env ticker force w = (res, w') ->
  status res = success ->
  Psx.api_response env2 = Psx.api_response env ->
  exists table,
    files w' !! Psx.get_file_path (upper ticker) = Some (Parquet table)
    /\ Psx.update_data env2 ticker false w' =
       (mkResult success (NoNewData (upper ticker))
          (List.length table) (Some 0%nat)
          (Some (Iso (max_date Psx.date table))),
        w').
Proof.
  intros Hrun Hok Hsame.
  destruct (psx_update_success _ _ _ _ _ _ Hrun Hok)
    as (api_data & Hapi & Hne & Hpath).
  assert (Hapi2 : Psx.api_response env2 = Some api_data) by congruence.
  set (batch := map Psx.column_mapping api_data).
  destruct Hpath as [[w1 Hload]|(stored & -> & Hfile)].
  - rewrite (psx_update_initial env ticker force w w1 api_data
               Hload Hapi Hne) in Hrun.
    cbv zeta in Hrun. fold batch in Hrun.
    injection Hrun as <- <-. cbn [status] in Hok.
    destruct (Psx.write_ok env) eqn:Hw; [|discriminate].
    exists (sort_values Psx.date batch).
    assert (Hfile' :
      files (snd (Psx.save_data env (upper ticker)
                    (sort_values Psx.date batch) w1))
        !! Psx.get_file_path (upper ticker)
      = Some (Parquet (sort_values Psx.date batch))).
    { unfold Psx.save_data. rewrite save_data_files, Hw.
      apply lookup_insert_eq. }
    split; [exact Hfile'|].
    rewrite (psx_update_existing env2 ticker _ _ api_data Hfile' Hapi2 Hne).
    cbv zeta. fold batch. rewrite nothing_newer_than_own_max. reflexivity.
  - pose proof (psx_update_existing env ticker w stored api_data
                  Hfile Hapi Hne) as Hfirst.
    cbv zeta in Hfirst. fold batch in Hfirst. rewrite Hrun in Hfirst.
    destruct (List.length
                (select_newer Psx.date (max_date Psx.date stored)
                   (sort_values Psx.date batch)) =? 0)%nat eqn:E.
    + injection Hfirst as -> ->. exists stored. split; [exact Hfile|].
      rewrite (psx_update_existing env2 ticker w stored api_data
                 Hfile Hapi2 Hne).
      cbv zeta. fold batch. rewrite E. reflexivity.
    + injection Hfirst as -> ->. cbn [status] in Hok.
      destruct (Psx.write_ok env) eqn:Hw; [|discriminate].
      set (new_records :=
             select_newer Psx.date (max_date Psx.date stored)
               (sort_values Psx.date batch)) in *.
      set (df_combined :=
             sort_values Psx.date
               (drop_duplicates_last Psx.date (stored ++ new_records))).
      exists df_combined.
      assert (Hfile' :
        files (snd (Psx.save_data env (upper ticker) df_combined w))
          !! Psx.get_file_path (upper ticker)
        = Some (Parquet df_combined)).
      { unfold Psx.save_data. rewrite save_data_files, Hw.
        apply lookup_insert_eq. }
      split; [exact Hfile'|].
      rewrite (psx_update_existing env2 ticker _ _ api_data
                 Hfile' Hapi2 Hne).
      cbv zeta. fold batch. unfold df_combined, new_records.
      rewrite merged_absorbs_batch; [reflexivity|].
      fold new_records. intros Hnil. rewrite Hnil in E. discriminate.
Qed.

(** X14 — in the ticker manager, after a successful update with some
    fetched records a second non-forced update that fetches the same
    records reports "no new data" with [new_records_count = 0], leaves
    the store exactly as it was and reports the row count and the latest
    date of the stored table. *)
Theorem psx_update_same_batch_again :
  forall env ticker force w res w' env2,
    Psx.update_data env ticker force w = (res, w') ->
    status res = success ->
    Psx.api_response env2 = Psx.api_response env ->
    let run2 := Psx.update_data env2 ticker false w' in
    message (fst run2) = NoNewData (upper ticker)
    /\ new_records_count (fst run2) = Some 0%nat
    /\ snd run2 = w'
    /\ exists table,
         files w' !! Psx.get_file_path (upper ticker)
           = Some (Parquet table)
         /\ records_count (fst run2) = List.length table
         /\ latest_date (fst run2)
            = Some (Iso (max_date Psx.date table)).
Proof.
  intros env ticker force w res w' env2 Hrun Hok Hsame run2.
  destruct (psx_second_run _ _ _ _ _ _ _ Hrun Hok Hsame)
    as (table & Hfile & Hrun2).
  unfold run2. rewrite Hrun2.
  cbn [fst snd message new_records_count records_count latest_date].
  split; [reflexivity|]. split; [reflexivity|]. split; [reflexivity|].
  exists table. split; [exact Hfile|]. split; reflexivity.
Qed.

(** Day 1 stored, days 1 and 2 fetched twice: the second run adds
    nothing. *)
Lemma psx_update_same_batch_again_witness :
  let env := Psx.mkEnv (Some [Sample.tick 1 100; Sample.tick 2 110]) true in
  let w := Sample.holding Sample.hbl [Psx.column_mapping (Sample.tick 1 100)] in
  let run := Psx.update_data env "HBL" false w in
  new_records_count (fst (Psx.update_data env "HBL" false (snd run)))
  = Some 0%nat.
Proof.
  intros env w run.
  pose proof (psx_update_same_batch_again env "HBL"%string false w
                (fst run) (snd run) env) as H.
  cbv zeta in H.
  apply H.
  - unfold run. destruct (Psx.update_data _ _ _ _). reflexivity.
  - vm_compute. reflexivity.
  - reflexivity.
Defined.

(** ** The ticker manager: saving without a stored table *)

(** X15 — in the ticker manager a forced refresh, a missing file and an
    unreadable file all take the initial-save path: with a non-empty
    fetch and a working disk the result is "Initial data saved" with the
    number of fetched records and their latest date, and the file then
    holds the fetched records, renamed to the stored columns and sorted
    ascending by date -- whatever it held before. *)
Theorem psx_initial_save :
  forall env ticker force w api_data,
    Psx.api_response env = Some api_data ->
    api_data <> [] ->
    Psx.write_ok env = true ->
    force = true
    \/ files w !! Psx.get_file_path (upper ticker) = None
    \/ files w !! Psx.get_file_path (upper ticker) = Some Unreadable ->
    let batch := map Psx.column_mapping api_data in
    let run := Psx.update_data env ticker force w in
    fst run =
      mkResult success (InitialDataSaved (upper ticker))
        (List.length api_data) None (Some (Iso (max_date Psx.date batch)))
    /\ files (snd run) =
       <[Psx.get_file_path (upper ticker) :=
           Parquet (sort_values Psx.date batch)]> (files w)
    /\ Permutation batch (sort_values Psx.date batch)
    /\ ascending Psx.date (sort_values Psx.date batch).
Proof.
  intros env ticker force w api_data Hapi Hne Hok Hcase batch run.
  assert (Hload : exists w1,
             (if negb force
              then Psx.load_stored_data (upper ticker) w
              else (None, w)) = (None, w1)
             /\ files w1 = files w).
  { destruct Hcase as [->|[Hnone|Hbad]].
    - exists w. split; reflexivity.
    - destruct force; cbn [negb]; [exists w; split; reflexivity|].
      exists w. unfold Psx.load_stored_data, Frame.load_stored_data.
      rewrite Hnone. split; reflexivity.
    - destruct force; cbn [negb]; [exists w; split; reflexivity|].
      exists (print_stderr (ErrorLoading (upper ticker)) w).
      unfold Psx.load_stored_data, Frame.load_stored_data.
      rewrite Hbad. split; reflexivity. }
  destruct Hload as (w1 & Hload & Hfiles).
  pose proof (psx_update_initial env ticker force w w1 api_data
                Hload Hapi Hne) as Hrun.
  cbv zeta in Hrun. fold batch in Hrun. fold run in Hrun.
  rewrite Hrun, Hok. cbn [fst snd].
  split; [unfold batch; now rewrite length_map|].
  split.
  - unfold Psx.save_data. rewrite save_data_files, Hok, Hfiles.
    reflexivity.
  - split; [apply sort_values_perm|apply sort_values_ascending].
Qed.

(** An unreadable HBL file and a fetch of days 2 and 1. *)
Lemma psx_initial_save_witness :
  files (snd (Psx.update_data
                (Psx.mkEnv (Some [Sample.tick 2 110; Sample.tick 1 105])
                   true)
                "hbl" false (Sample.corrupt Sample.hbl)))
  = <[Psx.get_file_path (upper "hbl") :=
        Parquet (sort_values Psx.date
                   (map Psx.column_mapping
                      [Sample.tick 2 110; Sample.tick 1 105]))]>
      (files (Sample.corrupt Sample.hbl)).
Proof.
  apply (psx_initial_save
           (Psx.mkEnv (Some [Sample.tick 2 110; Sample.tick 1 105]) true)
           "hbl"%string false (Sample.corrupt Sample.hbl)
           [Sample.tick 2 110; Sample.tick 1 105]).
  - reflexivity.
  - discriminate.
  - reflexivity.
  - right. right. vm_compute. reflexivity.
Defined.

(** ** The ticker manager: the report of a merge *)

(** X16 — in the ticker manager, when the stored table has pairwise
    distinct dates and a non-forced update finds new records, the result
    reports their number as [new_records_count] and the latest fetched
    date as [latest_date]; if the new records have pairwise distinct
    dates too, nothing is dropped and [records_count] is the stored row
    count plus [new_records_count]. *)
Theorem psx_merge_report :
  forall env ticker w stored api_data,
    files w !! Psx.get_file_path (upper ticker) = Some (Parquet stored) ->
    List.NoDup (map Psx.date stored) ->
    Psx.api_response env = Some api_data ->
    let batch := map Psx.column_mapping api_data in
    let new_records :=
      select_newer Psx.date (max_date Psx.date stored)
        (sort_values Psx.date batch) in
    new_records <> [] ->
    let res := fst (Psx.update_data env ticker false w) in
    new_records_count res = Some (List.length new_records)
    /\ latest_date res = Some (Iso (max_date Psx.date batch))
    /\ (List.NoDup (map Psx.date new_records) ->
        drop_duplicates_last Psx.date (stored ++ new_records)
        = stored ++ new_records
        /\ records_count res
           = (List.length stored + List.length new_records)%nat).
Proof.
  intros env ticker w stored api_data Hfile Hnd Hapi batch new_records
    Hnew res.
  pose proof (select_newer_nonempty_batch _ _ _ Hnew) as Hne.
  assert (Hne' : api_data <> []).
  { intros ->. now apply Hne. }
  pose proof (psx_update_existing env ticker w stored api_data
                Hfile Hapi Hne') as Hrun.
  cbv zeta in Hrun. fold batch in Hrun. fold new_records in Hrun.
  destruct (List.length new_records =? 0)%nat eqn:E.
  { apply length_zero_nil in E. contradiction. }
  unfold res. rewrite Hrun.
  cbn [fst new_records_count latest_date records_count].
  split; [reflexivity|]. split.
  - unfold new_records.
    rewrite (merged_latest_date Psx.date stored
               (sort_values Psx.date batch) Hnew).
    now rewrite max_date_sort_values.
  - intros Hnew_nd. now apply merged_count.
Qed.

(** Day 1 stored, days 3 and 2 fetched. *)
Lemma psx_merge_report_witness :
  let res :=
    fst (Psx.update_data
           (Psx.mkEnv (Some [Sample.tick 3 120; Sample.tick 2 110]) true)
           "HBL" false
           (Sample.holding Sample.hbl
              [Psx.column_mapping (Sample.tick 1 100)])) in
  new_records_count res = Some 2%nat
  /\ latest_date res = Some (Iso (Some 3%Z))
  /\ records_count res = 3%nat.
Proof.
  pose proof (psx_merge_report
    (Psx.mkEnv (Some [Sample.tick 3 120; Sample.tick 2 110]) true)
    "HBL"%string
    (Sample.holding Sample.hbl [Psx.column_mapping (Sample.tick 1 100)])
    [Psx.column_mapping (Sample.tick 1 100)]
    [Sample.tick 3 120; Sample.tick 2 110]
    ltac:(vm_compute; reflexivity)
    ltac:(repeat constructor; simpl; tauto)
    eq_refl
    ltac:(vm_compute; discriminate)) as H.
  cbv zeta in H. destruct H as (Hn & Hl & Hc).
  split; [exact Hn|]. split; [exact Hl|].
  apply Hc. cbn. repeat constructor; simpl; intuition lia.
Defined.

(** ** The index manager: what a non-forced run leaves in the store *)

Lemma spx_update_not_fetched env w stored m :
  files w !! Spx.get_file_path = Some (Parquet stored) ->
  max_date Spx.date stored = Some m ->
  Spx.fetch_from_api env (Some (m + 1)%Z) = None
  \/ Spx.fetch_from_api env (Some (m + 1)%Z) = Some [] ->
  Spx.update_data env false w
  = (Ret (mkResult error (FailedToFetch "") 0 None None), w).
Proof.
  intros Hfile Hm Hapi. unfold Spx.update_data. cbn [negb].
  unfold Spx.load_stored_data, Frame.load_stored_data.
  rewrite Hfile, Hm. cbn [Spx.next_day bind].
  destruct Hapi as [-> | ->]; reflexivity.
Qed.

Lemma spx_update_not_parsed env w stored m api_data :
  files w !! Spx.get_file_path = Some (Parquet stored) ->
  max_date Spx.date stored = Some m ->
  Spx.fetch_from_api env (Some (m + 1)%Z) = Some api_data ->
  api_data <> [] ->
  Spx.parse_entries api_data = Ret [] ->
  Spx.update_data env false w
  = (Ret (mkResult error NoDataParsed 0 None None), w).
Proof.
  intros Hfile Hm Hapi Hne Hp. unfold Spx.update_data. cbn [negb].
  unfold Spx.load_stored_data, Frame.load_stored_data.
  rewrite Hfile, Hm. cbn [Spx.next_day bind]. rewrite Hapi.
  destruct api_data as [|entry rest]; [contradiction|].
  rewrite (parse_investing_data_sorted _ _ Hp). reflexivity.
Qed.

(** X17 — in the index manager, when the stored table has pairwise
    distinct dates, the table in the store after a non-forced run is, up
    to order, the stored rows (each unchanged) followed by appended
    rows; every appended row was parsed from the vendor's answer to the
    request starting the day after the stored latest date, and is dated
    strictly after that latest date.  This holds however the run ends,
    also when it raises. *)
Theorem spx_update_keeps_stored_rows :
  forall env w stored,
    files w !! Spx.get_file_path = Some (Parquet stored) ->
    List.NoDup (map Spx.date stored) ->
    let run := Spx.update_data env false w in
    exists table appended,
      files (snd run) !! Spx.get_file_path = Some (Parquet table)
      /\ Permutation table (stored ++ appended)
      /\ (forall r,
            In r appended ->
            exists m api_data records,
              max_date Spx.date stored = Some m
              /\ Spx.fetch_from_api env (Some (m + 1)%Z) = Some api_data
              /\ Spx.parse_entries api_data = Ret records
              /\ In r records
              /\ (m < Spx.date r)%Z).
Proof.
  intros env w stored Hfile Hnd run.
  assert (Hsame :
    files (snd run) = files w ->
    exists table appended,
      files (snd run) !! Spx.get_file_path = Some (Parquet table)
      /\ Permutation table (stored ++ appended)
      /\ (forall r,
            In r appended ->
            exists m api_data records,
              max_date Spx.date stored = Some m
              /\ Spx.fetch_from_api env (Some (m + 1)%Z) = Some api_data
              /\ Spx.parse_entries api_data = Ret records
              /\ In r records
              /\ (m < Spx.date r)%Z)).
  { intros ->. exists stored, []. split; [exact Hfile|].
    rewrite app_nil_r. split; [reflexivity|]. intros r []. }
  destruct (max_date Spx.date stored) as [m|] eqn:Hm.
  2:{ apply Hsame. unfold run, Spx.update_data. cbn [negb].
      unfold Spx.load_stored_data, Frame.load_stored_data.
      rewrite Hfile, Hm. reflexivity. }
  destruct (Spx.fetch_from_api env (Some (m + 1)%Z))
    as [api_data|] eqn:Hapi.
  2:{ apply Hsame. unfold run.
      rewrite (spx_update_not_fetched env w stored m Hfile Hm
                 (or_introl Hapi)).
      reflexivity. }
  destruct api_data as [|entry rest].
  { apply Hsame. unfold run.
    rewrite (spx_update_not_fetched env w stored m Hfile Hm
               (or_intror Hapi)).
    reflexivity. }
  destruct (parse_entries_returns (entry :: rest)) as [records Hp].
  destruct records as [|r0 records'].
  { apply Hsame. unfold run.
    rewrite (spx_update_not_parsed env w stored m (entry :: rest)
               Hfile Hm Hapi ltac:(discriminate) Hp).
    reflexivity. }
  set (records := r0 :: records') in *.
  pose proof (spx_update_existing env w stored m (entry :: rest) records
                Hfile Hm Hapi Hp ltac:(discriminate)) as Hrun.
  cbv zeta in Hrun. fold run in Hrun.
  destruct (List.length _ =? 0)%nat.
  { apply Hsame. rewrite Hrun. reflexivity. }
  destruct (Spx.write_ok env) eqn:Hw.
  - exists (sort_values Spx.date
              (drop_duplicates_last Spx.date
                 (stored ++
                  select_newer Spx.date (Some m)
                    (sort_values Spx.date records)))),
           (drop_duplicates_last Spx.date
              (select_newer Spx.date (Some m)
                 (sort_values Spx.date records))).
    split; [|split].
    + rewrite Hrun. cbn [snd]. unfold Spx.save_data.
      rewrite save_data_files, Hw. apply lookup_insert_eq.
    + rewrite <- Hm. now apply merged_keeps_stored.
    + intros r Hr. apply drop_duplicates_last_In in Hr.
      apply select_newer_In in Hr as [Hr (m0 & Hm0 & Hlt)].
      apply sort_values_In in Hr. injection Hm0 as <-.
      exists m, (entry :: rest), records.
      split; [reflexivity|]. split; [exact Hapi|].
      split; [exact Hp|]. split; [exact Hr|exact Hlt].
  - apply Hsame. rewrite Hrun. cbn [snd]. unfold Spx.save_data.
    now rewrite save_data_files, Hw.
Qed.

(** Day 1 stored, days 1 and 2 answered: the saved table is the stored
    row and one appended row. *)
Lemma spx_update_keeps_stored_rows_witness :
  exists table appended,
    files (snd (Spx.update_data
                  (Spx.mkEnv (fun _ => Some [Sample.entry 1 100;
                                             Sample.entry 2 110]) true)
                  false
                  (Sample.holding Spx.get_file_path [Sample.point 1 100])))
      !! Spx.get_file_path = Some (Parquet table)
    /\ Permutation table ([Sample.point 1 100] ++ appended).
Proof.
  destruct (spx_update_keeps_stored_rows
              (Spx.mkEnv (fun _ => Some [Sample.entry 1 100;
                                         Sample.entry 2 110]) true)
              (Sample.holding Spx.get_file_path [Sample.point 1 100])
              [Sample.point 1 100])
    as (table & appended & Hfile & Hperm & _).
  - vm_compute. reflexivity.
  - repeat constructor. simpl. tauto.
  - exists table, appended. split; [exact Hfile|exact Hperm].
Defined.


(** ** The index manager: saving without a stored table *)

(** X18 — in the index manager a forced refresh, a missing file and an
    unreadable file all lead to the same request (the whole history) and
    the same save: when the answer holds a dated entry and the disk
    works, the result is "Initial data saved" with the number of parsed
    records and their latest date, and the file then holds the parsed
    records sorted ascending by date.  An unreadable file adds one
    "Error loading" line to stderr, and only when the refresh is not
    forced. *)
Theorem spx_initial_save :
  forall env (force : bool) w api_data records,
    Spx.fetch_from_api env None = Some api_data ->
    Spx.parse_entries api_data = Ret records ->
    records <> [] ->
    Spx.write_ok env = true ->
    force = true
    \/ files w !! Spx.get_file_path = None
    \/ files w !! Spx.get_file_path = Some Unreadable ->
    let run := Spx.update_data env force w in
    fst run =
      Ret (mkResult success (InitialDataSaved "SPX500")
             (List.length records) None
             (Some (Iso (max_date Spx.date records))))
    /\ files (snd run) =
       <[Spx.get_file_path := Parquet (sort_values Spx.date records)]>
         (files w)
    /\ stderr (snd run) =
       (if force then stderr w
        else
          match files w !! Spx.get_file_path with
          | Some Unreadable => stderr w ++ [ErrorLoading ""]
          | _ => stderr w
          end).
Proof.
  intros env force w api_data records Hapi Hp Hne Hok Hcase run.
  assert (Hload : exists w1,
             (if negb force then Spx.load_stored_data w else (None, w))
             = (None, w1)
             /\ files w1 = files w
             /\ stderr w1 =
                (if force then stderr w
                 else
                   match files w !! Spx.get_file_path with
                   | Some Unreadable => stderr w ++ [ErrorLoading ""]
                   | _ => stderr w
                   end)).
  { destruct force; cbn [negb]; [exists w; repeat split|].
    destruct Hcase as [Hf|[Hnone|Hbad]]; [discriminate Hf| |].
    - exists w. unfold Spx.load_stored_data, Frame.load_stored_data.
      rewrite Hnone. repeat split.
    - exists (print_stderr (ErrorLoading "") w).
      unfold Spx.load_stored_data, Frame.load_stored_data.
      rewrite Hbad. repeat split. }
  destruct Hload as (w1 & Hload & Hfiles & Hlog).
  pose proof (spx_update_initial env force w w1 api_data records
                Hload Hapi Hp Hne) as Hrun.
  fold run in Hrun. rewrite Hrun, Hok. cbn [fst snd].
  split; [reflexivity|].
  unfold Spx.save_data, Frame.save_data. rewrite Hok. cbn [snd files stderr].
  split; [now rewrite Hfiles|exact Hlog].
Qed.

(** An unreadable file and an answer of days 2 and 1. *)
Lemma spx_initial_save_witness :
  snd (Spx.update_data
         (Spx.mkEnv (fun _ => Some [Sample.entry 2 110; Sample.entry 1 100])
            true)
         false (Sample.corrupt Spx.get_file_path))
  = mkWorld
      {[ Spx.get_file_path :=
           Parquet [Spx.mkRow 1 (Fin 100) (Fin 100) (Fin 100) (Fin 100)
                      (Fin 3000);
                    Spx.mkRow 2 (Fin 110) (Fin 110) (Fin 110) (Fin 110)
                      (Fin 3000)] ]}
      [ErrorLoading ""].
Proof.
  pose proof (spx_initial_save
    (Spx.mkEnv (fun _ => Some [Sample.entry 2 110; Sample.entry 1 100])
       true)
    false (Sample.corrupt Spx.get_file_path)
    [Sample.entry 2 110; Sample.entry 1 100]
    [Spx.mkRow 2 (Fin 110) (Fin 110) (Fin 110) (Fin 110) (Fin 3000);
     Spx.mkRow 1 (Fin 100) (Fin 100) (Fin 100) (Fin 100) (Fin 3000)]
    eq_refl
    ltac:(vm_compute; reflexivity)
    ltac:(discriminate)
    eq_refl
    ltac:(right; right; vm_compute; reflexivity)) as H.
  cbv zeta in H. destruct H as (_ & Hfiles & Hlog).
  destruct (snd _) as [fs log]. cbn [files stderr] in Hfiles, Hlog.
  rewrite Hfiles, Hlog. vm_compute. reflexivity.
Defined.

(** ** The index manager: nothing after the stored latest date *)

Lemma parse_entries_nil api_data :
  Spx.parse_entries api_data = Ret [] <->
  (forall entry, In entry api_data -> Spx.rowDate entry = None).
Proof.
  destruct (parse_entries_returns api_data) as [records Hp].
  pose proof (parse_entries_dates _ _ Hp) as Hdates.
  rewrite Hp. split.
  - intros [= ->]. cbn [map] in Hdates.
    intros entry Hin. destruct (Spx.rowDate entry) as [d|] eqn:Hd;
      [|reflexivity].
    assert (Hd' : In d (flat_map (fun entry =>
                                    match Spx.rowDate entry with
                                    | Some d => [d]
                                    | None => []
                                    end) api_data)).
    { apply in_flat_map. exists entry. split; [exact Hin|].
      rewrite Hd. now left. }
    rewrite <- Hdates in Hd'. destruct Hd'.
  - intros Hall. f_equal. destruct records as [|r l]; [reflexivity|].
    assert (Hd : In (Spx.date r) (map Spx.date (r :: l))) by now left.
    rewrite Hdates in Hd. apply in_flat_map in Hd as (entry & Hin & Hd).
    rewrite (Hall entry Hin) in Hd. destruct Hd.
Qed.

(** X19 — when the vendor's answer to the request after the stored
    latest date [m] holds no entry dated after [m], the index manager
    leaves the store untouched, and what it reports depends on the
    answer: an empty answer is a failed fetch (an error), an answer
    without any dated entry is "No data parsed" (an error), and only an
    answer with a dated entry gives the success "No new data" with the
    stored row count and the stored latest date. *)
Theorem spx_nothing_after_latest :
  forall env w stored m api_data,
    files w !! Spx.get_file_path = Some (Parquet stored) ->
    max_date Spx.date stored = Some m ->
    Spx.fetch_from_api env (Some (m + 1)%Z) = Some api_data ->
    (forall entry d,
       In entry api_data -> Spx.rowDate entry = Some d -> (d <= m)%Z) ->
    let run := Spx.update_data env false w in
    (api_data = [] ->
     run = (Ret (mkResult error (FailedToFetch "") 0 None None), w))
    /\ (api_data <> [] ->
        (forall entry, In entry api_data -> Spx.rowDate entry = None) ->
        run = (Ret (mkResult error NoDataParsed 0 None None), w))
    /\ ((exists entry d,
           In entry api_data /\ Spx.rowDate entry = Some d) ->
        run = (Ret (mkResult success (NoNewData "SPX500")
                      (List.length stored) (Some 0%nat)
                      (Some (Iso (Some m)))),
               w)).
Proof.
  intros env w stored m api_data Hfile Hm Hapi Hold run.
  split; [|split].
  - intros ->. apply (spx_update_not_fetched env w stored m Hfile Hm).
    now right.
  - intros Hne Hall.
    apply (spx_update_not_parsed env w stored m api_data Hfile Hm Hapi Hne).
    now apply parse_entries_nil.
  - intros (entry & d & Hin & Hd).
    destruct (parse_entries_returns api_data) as [records Hp].
    pose proof (parse_entries_dates _ _ Hp) as Hdates.
    assert (Hne : records <> []).
    { intros ->.
      rewrite (proj1 (parse_entries_nil api_data) Hp entry Hin) in Hd.
      discriminate. }
    pose proof (spx_update_existing env w stored m api_data records
                  Hfile Hm Hapi Hp Hne) as Hrun.
    cbv zeta in Hrun. fold run in Hrun.
    assert (Hnil : select_newer Spx.date (Some m)
                     (sort_values Spx.date records) = []).
    { apply select_newer_nil. intros r m0 Hr [= <-].
      apply sort_values_In in Hr.
      assert (Hdr : In (Spx.date r) (map Spx.date records))
        by now apply in_map.
      rewrite Hdates in Hdr.
      apply in_flat_map in Hdr as (e & He & Hde).
      destruct (Spx.rowDate e) as [d0|] eqn:Hd0; [|destruct Hde].
      destruct Hde as [<-|[]]. now apply (Hold e). }
    rewrite Hnil in Hrun. exact Hrun.
Qed.

(** Day 5 stored; the vendor answers the request from day 6 with day 5
    again. *)
Lemma spx_nothing_after_latest_witness :
  Spx.update_data (Spx.mkEnv (fun _ => Some [Sample.entry 5 100]) true)
    false (Sample.holding Spx.get_file_path [Sample.point 5 100])
  = (Ret (mkResult success (NoNewData "SPX500") 1 (Some 0%nat)
            (Some (Iso (Some 5%Z)))),
     Sample.holding Spx.get_file_path [Sample.point 5 100]).
Proof.
  apply (spx_nothing_after_latest
           (Spx.mkEnv (fun _ => Some [Sample.entry 5 100]) true)
           (Sample.holding Spx.get_file_path [Sample.point 5 100])
           [Sample.point 5 100] 5%Z [Sample.entry 5 100]).
  - vm_compute. reflexivity.
  - reflexivity.
  - reflexivity.
  - intros entry d [<-|[]] [= <-]. lia.
  - exists (Sample.entry 5 100), 5%Z. split; [now left|reflexivity].
Defined.

(** ** The volume parser: suffixes *)

Lemma filter_keeps_all {A} (f : A -> bool) l :
  Forall (fun x => f x = true) l -> List.filter f l = l.
Proof.
  induction 1 as [|x l Hx _ IH]; [reflexivity|].
  cbn [List.filter]. now rewrite Hx, IH.
Qed.

Lemma upper_char_suffix_fixed c :
  In (upper_char c) (chars "BMK") ->
  upper_char (upper_char c) = upper_char c
  /\ is_space (upper_char c) = false
  /\ Ascii.eqb "," c = false.
Proof.
  destruct c as [[] [] [] [] [] [] [] []]; vm_compute;
    intuition congruence.
Qed.

Lemma trimmed_snoc sp c k x :
  sp c = false -> sp x = false -> trimmed sp ((c :: k) ++ [x]).
Proof.
  intros Hc Hx. cbn [app trimmed]. split; [exact Hc|].
  exists x. split; [|exact Hx].
  change (c :: k ++ [x]) with ((c :: k) ++ [x]). apply last_snoc.
Qed.

(** The text left of a suffix letter: blanks, a literal, blanks. *)
Lemma suffixed_volume s x c :
  py_float s = Ret x ->
  In (upper_char c) (chars "BMK") ->
  (let cleaned :=
     strip (upper (replace "," "" (s +:+ text [c]))) in
   endswith cleaned (text [upper_char c]) = true
   /\ (forall y,
         In y (chars "BMK") -> y <> upper_char c ->
         endswith cleaned (text [y]) = false)
   /\ py_float (replace (text [upper_char c]) (text []) cleaned) = Ret x)
  /\ String.eqb (s +:+ text [c]) "" = false.
Proof.
  intros H Hc.
  destruct (py_float_accepts _ _ H)
    as (a & k & b & Hl & Ha & Hb & Hne & Hk & Hlit).
  destruct (upper_char_suffix_fixed c Hc) as (Hcc & Hcsp & Hccomma).
  assert (Hchars : chars (s +:+ text [c]) = a ++ k ++ b ++ [c]).
  { rewrite chars_append, chars_text, Hl, <- !app_assoc. reflexivity. }
  split.
  2:{ apply String.eqb_neq. intros E.
      apply (f_equal chars) in E. rewrite Hchars in E.
      destruct a; [|discriminate E].
      destruct k; [contradiction|discriminate E]. }
  assert (Hrepl : replace "," "" (s +:+ text [c]) = s +:+ text [c]).
  { unfold replace. change (chars ",") with [","%char].
    change (chars "") with (@nil ascii).
    rewrite replace_from_char_id; [apply text_chars|].
    rewrite Hchars, !Forall_app. repeat split.
    - eapply List.Forall_impl; [|exact Ha]. intros y Hy.
      rewrite Ascii.eqb_sym. apply (c_space_not_comma y Hy).
    - eapply List.Forall_impl; [|exact Hk]. intros y Hy.
      rewrite Ascii.eqb_sym. apply (numeric_char_not_space y Hy).
    - eapply List.Forall_impl; [|exact Hb]. intros y Hy.
      rewrite Ascii.eqb_sym. apply (c_space_not_comma y Hy).
    - constructor; [exact Hccomma|constructor]. }
  cbv zeta. rewrite Hrepl.
  destruct k as [|k0 k']; [contradiction|].
  set (body := map upper_char (k0 :: k') ++ map upper_char b).
  assert (Hclean :
    strip (upper (s +:+ text [c])) = text (body ++ [upper_char c])).
  { unfold strip, upper. rewrite chars_text, Hchars, !map_app. f_equal.
    assert (Harg :
      map upper_char a ++ map upper_char (k0 :: k') ++ map upper_char b
        ++ map upper_char [c]
      = map upper_char a ++ (body ++ [upper_char c]) ++ []).
    { unfold body. rewrite app_nil_r, <- app_assoc. reflexivity. }
    rewrite Harg. apply strip_by_trimmed.
    - apply Forall_map. eapply List.Forall_impl; [|exact Ha].
      intros y Hy. cbn beta. rewrite is_space_upper.
      now apply c_space_is_space.
    - constructor.
    - unfold body. cbn [map app].
      change (upper_char k0 :: (map upper_char k' ++ map upper_char b)
              ++ [upper_char c])
        with ((upper_char k0 :: map upper_char k' ++ map upper_char b)
              ++ [upper_char c]).
      apply trimmed_snoc; [|exact Hcsp].
      rewrite is_space_upper.
      apply (numeric_char_not_space k0).
      now inversion Hk. }
  rewrite Hclean.
  assert (Hbody :
    Forall (fun y => existsb (Ascii.eqb y) (chars "BMK") = false) body).
  { unfold body. rewrite Forall_app. split.
    - apply Forall_map. eapply List.Forall_impl; [|exact Hk].
      intros y Hy. cbn beta. apply (numeric_char_not_space y Hy).
    - apply Forall_map. eapply List.Forall_impl; [|exact Hb].
      intros y Hy. cbn beta. apply (c_space_not_comma y Hy). }
  split; [|split].
  - unfold endswith. rewrite !chars_text, rev_app_distr.
    cbn [rev app prefixb]. now rewrite Ascii.eqb_refl.
  - intros y Hy Hneq. unfold endswith.
    rewrite !chars_text, rev_app_distr. cbn [rev app prefixb].
    destruct (Ascii.eqb y (upper_char c)) eqn:E; [|reflexivity].
    apply Ascii.eqb_eq in E. contradiction.
  - unfold py_float. rewrite chars_replace_char, chars_text.
    rewrite List.filter_app. cbn [List.filter].
    rewrite Ascii.eqb_refl. cbn [negb]. rewrite app_nil_r.
    rewrite filter_keeps_all.
    2:{ eapply List.Forall_impl; [|exact Hbody]. intros y Hy. cbn beta.
        destruct (Ascii.eqb (upper_char c) y) eqn:E; [|reflexivity].
        apply Ascii.eqb_eq in E. subst y.
        assert (Hyes : existsb (Ascii.eqb (upper_char c)) (chars "BMK")
                       = true).
        { apply existsb_exists. exists (upper_char c).
          split; [exact Hc|apply Ascii.eqb_refl]. }
        congruence. }
    unfold body.
    rewrite <- (app_nil_l (map upper_char (k0 :: k') ++ map upper_char b)).
    rewrite strip_by_trimmed.
    + now rewrite float_literal_upper.
    + constructor.
    + apply Forall_map. eapply List.Forall_impl; [|exact Hb].
      intros y Hy. cbn beta. now rewrite is_c_space_upper.
    + apply trimmed_upper; [apply is_c_space_upper|discriminate|].
      eapply List.Forall_impl; [|exact Hk]. intros y Hy.
      apply (numeric_char_not_space y Hy).
Qed.

(** X20 — a text that [float()] accepts, followed by one of the letters
    B, M, K in either case, is read as that number times 10^9, 10^6 or
    10^3. *)
Theorem parse_volume_scales :
  forall s x c,
    py_float s = Ret x ->
    (upper_char c = "B"%char ->
     Spx.parse_volume (VStr (s +:+ text [c]))
     = Ret (Some (fmul x (Fin 1000000000))))
    /\ (upper_char c = "M"%char ->
        Spx.parse_volume (VStr (s +:+ text [c]))
        = Ret (Some (fmul x (Fin 1000000))))
    /\ (upper_char c = "K"%char ->
        Spx.parse_volume (VStr (s +:+ text [c]))
        = Ret (Some (fmul x (Fin 1000)))).
Proof.
  intros s x c H. split; [|split]; intros Hc.
  - destruct (suffixed_volume s x c H) as [(HB & Hother & Hfloat) Hne].
    { rewrite Hc. cbn. tauto. }
    cbv zeta in HB, Hother, Hfloat. rewrite Hc in HB, Hfloat.
    unfold Spx.parse_volume. cbn [truthy str]. rewrite Hne. cbn [negb].
    change (text ["B"%char]) with "B"%string in HB, Hfloat.
    change (text []) with ""%string in Hfloat.
    rewrite HB, Hfloat. reflexivity.
  - destruct (suffixed_volume s x c H) as [(HM & Hother & Hfloat) Hne].
    { rewrite Hc. cbn. tauto. }
    cbv zeta in HM, Hother, Hfloat. rewrite Hc in HM, Hother, Hfloat.
    unfold Spx.parse_volume. cbn [truthy str]. rewrite Hne. cbn [negb].
    pose proof (Hother "B"%char ltac:(cbn; tauto) ltac:(discriminate))
      as HB.
    change (text ["B"%char]) with "B"%string in HB.
    change (text ["M"%char]) with "M"%string in HM, Hfloat.
    change (text []) with ""%string in Hfloat.
    rewrite HB, HM, Hfloat. reflexivity.
  - destruct (suffixed_volume s x c H) as [(HK & Hother & Hfloat) Hne].
    { rewrite Hc. cbn. tauto. }
    cbv zeta in HK, Hother, Hfloat. rewrite Hc in HK, Hother, Hfloat.
    unfold Spx.parse_volume. cbn [truthy str]. rewrite Hne. cbn [negb].
    pose proof (Hother "B"%char ltac:(cbn; tauto) ltac:(discriminate))
      as HB.
    pose proof (Hother "M"%char ltac:(cbn; tauto) ltac:(discriminate))
      as HM.
    change (text ["B"%char]) with "B"%string in HB.
    change (text ["M"%char]) with "M"%string in HM.
    change (text ["K"%char]) with "K"%string in HK, Hfloat.
    change (text []) with ""%string in Hfloat.
    rewrite HB, HM, HK, Hfloat. reflexivity.
Qed.

(** " 1_250.5e1 " is the number 12505; with a "b" behind it the volume
    is 12505 * 10^9. *)
Lemma parse_volume_scales_witness :
  Spx.parse_volume (VStr (" 1_250.5e1 " +:+ text ["b"%char]))
  = Ret (Some (fmul (Fin 12505) (Fin 1000000000))).
Proof.
  destruct (parse_volume_scales " 1_250.5e1 "%string (Fin 12505) "b"%char)
    as (HB & _ & _).
  - vm_compute. reflexivity.
  - apply HB. reflexivity.
Defined.

(** ** The volume parser: what the cleaning forgets *)

Lemma strip_by_is_trimmed sp l : trimmed sp (strip_by sp l).
Proof.
  unfold strip_by.
  assert (Hhead : forall l', match lstrip_by sp l' with
                             | [] => True
                             | c :: _ => sp c = false
                             end).
  { induction l' as [|c l' IH]; [exact I|].
    cbn [lstrip_by]. destruct (sp c) eqn:E; [exact IH|exact E]. }
  assert (Hsuffix : forall l', exists a, l' = a ++ lstrip_by sp l').
  { intros l'. destruct (lstrip_by_split sp l') as (a & H & _). eauto. }
  set (m := lstrip_by sp l).
  pose proof (Hhead l) as Hm. fold m in Hm.
  pose proof (Hhead (rev m)) as Hr.
  destruct (Hsuffix (rev m)) as (a & Ha).
  set (n := lstrip_by sp (rev m)) in *.
  destruct (rev n) as [|c k] eqn:E; [exact I|].
  assert (Hn : n = rev (c :: k)) by (rewrite <- E; now rewrite rev_involutive).
  assert (Hmeq : m = (c :: k) ++ rev a).
  { rewrite <- (rev_involutive m), Ha, rev_app_distr, E. reflexivity. }
  split.
  - rewrite Hmeq in Hm. exact Hm.
  - cbn [rev] in Hn. destruct n as [|x n'].
    { destruct (rev k); discriminate. }
    exists x. split; [|exact Hr].
    assert (Hck : c :: k = rev (x :: n')).
    { rewrite <- (rev_involutive (c :: k)). cbn [rev]. now rewrite <- Hn. }
    rewrite Hck. cbn [rev]. now rewrite last_snoc.
Qed.

(** Blanks around a text do not change what [strip] leaves. *)
Lemma strip_by_blank_ends sp a l b :
  Forall (fun c => sp c = true) a ->
  Forall (fun c => sp c = true) b ->
  strip_by sp (a ++ l ++ b) = strip_by sp l.
Proof.
  intros Ha Hb.
  destruct (strip_by_split sp l) as (a2 & b2 & Hl & Ha2 & Hb2).
  rewrite Hl at 1.
  replace (a ++ (a2 ++ strip_by sp l ++ b2) ++ b)
    with ((a ++ a2) ++ strip_by sp l ++ (b2 ++ b))
    by now rewrite <- !app_assoc.
  apply strip_by_trimmed.
  - apply Forall_app. now split.
  - apply Forall_app. now split.
  - apply strip_by_is_trimmed.
Qed.

Lemma comma_and_case c :
  Ascii.eqb "," (upper_char c) = Ascii.eqb "," c
  /\ (is_space c = true -> Ascii.eqb "," c = false).
Proof. ascii_cases c. Qed.

Lemma filter_comma_upper l :
  List.filter (fun c => negb (Ascii.eqb "," c)) (map upper_char l)
  = map upper_char (List.filter (fun c => negb (Ascii.eqb "," c)) l).
Proof.
  induction l as [|c l IH]; [reflexivity|].
  cbn [map List.filter]. rewrite (proj1 (comma_and_case c)).
  destruct (Ascii.eqb "," c); cbn [negb map]; now rewrite IH.
Qed.

Lemma filter_twice {A} (f : A -> bool) l :
  List.filter f (List.filter f l) = List.filter f l.
Proof.
  induction l as [|x l IH]; [reflexivity|].
  cbn [List.filter]. destruct (f x) eqn:E; [|exact IH].
  cbn [List.filter]. now rewrite E, IH.
Qed.

(** The characters of the cleaned text. *)
Lemma chars_cleaned_text s :
  chars (Spx.cleaned_text (VStr s))
  = strip_by is_space
      (map upper_char
         (List.filter (fun c => negb (Ascii.eqb "," c)) (chars s))).
Proof.
  unfold Spx.cleaned_text. cbn [str].
  change (replace "," "" s) with (replace (text [","%char]) (text []) s).
  unfold strip, upper. now rewrite !chars_text, chars_replace_char.
Qed.

Lemma cleaned_text_eq s s' :
  chars (Spx.cleaned_text (VStr s')) = chars (Spx.cleaned_text (VStr s)) ->
  Spx.cleaned_text (VStr s') = Spx.cleaned_text (VStr s).
Proof.
  intros H. apply (f_equal text) in H. now rewrite !text_chars in H.
Qed.

(** The result is a function of the cleaned text, for texts that are
    both empty or both not; and an empty cleaned text gives null. *)
Lemma parse_volume_same_cleaned s s' :
  Spx.cleaned_text (VStr s') = Spx.cleaned_text (VStr s) ->
  (s = ""%string -> s' = ""%string) ->
  (s' = ""%string -> Spx.cleaned_text (VStr s) = ""%string) ->
  Spx.parse_volume (VStr s') = Spx.parse_volume (VStr s).
Proof.
  unfold Spx.cleaned_text, Spx.parse_volume. cbn [truthy str].
  intros Hsame Hempty Hblank.
  destruct (String.eqb_spec s "") as [->|Hs].
  { rewrite (Hempty eq_refl). reflexivity. }
  destruct (String.eqb_spec s' "") as [->|Hs'].
  - cbn [negb]. rewrite (Hblank eq_refl). vm_compute. reflexivity.
  - cbn [negb]. cbv zeta. rewrite Hsame. reflexivity.
Qed.

(** X21 — [parse_volume] reads a text whatever its thousands separators,
    its letter case and the blanks around it: removing every comma,
    upper-casing the text, or stripping it, each leaves the result
    unchanged. *)
Theorem parse_volume_ignores_commas_case_and_blanks :
  forall s,
    Spx.parse_volume (VStr (replace "," "" s)) = Spx.parse_volume (VStr s)
    /\ Spx.parse_volume (VStr (upper s)) = Spx.parse_volume (VStr s)
    /\ Spx.parse_volume (VStr (strip s)) = Spx.parse_volume (VStr s).
Proof.
  intros s. split; [|split].
  - assert (Hsame :
      Spx.cleaned_text (VStr (replace "," "" s))
      = Spx.cleaned_text (VStr s)).
    { apply cleaned_text_eq. rewrite !chars_cleaned_text.
      change (replace "," "" s) with (replace (text [","%char]) (text []) s).
      now rewrite chars_replace_char, filter_twice. }
    apply parse_volume_same_cleaned; [exact Hsame|now intros ->|].
    intros E. rewrite <- Hsame, E. vm_compute. reflexivity.
  - assert (Hsame :
      Spx.cleaned_text (VStr (upper s)) = Spx.cleaned_text (VStr s)).
    { apply cleaned_text_eq. rewrite !chars_cleaned_text.
      unfold upper. rewrite chars_text, filter_comma_upper, map_map.
      now rewrite (map_ext _ upper_char upper_char_upper). }
    apply parse_volume_same_cleaned; [exact Hsame|now intros ->|].
    intros E. rewrite <- Hsame, E. vm_compute. reflexivity.
  - assert (Hsame :
      Spx.cleaned_text (VStr (strip s)) = Spx.cleaned_text (VStr s)).
    { apply cleaned_text_eq. rewrite !chars_cleaned_text.
      unfold strip. rewrite chars_text.
      destruct (strip_by_split is_space (chars s))
        as (a & b & Hl & Ha & Hb).
      rewrite Hl at 2. rewrite !List.filter_app, !map_app.
      symmetry. apply strip_by_blank_ends.
      - apply Forall_map, List.Forall_forall. intros c Hc.
        apply filter_In in Hc as [Hc _]. cbn beta.
        rewrite is_space_upper.
        rewrite List.Forall_forall in Ha. now apply Ha.
      - apply Forall_map, List.Forall_forall. intros c Hc.
        apply filter_In in Hc as [Hc _]. cbn beta.
        rewrite is_space_upper.
        rewrite List.Forall_forall in Hb. now apply Hb. }
    apply parse_volume_same_cleaned; [exact Hsame|now intros ->|].
    intros E. rewrite <- Hsame, E. vm_compute. reflexivity.
Qed.

(** ** The command lines *)

(** The run ended with status 1. *)
Ltac exit_1 :=
  let H := fresh "H" in
  intros H; cbn [exit_code] in H; discriminate H.

Lemma crypto_price_files symbol w :
  files (snd (Crypto.get_latest_price symbol w)) = files w.
Proof.
  unfold Crypto.get_latest_price, Crypto.load_stored_data,
    Frame.load_stored_data.
  destruct (files w !! _) as [[t|]|]; [|reflexivity|reflexivity].
  destruct (last t); reflexivity.
Qed.

Lemma psx_price_files ticker w :
  files (snd (Psx.get_latest_price ticker w)) = files w.
Proof.
  unfold Psx.get_latest_price, Psx.load_stored_data,
    Frame.load_stored_data.
  destruct (files w !! _) as [[t|]|]; [|reflexivity|reflexivity].
  destruct (last t); reflexivity.
Qed.

Lemma spx_price_files w :
  files (snd (SpxCli.get_latest_price w)) = files w.
Proof.
  unfold SpxCli.get_latest_price, Spx.load_stored_data,
    Frame.load_stored_data.
  destruct (files w !! _) as [[t|]|]; [|reflexivity|reflexivity].
  destruct (last t); reflexivity.
Qed.





(** X23 — the index command line exits with 0 exactly when [update]
    returns a result (whatever its [status]) or [price] finds a quote;
    an exception of [update_data] ends the run with status 1.  So
    [update] without [--force] over a stored table without rows exits
    with 1 and a traceback, and leaves the store as it is. *)
Theorem spx_main_exit_code :
  forall env argv w,
    let run := SpxCli.main env argv w in
    (exit_code run = 0 \/ exit_code run = 1)%Z
    /\ (exit_code run = 0%Z <->
        (exists prog rest result,
           argv = prog :: "update"%string :: rest
           /\ fst (Spx.update_data env (force_flag argv) w) = Ret result)
        \/ (exists prog rest,
              argv = prog :: "price"%string :: rest
              /\ fst (SpxCli.get_latest_price w) <> None))
    /\ (forall prog rest,
          argv = prog :: "update"%string :: rest ->
          force_flag argv = false ->
          files w !! Spx.get_file_path = Some (Parquet []) ->
          run = mkExit 1 (Traceback ValueError) w).
Proof.
  intros env argv w run. split; [|split].
  - unfold run, SpxCli.main.
    destruct argv as [|prog [|command rest]]; try (now right).
    destruct (String.eqb command "update").
    { destruct (Spx.update_data _ _ _) as [[result|e] w'];
        [now left|now right]. }
    destruct (String.eqb command "price"); [|now right].
    destruct (SpxCli.get_latest_price w) as [[q|] w'];
      [now left|now right].
  - split.
    + unfold run, SpxCli.main.
      destruct argv as [|prog [|command rest]]; [exit_1..|].
      destruct (String.eqb_spec command "update") as [->|Hu].
      { destruct (Spx.update_data _ _ _) as [[result|e] w'] eqn:E;
          [|exit_1].
        intros _. left. exists prog, rest, result.
        split; reflexivity. }
      destruct (String.eqb_spec command "price") as [->|Hp]; [|exit_1].
      destruct (SpxCli.get_latest_price w) as [[q|] w'] eqn:E; [|exit_1].
      intros _. right. exists prog, rest.
      split; [reflexivity|discriminate].
    + intros [(prog & rest & result & -> & Hres)
             |(prog & rest & -> & Hq)].
      * unfold run, SpxCli.main. rewrite String.eqb_refl.
        destruct (Spx.update_data _ _ _) as [[result'|e] w'];
          [reflexivity|discriminate Hres].
      * unfold run, SpxCli.main.
        destruct (String.eqb_spec "price" "update") as [E|_];
          [discriminate E|].
        rewrite String.eqb_refl.
        destruct (SpxCli.get_latest_price w) as [[q|] w'];
          [reflexivity|now destruct Hq].
  - intros prog rest -> Hforce Hfile.
    unfold run, SpxCli.main. rewrite String.eqb_refl, Hforce.
    unfold Spx.update_data. cbn [negb].
    unfold Spx.load_stored_data, Frame.load_stored_data.
    rewrite Hfile. reflexivity.
Qed.

(** The index file holds a table without rows: [update] ends in a
    traceback. *)
Lemma spx_main_exit_code_witness :
  SpxCli.main (Spx.mkEnv (fun _ => Some [Sample.entry 1 100]) true)
    ["spx500_data_manager.py"; "update"]%string
    (Sample.holding Spx.get_file_path [])
  = mkExit 1 (Traceback ValueError) (Sample.holding Spx.get_file_path []).
Proof.
  apply (proj2 (proj2 (spx_main_exit_code
           (Spx.mkEnv (fun _ => Some [Sample.entry 1 100]) true)
           ["spx500_data_manager.py"; "update"]%string
           (Sample.holding Spx.get_file_path [])))
           "spx500_data_manager.py"%string []).
  - reflexivity.
  - reflexivity.
  - vm_compute. reflexivity.
Defined.

(** X24 — only the [update] command can change the store: for every
    other command line (no command, [price], an unknown command) the
    files after the run are the files before it.  All three command
    lines. *)
Theorem main_writes_only_on_update :
  (forall env argv w,
     (forall prog args, argv <> prog :: "update"%string :: args) ->
     files (world (CryptoCli.main env argv w)) = files w)
  /\ (forall env argv w,
        (forall prog args, argv <> prog :: "update"%string :: args) ->
        files (world (PsxCli.main env argv w)) = files w)
  /\ (forall env argv w,
        (forall prog args, argv <> prog :: "update"%string :: args) ->
        files (world (SpxCli.main env argv w)) = files w).
Proof.
  split; [|split].
  - intros env argv w Hcmd. unfold CryptoCli.main.
    destruct argv as [|prog [|command args]]; [reflexivity..|].
    destruct (String.eqb_spec command "update") as [->|_].
    { now destruct (Hcmd prog args). }
    destruct (String.eqb command "price"); [|reflexivity].
    destruct args as [|symbol rest]; [reflexivity|].
    pose proof (crypto_price_files symbol w) as H.
    destruct (Crypto.get_latest_price symbol w) as [[q|] w']; exact H.
  - intros env argv w Hcmd. unfold PsxCli.main.
    destruct argv as [|prog [|command args]]; [reflexivity..|].
    destruct (String.eqb_spec command "update") as [->|_].
    { now destruct (Hcmd prog args). }
    destruct (String.eqb command "price"); [|reflexivity].
    destruct args as [|ticker rest]; [reflexivity|].
    pose proof (psx_price_files ticker w) as H.
    destruct (Psx.get_latest_price ticker w) as [[q|] w']; exact H.
  - intros env argv w Hcmd. unfold SpxCli.main.
    destruct argv as [|prog [|command args]]; [reflexivity..|].
    destruct (String.eqb_spec command "update") as [->|_].
    { now destruct (Hcmd prog args). }
    destruct (String.eqb command "price"); [|reflexivity].
    pose proof (spx_price_files w) as H.
    destruct (SpxCli.get_latest_price w) as [[q|] w']; exact H.
Qed.

(** [price] on an unreadable file prints "No data found", exits with 1
    and leaves the file. *)
Lemma main_writes_only_on_update_witness :
  files (world (CryptoCli.main (Crypto.mkEnv None true)
                  ["crypto_data_manager.py"; "price"; "BTC"]%string
                  (Sample.corrupt Sample.btc)))
  = files (Sample.corrupt Sample.btc).
Proof.
  apply (proj1 main_writes_only_on_update).
  intros prog args. discriminate.
Defined.

(** ** The index manager: the report and the price lookup *)

Lemma spx_success_report env force w res w' :
  Spx.update_data env force w = (Ret res, w') ->
  status res = success ->
  exists t,
    files w' !! Spx.get_file_path = Some (Parquet t)
    /\ records_count res = List.length t
    /\ latest_date res = Some (Iso (max_date Spx.date t))
    /\ t <> [].
Proof.
  intros Hrun Hok.
  destruct (spx_update_success _ _ _ _ _ Hrun Hok)
    as (start & api_data & records & Hapi & Hp & Hne & Hpath).
  destruct Hpath as [[-> [w1 Hload]]|(stored & m & -> & Hfile & Hm & ->)].
  - rewrite (spx_update_initial env force w w1 api_data records
               Hload Hapi Hp Hne) in Hrun.
    injection Hrun as <- <-. cbn [status] in Hok.
    destruct (Spx.write_ok env) eqn:Hw; [|discriminate].
    exists (sort_values Spx.date records).
    cbn [records_count latest_date].
    rewrite sort_values_length, max_date_sort_values.
    split; [|split; [reflexivity|split; [reflexivity|]]].
    + unfold Spx.save_data. rewrite save_data_files, Hw.
      apply lookup_insert_eq.
    + intros Hnil. now apply sort_values_nil_inv in Hnil.
  - pose proof (spx_update_existing env w stored m api_data records
                  Hfile Hm Hapi Hp Hne) as Hfirst.
    cbv zeta in Hfirst. rewrite Hrun in Hfirst.
    set (new_records :=
           select_newer Spx.date (Some m)
             (sort_values Spx.date records)) in *.
    destruct (List.length new_records =? 0)%nat eqn:E.
    + injection Hfirst as -> ->. exists stored.
      cbn [records_count latest_date]. rewrite Hm.
      split; [exact Hfile|]. split; [reflexivity|].
      split; [reflexivity|]. intros ->. discriminate Hm.
    + injection Hfirst as -> ->. cbn [status] in Hok.
      destruct (Spx.write_ok env) eqn:Hw; [|discriminate].
      assert (Hnew : new_records <> []).
      { intros Hnil. rewrite Hnil in E. discriminate. }
      eexists. cbn [records_count latest_date].
      split; [|split; [reflexivity|split]].
      * unfold Spx.save_data. rewrite save_data_files, Hw.
        apply lookup_insert_eq.
      * unfold new_records in *. rewrite <- Hm in *.
        rewrite (merged_latest_date Spx.date stored _ Hnew).
        now rewrite (merged_max_is_batch_max Spx.date stored _ Hnew).
      * intros Hnil.
        destruct (merged_latest_not_before Spx.date stored new_records
                    m Hm) as (m' & Hm' & _).
        rewrite Hnil in Hm'. discriminate Hm'.
Qed.

(** X25 — the index manager's [get_latest_price] returns nothing when
    the file is missing, unreadable or holds no row; on a table sorted
    ascending by date it returns the quote of the row of maximum date,
    under the symbol "SPX500", with [null] exactly in place of the
    missing ([NaN]) cells.  After a successful [update_data] in a store
    of sorted tables, the date of the quote is the [latest_date] the
    update reported. *)
Theorem spx_latest_price :
  (forall w,
     files w !! Spx.get_file_path = None
     \/ files w !! Spx.get_file_path = Some Unreadable
     \/ files w !! Spx.get_file_path = Some (Parquet []) ->
     fst (SpxCli.get_latest_price w) = None)
  /\ (forall w t,
        files w !! Spx.get_file_path = Some (Parquet t) ->
        t <> [] ->
        ascending Spx.date t ->
        exists latest,
          In latest t
          /\ max_date Spx.date t = Some (Spx.date latest)
          /\ SpxCli.get_latest_price w =
             (Some (SpxCli.mkQuote "SPX500"
                      (Some (Spx.date latest))
                      (SpxCli.float_or_null (Spx.close latest))
                      (SpxCli.float_or_null (Spx.open latest))
                      (SpxCli.float_or_null (Spx.high latest))
                      (SpxCli.float_or_null (Spx.low latest))
                      (SpxCli.float_or_null (Spx.volume latest))),
              w))
  /\ (forall x,
        SpxCli.float_or_null x = None <-> x = NaN)
  /\ (forall env force w res w',
        tables_ascending Spx.date w ->
        Spx.update_data env force w = (Ret res, w') ->
        status res = success ->
        exists q,
          fst (SpxCli.get_latest_price w') = Some q
          /\ latest_date res = Some (Iso (SpxCli.q_date q))).
Proof.
  assert (Hrows : forall w t,
    files w !! Spx.get_file_path = Some (Parquet t) ->
    t <> [] ->
    ascending Spx.date t ->
    exists latest,
      In latest t
      /\ max_date Spx.date t = Some (Spx.date latest)
      /\ SpxCli.get_latest_price w =
         (Some (SpxCli.mkQuote "SPX500"
                  (Some (Spx.date latest))
                  (SpxCli.float_or_null (Spx.close latest))
                  (SpxCli.float_or_null (Spx.open latest))
                  (SpxCli.float_or_null (Spx.high latest))
                  (SpxCli.float_or_null (Spx.low latest))
                  (SpxCli.float_or_null (Spx.volume latest))),
          w)).
  { intros w t Hfile Hne Hasc.
    unfold SpxCli.get_latest_price, Spx.load_stored_data,
      Frame.load_stored_data.
    rewrite Hfile.
    destruct (last_nonempty t Hne) as [latest Hlast].
    exists latest. split; [now apply last_In|].
    split; [now apply max_date_last|].
    rewrite Hlast. reflexivity. }
  split; [|split; [exact Hrows|split]].
  - intros w Hcase.
    unfold SpxCli.get_latest_price, Spx.load_stored_data,
      Frame.load_stored_data.
    destruct Hcase as [-> |[-> | ->]]; reflexivity.
  - intros x. unfold SpxCli.float_or_null.
    destruct x; cbn [notna]; split; congruence.
  - intros env force w res w' Hasc Hrun Hok.
    destruct (spx_success_report _ _ _ _ _ Hrun Hok)
      as (t & Hfile & Hcount & Hlatest & Hne).
    assert (Hasc' : tables_ascending Spx.date w').
    { replace w' with (snd (Spx.update_data env force w))
        by now rewrite Hrun.
      eapply tables_ascending_written; [exact Hasc|].
      apply spx_update_files. }
    destruct (Hrows w' t Hfile Hne (Hasc' _ _ Hfile))
      as (latest & _ & Hmax & Hq).
    eexists. rewrite Hq. cbn [fst SpxCli.q_date].
    split; [reflexivity|]. now rewrite Hlatest, Hmax.
Qed.

(** Days 1 and 2 stored in order: the quote is the one of day 2. *)
Lemma spx_latest_price_witness :
  exists latest,
    In latest [Sample.point 1 100; Sample.point 2 110]
    /\ max_date Spx.date [Sample.point 1 100; Sample.point 2 110]
       = Some (Spx.date latest)
    /\ SpxCli.get_latest_price
         (Sample.holding Spx.get_file_path
            [Sample.point 1 100; Sample.point 2 110])
       = (Some (SpxCli.mkQuote "SPX500"
                  (Some (Spx.date latest))
                  (SpxCli.float_or_null (Spx.close latest))
                  (SpxCli.float_or_null (Spx.open latest))
                  (SpxCli.float_or_null (Spx.high latest))
                  (SpxCli.float_or_null (Spx.low latest))
                  (SpxCli.float_or_null (Spx.volume latest))),
          Sample.holding Spx.get_file_path
            [Sample.point 1 100; Sample.point 2 110]).
Proof.
  apply (proj1 (proj2 spx_latest_price)).
  - vm_compute. reflexivity.
  - discriminate.
  - unfold ascending. cbn [map Sample.point Spx.date].
    repeat constructor; lia.
Defined.

(** ** The vendors' responses *)

Lemma psx_fetch_dict content_type d :
  PsxFetch.fetch_from_api
    (Vendor.Answered content_type (Some (Vendor.JDict d)))
  = Vendor.item "data" d.
Proof.
  unfold PsxFetch.fetch_from_api, Vendor.item, Vendor.has_key.
  destruct (d !! "data"%string) as [v|].
  - now rewrite orb_true_r.
  - now destruct (_ && _).
Qed.

(** X26 — the ticker manager's [fetch_from_api] never looks at the
    [status] of a response object: it returns the value under ["data"]
    when there is one and [None] when there is none, and setting,
    changing or removing ["status"] changes nothing.  A response
    [{"status": "error", "data": [...]}] is therefore accepted. *)
Theorem psx_fetch_ignores_status :
  forall content_type d,
    (forall st,
       PsxFetch.fetch_from_api
         (Vendor.Answered content_type
            (Some (Vendor.JDict (<["status"%string := st]> d))))
       = PsxFetch.fetch_from_api
           (Vendor.Answered content_type (Some (Vendor.JDict d))))
    /\ PsxFetch.fetch_from_api
         (Vendor.Answered content_type
            (Some (Vendor.JDict (delete "status"%string d))))
       = PsxFetch.fetch_from_api
           (Vendor.Answered content_type (Some (Vendor.JDict d)))
    /\ (forall v,
          d !! "data"%string = Some v ->
          PsxFetch.fetch_from_api
            (Vendor.Answered content_type (Some (Vendor.JDict d))) = v)
    /\ (d !! "data"%string = None ->
        PsxFetch.fetch_from_api
          (Vendor.Answered content_type (Some (Vendor.JDict d)))
        = Vendor.JNull).
Proof.
  intros content_type d. rewrite !psx_fetch_dict. unfold Vendor.item.
  split; [|split; [|split]].
  - intros st. rewrite psx_fetch_dict. unfold Vendor.item.
    now rewrite lookup_insert_ne.
  - now rewrite lookup_delete_ne.
  - now intros v ->.
  - now intros ->.
Qed.

(** A response object marked as an error is accepted with its data. *)
Lemma psx_fetch_ignores_status_witness :
  PsxFetch.fetch_from_api
    (Vendor.Answered "application/json"
       (Some (Vendor.JDict
                {[ "status"%string := Vendor.JStr "error";
                   "data"%string := Vendor.JList [Vendor.JInt 1] ]})))
  = Vendor.JList [Vendor.JInt 1].
Proof.
  apply (proj1 (proj2 (proj2 (psx_fetch_ignores_status _ _)))).
  vm_compute. reflexivity.
Defined.

Lemma infix_of_prefix needle l :
  prefixb needle l = true -> Vendor.infix_of needle l = true.
Proof.
  intros H. destruct l; cbn [Vendor.infix_of]; now rewrite H.
Qed.

Lemma infix_of_middle needle a b :
  Vendor.infix_of needle (a ++ needle ++ b) = true.
Proof.
  induction a as [|c a IH].
  - cbn [app]. apply infix_of_prefix. apply (prefixb_app needle b).
  - cbn [app Vendor.infix_of]. rewrite IH. apply orb_true_r.
Qed.

(** X27 — the index manager's [fetch_from_api] refuses every response
    whose content type mentions [text/html], without reading the body,
    even when the body is the JSON it expects.  On every other response
    it returns exactly what the ticker manager's [fetch_from_api]
    returns on it. *)
Theorem spx_fetch_refuses_html :
  (forall before after body,
     SpxFetch.fetch_from_api
       (Vendor.Answered (before +:+ "text/html" +:+ after) body)
     = Vendor.JNull)
  /\ (forall content_type body,
        Vendor.contains "text/html" content_type = false ->
        SpxFetch.fetch_from_api (Vendor.Answered content_type body)
        = PsxFetch.fetch_from_api (Vendor.Answered content_type body))
  /\ SpxFetch.fetch_from_api Vendor.Failed
     = PsxFetch.fetch_from_api Vendor.Failed.
Proof.
  split; [|split; [|reflexivity]].
  - intros before after body. unfold SpxFetch.fetch_from_api.
    unfold Vendor.contains. rewrite !chars_append.
    now rewrite infix_of_middle.
  - intros content_type body Hct.
    unfold SpxFetch.fetch_from_api. rewrite Hct.
    destruct body as [[| | | | | |d]|]; try reflexivity.
    rewrite psx_fetch_dict. unfold Vendor.item, Vendor.has_key.
    now destruct (d !! "data"%string).
Qed.

(** A JSON list served as [application/json] comes back from both
    managers alike. *)
Lemma spx_fetch_refuses_html_witness :
  SpxFetch.fetch_from_api
    (Vendor.Answered "application/json"
       (Some (Vendor.JList [Vendor.JInt 1])))
  = PsxFetch.fetch_from_api
      (Vendor.Answered "application/json"
         (Some (Vendor.JList [Vendor.JInt 1]))).
Proof.
  apply (proj1 (proj2 spx_fetch_refuses_html)).
  vm_compute. reflexivity.
Defined.

(** ** The klines of the crypto vendor *)

(** Only a list of at least six fields makes a record. *)
Lemma kline_record_shape local_day kline row :
  CryptoFetch.kline_record local_day kline = Some row ->
  exists items,
    kline = Vendor.JList items /\ (6 <= List.length items)%nat.
Proof.
  unfold CryptoFetch.kline_record. intros H.
  apply bind_Some in H as (open_time_ms & H0 & H).
  apply bind_Some in H as (date & Hdate & H).
  apply bind_Some in H as (o & _ & H).
  apply bind_Some in H as (h & _ & H).
  apply bind_Some in H as (l & _ & H).
  apply bind_Some in H as (c & _ & H).
  apply bind_Some in H as (v & H5 & _).
  apply bind_Some in H5 as (v5 & H5 & _).
  destruct kline as [| | | |s|items|d]; try discriminate H0.
  - cbn [CryptoFetch.getitem] in H0.
    destruct (nth_error (chars s) 0); [|discriminate H0].
    injection H0 as <-. discriminate Hdate.
  - exists items. split; [reflexivity|].
    cbn [CryptoFetch.getitem] in H5.
    assert (Hlt : (5 < List.length items)%nat).
    { apply nth_error_Some. congruence. }
    lia.
Qed.

Lemma crypto_fetch_failed_run env symbol force w :
  Crypto.api_response env = None \/ Crypto.api_response env = Some [] ->
  fst (Crypto.update_data env symbol force w)
  = mkResult error (FailedToFetch (Crypto.normalize symbol)) 0 None None
  /\ files (snd (Crypto.update_data env symbol force w)) = files w.
Proof.
  intros H. unfold Crypto.update_data, Crypto.load_stored_data,
    Frame.load_stored_data.
  destruct force; cbn [negb];
    [|destruct (files w !! _) as [[t|]|]];
    destruct H as [-> | ->]; split; reflexivity.
Qed.

(** X28 — the crypto manager's [fetch_from_api] is all or nothing.  When
    it returns a list for a JSON list of klines, the list has one record
    per kline, in the order of the klines, each the record of its kline;
    every such kline is itself a list of at least six fields.  When a
    single kline makes no record (too short, not a list, a price that
    [float()] refuses, an open time the clock refuses), the whole answer
    is dropped, [update_data] reports a failed fetch and the store keeps
    its files. *)
Theorem crypto_fetch_all_or_nothing :
  forall local_day content_type klines,
    let fetched :=
      CryptoFetch.fetch_from_api local_day
        (Vendor.Answered content_type (Some (Vendor.JList klines))) in
    (forall rows,
       fetched = Some rows ->
       Forall2 (fun kline row =>
                  CryptoFetch.kline_record local_day kline = Some row
                  /\ exists items,
                       kline = Vendor.JList items
                       /\ (6 <= List.length items)%nat)
         klines rows
       /\ List.length rows = List.length klines)
    /\ (forall kline,
          In kline klines ->
          CryptoFetch.kline_record local_day kline = None ->
          fetched = None
          /\ forall write_ok symbol force w,
               let run :=
                 Crypto.update_data (Crypto.mkEnv fetched write_ok)
                   symbol force w in
               fst run =
                 mkResult error (FailedToFetch (Crypto.normalize symbol))
                   0 None None
               /\ files (snd run) = files w).
Proof.
  intros local_day content_type klines fetched.
  unfold fetched, CryptoFetch.fetch_from_api.
  cbn [CryptoFetch.iterate mbind option_bind].
  split.
  - intros rows H. apply mapM_Some in H. split.
    + induction H as [|kline row klines rows Hrow _ IH]; constructor.
      * split; [exact Hrow|]. eapply kline_record_shape; eauto.
      * exact IH.
    + symmetry. eapply Forall2_length; eauto.
  - intros kline Hin Hnone.
    assert (Hfetch :
      mapM (CryptoFetch.kline_record local_day) klines = None).
    { apply mapM_None. apply List.Exists_exists.
      exists kline. split; assumption. }
    rewrite Hfetch. split; [reflexivity|].
    intros write_ok symbol force w.
    apply crypto_fetch_failed_run. now left.
Qed.

(** Two klines, the second one a field short: nothing is fetched. *)
Lemma crypto_fetch_all_or_nothing_witness :
  CryptoFetch.fetch_from_api (fun _ => Some 0%Z)
    (Vendor.Answered ""
       (Some (Vendor.JList
                [Vendor.JList
                   [Vendor.JInt 0; Vendor.JStr "1"; Vendor.JStr "1";
                    Vendor.JStr "1"; Vendor.JStr "1"; Vendor.JStr "1"];
                 Vendor.JList
                   [Vendor.JInt 0; Vendor.JStr "1"; Vendor.JStr "1";
                    Vendor.JStr "1"; Vendor.JStr "1"]])))
  = None.
Proof.
  apply (proj2 (crypto_fetch_all_or_nothing (fun _ => Some 0%Z) ""
                  [Vendor.JList
                     [Vendor.JInt 0; Vendor.JStr "1"; Vendor.JStr "1";
                      Vendor.JStr "1"; Vendor.JStr "1"; Vendor.JStr "1"];
                   Vendor.JList
                     [Vendor.JInt 0; Vendor.JStr "1"; Vendor.JStr "1";
                      Vendor.JStr "1"; Vendor.JStr "1"]])
           (Vendor.JList
              [Vendor.JInt 0; Vendor.JStr "1"; Vendor.JStr "1";
               Vendor.JStr "1"; Vendor.JStr "1"])).
  - right. now left.
  - vm_compute. reflexivity.
Defined.

(** ** The number parser *)

Lemma trimmed_all sp k :
  Forall (fun c => sp c = false) k -> trimmed sp k.
Proof.
  intros Hk. destruct k as [|c k]; [exact I|].
  rewrite List.Forall_forall in Hk. split; [apply Hk; now left|].
  destruct (last_nonempty (c :: k) ltac:(discriminate)) as [c' Hc'].
  exists c'. split; [exact Hc'|]. apply Hk. now apply last_In.
Qed.

(** Stripping a text that [float()] accepts leaves a text that
    [float()] reads as the same number. *)
Lemma py_float_strip s x :
  py_float s = Ret x -> py_float (strip s) = Ret x.
Proof.
  intros H.
  destruct (py_float_accepts _ _ H)
    as (a & k & b & Hl & Ha & Hb & Hne & Hk & Hlit).
  assert (Hstrip : strip s = text k).
  { unfold strip. rewrite Hl. f_equal. apply strip_by_trimmed.
    - eapply List.Forall_impl; [|exact Ha]. apply c_space_is_space.
    - eapply List.Forall_impl; [|exact Hb]. apply c_space_is_space.
    - apply trimmed_all. eapply List.Forall_impl; [|exact Hk].
      intros c Hc. apply (numeric_char_not_space c Hc). }
  rewrite Hstrip. unfold py_float. rewrite chars_text.
  rewrite strip_by_trimmed_id; [exact Hlit|].
  apply trimmed_all. eapply List.Forall_impl; [|exact Hk].
  intros c Hc. apply (numeric_char_not_space c Hc).
Qed.

Lemma parse_number_field_returns entry field :
  exists r, SpxNumber.parse_number entry field None = Ret r.
Proof.
  unfold SpxNumber.parse_number.
  destruct (String.eqb _ ""); [eauto|].
  apply try_float_returns.
Qed.

(** X29 — [parse_number] on an entry of strings never raises.  It
    returns the raw field read by [float()] whenever that succeeds,
    whatever the formatted field holds; when the raw field is not named,
    absent, empty or refused by [float()] it reads the formatted field
    instead: commas removed and blanks stripped, [None] when the field
    is absent, empty or still refused. *)
Theorem parse_number_prefers_raw :
  forall entry field raw,
    (exists r, SpxNumber.parse_number entry field (Some raw) = Ret r)
    /\ (forall s x,
          raw <> ""%string ->
          entry !! raw = Some s ->
          py_float s = Ret x ->
          SpxNumber.parse_number entry field (Some raw) = Ret (Some x))
    /\ (raw = ""%string
        \/ entry !! raw = None
        \/ (exists s e, entry !! raw = Some s /\ py_float s = Raise e) ->
        SpxNumber.parse_number entry field (Some raw)
        = SpxNumber.parse_number entry field None)
    /\ (forall v x,
          entry !! field = Some v ->
          py_float (replace "," "" v) = Ret x ->
          SpxNumber.parse_number entry field None = Ret (Some x))
    /\ (entry !! field = None \/ entry !! field = Some ""%string ->
        SpxNumber.parse_number entry field None = Ret None).
Proof.
  intros entry field raw.
  assert (Hfallback :
    raw = ""%string
    \/ entry !! raw = None
    \/ (exists s e, entry !! raw = Some s /\ py_float s = Raise e) ->
    SpxNumber.parse_number entry field (Some raw)
    = SpxNumber.parse_number entry field None).
  { intros Hcase. unfold SpxNumber.parse_number.
    destruct Hcase as [->|[->|(s & e & -> & Hs)]].
    - reflexivity.
    - cbn [default from_option id]. now rewrite andb_false_r.
    - cbn [default from_option id]. rewrite Hs.
      rewrite (py_float_raises _ _ Hs).
      now destruct (negb (String.eqb raw "") && negb (String.eqb s "")). }
  assert (Hraw :
    forall s x,
      raw <> ""%string ->
      entry !! raw = Some s ->
      py_float s = Ret x ->
      SpxNumber.parse_number entry field (Some raw) = Ret (Some x)).
  { intros s x Hraw Hs Hx. unfold SpxNumber.parse_number.
    rewrite Hs. cbn [default from_option id]. rewrite Hx.
    apply String.eqb_neq in Hraw. rewrite Hraw.
    destruct (String.eqb_spec s "") as [->|_]; [|reflexivity].
    vm_compute in Hx. discriminate Hx. }
  split; [|split; [exact Hraw|split; [exact Hfallback|split]]].
  - destruct (String.eqb_spec raw "") as [Hempty|Hraw'].
    { rewrite Hfallback by now left. apply parse_number_field_returns. }
    destruct (entry !! raw) as [s|] eqn:Hs.
    2:{ rewrite Hfallback by (right; now left).
        apply parse_number_field_returns. }
    destruct (py_float s) as [x|e] eqn:Hx.
    + rewrite (Hraw s x Hraw' eq_refl Hx). eauto.
    + rewrite Hfallback by (right; right; eauto).
      apply parse_number_field_returns.
  - intros v x Hv Hx. unfold SpxNumber.parse_number.
    rewrite Hv. cbn [default from_option id].
    destruct (String.eqb_spec v "") as [->|_].
    { vm_compute in Hx. discriminate Hx. }
    cbv zeta. now rewrite (py_float_strip _ _ Hx).
  - unfold SpxNumber.parse_number. intros [->| ->]; reflexivity.
Qed.

(** The raw close is used even though the formatted close differs; a
    raw close that is no number gives way to the formatted one. *)
Lemma parse_number_prefers_raw_witness :
  SpxNumber.parse_number
    {[ "last_close"%string := "2,067.56"%string;
       "last_closeRaw"%string := "2067.5"%string ]}
    "last_close" (Some "last_closeRaw"%string)
  = Ret (Some (Fin (4135 # 2)))
  /\ SpxNumber.parse_number
       {[ "last_close"%string := "2,067.56"%string;
          "last_closeRaw"%string := "n/a"%string ]}
       "last_close" (Some "last_closeRaw"%string)
     = Ret (Some (Fin (51689 # 25))).
Proof.
  split.
  - apply (proj1 (proj2 (parse_number_prefers_raw
             {[ "last_close"%string := "2,067.56"%string;
                "last_closeRaw"%string := "2067.5"%string ]}
             "last_close"%string "last_closeRaw"%string))
             "2067.5"%string).
    + discriminate.
    + vm_compute. reflexivity.
    + vm_compute. reflexivity.
  - destruct (parse_number_prefers_raw
                {[ "last_close"%string := "2,067.56"%string;
                   "last_closeRaw"%string := "n/a"%string ]}
                "last_close"%string "last_closeRaw"%string)
      as (_ & _ & Hfallback & Hfield & _).
    rewrite Hfallback.
    + apply (Hfield "2,067.56"%string).
      * vm_compute. reflexivity.
      * vm_compute. reflexivity.
    + right. right. exists "n/a"%string, ValueError.
      split; vm_compute; reflexivity.
Defined.
